(** * OCM Demo Playground: environment reconciliation, verified model

    A shallow embedding of the Python sources

      - [src/utils/config.py]        ([Config])
      - [src/utils/commands.py]      ([command_exists], [CommandRunner])
      - [src/utils/docker_utils.py]  ([DockerManager])
      - [src/utils/ocm_utils.py]     ([OCMClient.check_ocm_available],
                                      [OCMClient.get_version])
      - [src/core/environment.py]    ([EnvironmentManager])
      - [src/core/demo.py]           ([DemoRunner.list_available_examples])

    The program is glue around the operating system, so the embedding is
    a state-and-exception monad over an explicit outside world: every
    interaction with the host (process creation, [shutil.which], network
    reads, file operations, [time.sleep], the logging wrapper) is an
    event appended to a trace, and the host's answer comes from a world
    handler that is a parameter of the development.

    Text is modelled by [string]; a character is a code point below 256. *)

From Stdlib Require Import String Ascii List ZArith Bool Lia.
From Stdlib Require Import DecimalString DecimalZ DecimalPos.
From Stdlib Require Import Sorting.Mergesort Sorting.Sorted Sorting.Permutation.
From Stdlib Require Import Structures.Orders.
Import ListNotations.
Local Open Scope string_scope.
Local Open Scope Z_scope.

Set Implicit Arguments.

(* ===================================================================== *)
(** ** Python built-ins used by the sources *)
(* ===================================================================== *)

Module Py.

(** [str(n)] for an [int]. *)
Definition str_int (n : Z) : string := NilZero.string_of_int (Z.to_int n).

(** [str.isspace] on one character (code points below 256). *)
Definition isspace (c : ascii) : bool :=
  let n := N_of_ascii c in
  (((9 <=? n) && (n <=? 13)) || ((28 <=? n) && (n <=? 32))
   || (n =? 133) || (n =? 160))%N.

Fixpoint lstrip (s : string) : string :=
  match s with
  | String c t => if isspace c then lstrip t else s
  | EmptyString => EmptyString
  end.

(** Drops trailing white space: a character is kept when it is not
    white space or when something is kept after it. *)
Fixpoint rstrip (s : string) : string :=
  match s with
  | EmptyString => EmptyString
  | String c t =>
      match rstrip t with
      | EmptyString => if isspace c then EmptyString else String c EmptyString
      | r => String c r
      end
  end.

(** [s.strip()] *)
Definition strip (s : string) : string := rstrip (lstrip s).

(** [s.split(sep)] for a one-character separator: never the empty list. *)
Fixpoint split (sep : ascii) (s : string) : list string :=
  match s with
  | EmptyString => [EmptyString]
  | String c t =>
      if Ascii.eqb c sep then EmptyString :: split sep t
      else match split sep t with
           | w :: ws => String c w :: ws
           | [] => [String c EmptyString]
           end
  end.

Definition newline : ascii := ascii_of_nat 10.

(** [c.lower()] on one character (code points below 256). *)
Definition lower_char (c : ascii) : ascii :=
  let n := N_of_ascii c in
  if (((65 <=? n) && (n <=? 90))
      || ((192 <=? n) && (n <=? 222) && negb (n =? 215)))%N
  then ascii_of_N (n + 32) else c.

(** [s.lower()] *)
Fixpoint lower (s : string) : string :=
  match s with
  | EmptyString => EmptyString
  | String c t => String (lower_char c) (lower t)
  end.

(** [s.startswith(p)] *)
Definition startswith (s p : string) : bool := String.prefix p s.

(** [sub in s] for two strings: substring test. *)
Fixpoint contains (s sub : string) : bool :=
  String.prefix sub s
  || match s with
     | EmptyString => false
     | String _ t => contains t sub
     end.

(** [x in l] for a list of strings. *)
Definition mem (x : string) (l : list string) : bool :=
  existsb (String.eqb x) l.

(** [sep.join(l)] *)
Definition join (sep : string) (l : list string) : string :=
  String.concat sep l.

(** Truth value of a [str]: the empty string is false. *)
Definition truthy (s : string) : bool :=
  match s with EmptyString => false | _ => true end.

(** Truth value of an [Optional[str]]. *)
Definition truthy_opt (o : option string) : bool :=
  match o with Some s => truthy s | None => false end.

(** [a or b] where [a : Optional[int]] and [b : int]. *)
Definition or_int (a : option Z) (b : Z) : Z :=
  match a with
  | Some v => if v =? 0 then b else v
  | None => b
  end.

(** [a or b] where [a : Optional[str]] and [b : str]. *)
Definition or_str (a : option string) (b : string) : string :=
  match a with
  | Some v => if truthy v then v else b
  | None => b
  end.

(** A [dict] built from a literal: insertion-ordered association list. *)
Definition dict (V : Type) := list (string * V).

(** [d.get(k, default)] *)
Fixpoint get {V} (d : dict V) (k : string) (default : V) : V :=
  match d with
  | [] => default
  | (k', v) :: r => if String.eqb k k' then v else get r k default
  end.

(** [d.values()] *)
Definition values {V} (d : dict V) : list V := map snd d.

(** [all(l)] *)
Definition all (l : list bool) : bool := forallb (fun b => b) l.

(** The order of [str]: code point by code point. *)
Module StrOrder <: TotalLeBool.
Definition t := string.
Definition leb := String.leb.
Definition leb_total
  : forall a1 a2, leb a1 a2 = true \/ leb a2 a1 = true := String.leb_total.
End StrOrder.

Module StrSort := Sort StrOrder.

(** [sorted(l)] for a list of strings. *)
Definition sorted (l : list string) : list string := StrSort.sort l.

(** [int(s)] for a [str] (base 10, code points below 256).  White space
    around the literal is dropped; a sign may precede the digits; one
    underscore may stand between two digits; a literal of more than 4300
    digits is refused (the default of [sys.set_int_max_str_digits]).
    [None] stands for [ValueError]. *)
Definition is_digit (c : ascii) : bool :=
  let n := N_of_ascii c in ((48 <=? n) && (n <=? 57))%N.

Definition underscore : ascii := "_".

(** Digits, with single underscores between digits only;
    [after_digit] tells whether the previous character was a digit. *)
Fixpoint digits_well_formed (s : string) (after_digit : bool) : bool :=
  match s with
  | EmptyString => after_digit
  | String c t =>
      if is_digit c then digits_well_formed t true
      else if Ascii.eqb c underscore
           then after_digit && digits_well_formed t false
           else false
  end.

Fixpoint remove_underscores (s : string) : string :=
  match s with
  | EmptyString => EmptyString
  | String c t =>
      if Ascii.eqb c underscore then remove_underscores t
      else String c (remove_underscores t)
  end.

Definition max_str_digits : nat := 4300.

Definition int_of_digits (body : string) : option Z :=
  if digits_well_formed body false
     && (String.length (remove_underscores body) <=? max_str_digits)%nat
  then option_map Z.of_uint (NilEmpty.uint_of_string (remove_underscores body))
  else None.

Definition int_of_str (s : string) : option Z :=
  match strip s with
  | String sign body =>
      if Ascii.eqb sign "-" then option_map Z.opp (int_of_digits body)
      else if Ascii.eqb sign "+" then int_of_digits body
      else int_of_digits (String sign body)
  | EmptyString => None
  end.

End Py.

(* ===================================================================== *)
(** ** src/utils/config.py *)
(* ===================================================================== *)

Record Config := {
  registry_port : Z;
  registry_name : string;
  registry_host : string;
  cluster_name : string;
  namespace : string;
  demo_duration : Z;
  project_root : option string
}.

(** The dataclass defaults. *)
Definition Config_default : Config := {|
  registry_port := 5001;
  registry_name := "local-registry";
  registry_host := "localhost";
  cluster_name := "ocm-demo";
  namespace := "ocm-demos";
  demo_duration := 300;
  project_root := None
|}.

(** The configuration of the unit test [test_registry_url]. *)
Definition example_config : Config :=
  {| registry_port := 8080;
     registry_name := "local-registry";
     registry_host := "example.com";
     cluster_name := "ocm-demo";
     namespace := "ocm-demos";
     demo_duration := 300;
     project_root := None |}.

(** [Config.registry_url] *)
Definition registry_url (self : Config) : string :=
  registry_host self ++ ":" ++ Py.str_int (registry_port self).

(* ===================================================================== *)
(** ** The outside world *)
(* ===================================================================== *)

(** [Union[str, List[str]]]: a shell line or an argument vector. *)
Inductive command :=
| CmdStr (line : string)
| CmdList (argv : list string).

Definition environ := list (string * string).

(** The exceptions the sources raise, re-raise or catch.  All are
    subclasses of [Exception]; [OtherException] stands for every class
    the sources do not name ([PermissionError], [URLError], [KeyError],
    [AttributeError], ...).  What is not an [Exception]
    ([KeyboardInterrupt], [SystemExit]) is outside the model. *)
Inductive exn :=
| CalledProcessError (returncode : Z) (cmd : command)
                     (output stderr : option string)
| FileNotFoundError (msg : string)
| OtherException (msg : string).

Inductive result (A : Type) :=
| Ok (a : A)
| Raise (e : exn).
Arguments Ok {A} a.
Arguments Raise {A} e.

(** [subprocess.CompletedProcess] *)
Record CompletedProcess := {
  args : command;
  returncode : Z;
  stdout : option string;
  stderr : option string
}.

(** What the operating system does with a process creation request: the
    child ran and exited, the program was not found, or the creation
    failed for another reason. *)
Inductive spawned :=
| Exited (code : Z) (out err : string)
| NotFound (msg : string)
| SpawnFailed (msg : string).

(** The release metadata as [json.loads] returns it, restricted to the
    keys the installer reads. *)
Record Asset := {
  asset_name : string;
  browser_download_url : string
}.

Record Release := {
  tag_name : string;
  assets : list Asset
}.

(** Requests to the host, indexed by the type of the answer. *)
Inductive call : Type -> Type :=
| shutil_which (cmd : string) : call (option string)
| subprocess_spawn (cmd : command) (cwd : option string)
                   (env : option environ) (shell : bool) : call spawned
| time_sleep (secs : Z) : call unit
| platform_system : call string
| platform_machine : call string
| urlopen_json (url : string) : call (result Release)
| urlopen_read (url : string) : call (result string)
| tempfile_create : call (result string)
| file_write (path data : string) : call (result unit)
| environ_get (var : string) : call (option string)
| expanduser_home : call string
| os_access_w (path : string) : call bool
| os_makedirs (path : string) : call (result unit)
| os_rename (src dst : string) : call (result unit)
| os_chmod (path : string) (mode : Z) : call (result unit)
| path_exists (path : string) : call bool
| path_iterdir (path : string) : call (result (list string))
| path_is_dir (path : string) : call bool.

(** The functions of [src/utils/logging.py], which is a wrapper around
    the logging library: an event records which one was called and with
    which message. *)
Inductive log_kind := DEBUG | INFO | SUCCESS | WARNING | ERROR | HINT.

Inductive event :=
| EvLog (kind : log_kind) (msg : string)
| EvCall {R : Type} (c : call R).

(** Classification of the events. *)
Definition is_log (e : event) : bool :=
  match e with EvLog _ _ => true | EvCall _ => false end.

Definition is_subprocess (e : event) : bool :=
  match e with
  | EvCall (subprocess_spawn _ _ _ _) => true
  | _ => false
  end.

Definition is_network (e : event) : bool :=
  match e with
  | EvCall (urlopen_json _) | EvCall (urlopen_read _) => true
  | _ => false
  end.

Definition is_file_write (e : event) : bool :=
  match e with
  | EvCall tempfile_create | EvCall (file_write _ _)
  | EvCall (os_makedirs _) | EvCall (os_rename _ _)
  | EvCall (os_chmod _ _) => true
  | _ => false
  end.

Definition is_probe (e : event) : bool :=
  match e with
  | EvCall (shutil_which _) => true
  | _ => false
  end.

(** An event with an effect outside the process. *)
Definition is_external (e : event) : bool :=
  is_subprocess e || is_network e || is_file_write e.

(** The events of a trace that are not log lines. *)
Definition interactions (t : list event) : list event :=
  filter (fun e => negb (is_log e)) t.

(** A host: its state, how it answers a request, the flavour of its
    [os.path] module ([os.pathsep], [os.path.join], [os.path.dirname])
    and the text its interpreter gives a [CalledProcessError]. *)
Record Host := {
  World : Type;
  sys : forall R, call R -> World -> R * World;
  os_pathsep : ascii;
  os_path_join : string -> list string -> string;
  os_path_dirname : string -> string;
  cpe_text : Z -> command -> string
}.

(** State of a run: the host's state and the events so far, oldest first. *)
Record State (W : Type) := {
  world : W;
  trace : list event
}.

(** Computations that read and extend the state and either return a
    value or raise. *)
Definition IO (W A : Type) : Type := State W -> result A * State W.

Definition ret {W A} (a : A) : IO W A := fun st => (Ok a, st).

Definition raise {W A} (e : exn) : IO W A := fun st => (Raise e, st).

Definition bind {W A B} (m : IO W A) (k : A -> IO W B) : IO W B :=
  fun st =>
    match m st with
    | (Ok a, st') => k a st'
    | (Raise e, st') => (Raise e, st')
    end.

(** [try: m  except Exception as e: h e] *)
Definition try_except {W A} (m : IO W A) (h : exn -> IO W A) : IO W A :=
  fun st =>
    match m st with
    | (Ok a, st') => (Ok a, st')
    | (Raise e, st') => h e st'
    end.

Declare Scope io_scope.
Delimit Scope io_scope with io.
Notation "x <- m ;; k" := (bind m (fun x => k))
  (at level 100, m at next level, right associativity) : io_scope.
Notation "m ;; k" := (bind m (fun _ => k))
  (at level 100, right associativity) : io_scope.
Local Open Scope io_scope.

Definition emit {W} (e : event) : IO W unit :=
  fun st => (Ok tt, {| world := world st; trace := trace st ++ [e] |}).

(** [for x in l: body x] *)
Fixpoint for_each {W A} (l : list A) (body : A -> IO W unit) : IO W unit :=
  match l with
  | [] => ret tt
  | x :: r => body x ;; for_each r body
  end.

(** [when c m]: [if c: m] *)
Definition when {W} (c : bool) (m : IO W unit) : IO W unit :=
  if c then m else ret tt.

(* ===================================================================== *)
(** ** Host requests, logging and the interpreter's [subprocess.run] *)
(* ===================================================================== *)

Section Primitives.

Variable host : Host.
Local Abbreviation io := (IO (World host)).

(** Sends a request to the host and records it. *)
Definition perform {R} (c : call R) : io R :=
  fun st =>
    let (r, w) := sys host c (world st) in
    (Ok r, {| world := w; trace := trace st ++ [EvCall c] |}).

(** A request that the interpreter turns into an exception on failure. *)
Definition perform_or_raise {R} (c : call (result R)) : io R :=
  r <- perform c ;;
  match r with
  | Ok a => ret a
  | Raise e => raise e
  end.

(** [logger.debug], [logger.info], ... of the logging library. *)
Definition logger_debug (msg : string) : io unit := emit (EvLog DEBUG msg).
Definition logger_info (msg : string) : io unit := emit (EvLog INFO msg).
Definition logger_warning (msg : string) : io unit := emit (EvLog WARNING msg).
Definition logger_error (msg : string) : io unit := emit (EvLog ERROR msg).

(** The convenience functions of [src/utils/logging.py]. *)
Definition log_info (message : string) : io unit := emit (EvLog INFO message).
Definition log_success (message : string) : io unit :=
  emit (EvLog SUCCESS message).
Definition log_warning (message : string) : io unit :=
  emit (EvLog WARNING message).
Definition log_error (message : string) (hint : option string) : io unit :=
  emit (EvLog ERROR message) ;;
  match hint with
  | Some h => when (Py.truthy h) (emit (EvLog HINT h))
  | None => ret tt
  end.

(** [subprocess.run(command, cwd=, env=, capture_output=, text=True,
    check=, shell=)]: the streams are present when captured, and
    [check] turns a non-zero exit into [CalledProcessError]. *)
Definition subprocess_run (command : command) (cwd : option string)
           (env : option environ) (capture_output check shell : bool)
  : io CompletedProcess :=
  r <- perform (subprocess_spawn command cwd env shell) ;;
  match r with
  | Exited code out err =>
      let o := if capture_output then Some out else None in
      let e := if capture_output then Some err else None in
      if check && negb (code =? 0)
      then raise (CalledProcessError code command o e)
      else ret {| args := command; returncode := code;
                  stdout := o; stderr := e |}
  | NotFound msg => raise (FileNotFoundError msg)
  | SpawnFailed msg => raise (OtherException msg)
  end.

(** [o.strip()] for [o : Optional[str]]; [None] has no such method. *)
Definition strip_of (o : option string) : io string :=
  match o with
  | Some s => ret (Py.strip s)
  | None =>
      raise (OtherException "'NoneType' object has no attribute 'strip'")
  end.

End Primitives.

(** [str(e)]: the message of the exception; the text of a
    [CalledProcessError] is the interpreter's. *)
Definition str_exn (host : Host) (e : exn) : string :=
  match e with
  | CalledProcessError rc c _ _ => cpe_text host rc c
  | FileNotFoundError m => m
  | OtherException m => m
  end.

(* ===================================================================== *)
(** ** src/utils/commands.py *)
(* ===================================================================== *)

Section Commands.

Variable host : Host.
Local Abbreviation io := (IO (World host)).

(** [command_exists(command)] *)
Definition command_exists (command : string) : io bool :=
  r <- perform host (shutil_which command) ;;
  ret (match r with Some _ => true | None => false end).

End Commands.

Module CommandRunner.

(** The attributes set by [__init__] (the logger aside). *)
Record t := { dry_run : bool }.

(** [CommandRunner(dry_run=...)] *)
Definition new (dry_run : bool) : t := {| dry_run := dry_run |}.

Section Methods.

Variable host : Host.
Local Abbreviation io := (IO (World host)).

(** [cmd_str = command if isinstance(command, str)
               else ' '.join(command)] *)
Definition cmd_str (command : command) : string :=
  match command with
  | CmdStr s => s
  | CmdList l => Py.join " " l
  end.

(** [if shell is None: shell = isinstance(command, str)] *)
Definition shell_flag (shell : option bool) (command : command) : bool :=
  match shell with
  | None => match command with CmdStr _ => true | CmdList _ => false end
  | Some b => b
  end.

(** [CommandRunner.run]; the defaults of the source are
    [cwd=None, env=None, capture_output=True, check=True, shell=None]. *)
Definition run (self : t) (command : command) (cwd : option string)
           (env : option environ) (capture_output check : bool)
           (shell : option bool) : io CompletedProcess :=
  let shell := shell_flag shell command in
  let cmd_str := cmd_str command in
  if dry_run self then
    logger_info host ("[DRY RUN] Would execute: " ++ cmd_str) ;;
    ret {| args := command; returncode := 0;
           stdout := Some ""; stderr := Some "" |}
  else
    logger_debug host ("Executing: " ++ cmd_str) ;;
    when (Py.truthy_opt cwd)
         (logger_debug host
            ("Working directory: " ++ Py.or_str cwd "")) ;;
    try_except
      (result <- subprocess_run host command cwd env
                                capture_output check shell ;;
       (if returncode result =? 0
        then logger_debug host ("Command succeeded: " ++ cmd_str)
        else logger_warning host
               ("Command returned non-zero exit code "
                ++ Py.str_int (returncode result) ++ ": " ++ cmd_str)) ;;
       ret result)
      (fun e =>
         match e with
         | CalledProcessError rc _ out err =>
             logger_error host ("Command failed: " ++ cmd_str) ;;
             logger_error host ("Exit code: " ++ Py.str_int rc) ;;
             when (Py.truthy_opt out)
                  (logger_error host ("STDOUT: " ++ Py.or_str out "")) ;;
             when (Py.truthy_opt err)
                  (logger_error host ("STDERR: " ++ Py.or_str err "")) ;;
             raise e
         | FileNotFoundError _ =>
             logger_error host ("Command not found: " ++ cmd_str) ;;
             raise (CalledProcessError 127 command None
                                       (Some (str_exn host e)))
         | OtherException _ => raise e
         end).

(** [CommandRunner.run_with_output] *)
Definition run_with_output (self : t) (command : command)
           (cwd : option string) (env : option environ)
  : io (Z * option string * option string) :=
  try_except
    (result <- run self command cwd env true false None ;;
     ret (returncode result, stdout result, stderr result))
    (fun e => ret (1, Some "", Some (str_exn host e))).

End Methods.

End CommandRunner.


(* ===================================================================== *)
(** ** src/utils/docker_utils.py *)
(* ===================================================================== *)

(** The dictionary returned by [get_registry_status]: a literal with
    six fixed keys. *)
Record RegistryStatus := {
  status_name : string;
  status_port : Z;
  status_url : string;
  status_running : bool;
  status_healthy : bool;
  status_docker_available : bool
}.

Module DockerManager.

(** The attributes set by [__init__]. *)
Record t := {
  runner : CommandRunner.t;
  config : Config;
  dry_run : bool
}.

(** [DockerManager(dry_run=...)], with [cfg] the value of [get_config()]. *)
Definition new (dry_run : bool) (cfg : Config) : t :=
  {| runner := CommandRunner.new dry_run; config := cfg; dry_run := dry_run |}.

Section Methods.

Variable host : Host.
Local Abbreviation io := (IO (World host)).
Local Abbreviation run := (CommandRunner.run host).

(** [check_docker_available] *)
Definition check_docker_available (self : t) : io bool :=
  found <- command_exists host "docker" ;;
  if negb found then
    log_error host "Docker not found" (Some "Please install Docker first") ;;
    ret false
  else
    try_except
      (result <- run (runner self) (CmdList ["docker"; "info"])
                     None None true false None ;;
       if negb (returncode result =? 0) then
         log_error host "Docker daemon not running"
                   (Some "Please start Docker") ;;
         ret false
       else
         log_success host "Docker is available and running" ;;
         ret true)
      (fun e =>
         log_error host ("Failed to check Docker status: "
                         ++ str_exn host e) None ;;
         ret false).

(** [is_registry_running] *)
Definition is_registry_running (self : t) (name : option string) : io bool :=
  let name := Py.or_str name (registry_name (config self)) in
  try_except
    (result <- run (runner self)
                   (CmdList ["docker"; "ps"; "--format"; "{{.Names}}"])
                   None None true false None ;;
     if returncode result =? 0 then
       stripped <- strip_of host (stdout result) ;;
       let running_containers := Py.split Py.newline stripped in
       ret (Py.mem name running_containers)
     else ret false)
    (fun _ => ret false).

(** [is_registry_healthy] *)
Definition is_registry_healthy (self : t) (port : option Z) : io bool :=
  let port := Py.or_int port (registry_port (config self)) in
  try_except
    (result <- run (runner self)
                   (CmdList ["curl"; "-f"; "-s";
                             "http://localhost:" ++ Py.str_int port ++ "/v2/"])
                   None None true false None ;;
     ret (returncode result =? 0))
    (fun _ => ret false).

(** [cleanup_registry_port] *)
Definition cleanup_registry_port (self : t) (port : Z) : io unit :=
  try_except
    (result <- run (runner self)
                   (CmdList ["docker"; "ps"; "-a";
                             "--filter"; "publish=" ++ Py.str_int port;
                             "--format"; "{{.ID}}"])
                   None None true false None ;;
     if returncode result =? 0 then
       stripped <- strip_of host (stdout result) ;;
       if Py.truthy stripped then
         let container_ids := Py.split Py.newline stripped in
         for_each container_ids (fun container_id =>
           when (Py.truthy container_id)
             (log_info host ("Removing container " ++ container_id
                             ++ " using port " ++ Py.str_int port) ;;
              run (runner self)
                  (CmdList ["docker"; "rm"; "-f"; container_id])
                  None None true false None ;;
              ret tt))
       else ret tt
     else ret tt)
    (fun e =>
       logger_debug host ("Error cleaning up port " ++ Py.str_int port
                          ++ ": " ++ str_exn host e)).

(** The loop [for i in range(30)] of [start_registry] with what follows
    it, [attempts] iterations before the end of the range. *)
Fixpoint wait_until_healthy (self : t) (port : Z) (attempts : nat)
  : io bool :=
  match attempts with
  | O =>
      log_error host "Registry failed to become healthy within 30 seconds"
                None ;;
      ret false
  | S remaining =>
      healthy <- is_registry_healthy self (Some port) ;;
      if healthy then
        log_success host ("Registry started successfully on port "
                          ++ Py.str_int port) ;;
        ret true
      else
        perform host (time_sleep 1) ;;
        wait_until_healthy self port remaining
  end.

(** The argument vector that launches the registry container. *)
Definition launch_command (port : Z) (name : string) : command :=
  CmdList ["docker"; "run"; "-d";
           "-p"; Py.str_int port ++ ":5000";
           "--name"; name;
           "registry:2"].

(** [start_registry] *)
Definition start_registry (self : t) (port : option Z) (name : option string)
  : io bool :=
  let port := Py.or_int port (registry_port (config self)) in
  let name := Py.or_str name (registry_name (config self)) in
  log_info host ("Starting registry on port " ++ Py.str_int port ++ "...") ;;
  running <- is_registry_running self (Some name) ;;
  if running then
    log_success host "Registry already running" ;;
    ret true
  else
    cleanup_registry_port self port ;;
    run (runner self) (CmdList ["docker"; "rm"; "-f"; name])
        None None true false None ;;
    try_except
      (result <- run (runner self) (launch_command port name)
                     None None true true None ;;
       if returncode result =? 0 then
         log_info host "Waiting for registry to be ready..." ;;
         wait_until_healthy self port 30
       else
         log_error host "Failed to start registry container" None ;;
         ret false)
      (fun e =>
         log_error host ("Failed to start registry: " ++ str_exn host e)
                   None ;;
         ret false).

(** [stop_registry] *)
Definition stop_registry (self : t) (name : option string) : io bool :=
  let name := Py.or_str name (registry_name (config self)) in
  log_info host ("Stopping registry '" ++ name ++ "'...") ;;
  try_except
    (run (runner self) (CmdList ["docker"; "stop"; name])
         None None true false None ;;
     run (runner self) (CmdList ["docker"; "rm"; name])
         None None true false None ;;
     log_success host "Registry stopped" ;;
     ret true)
    (fun e =>
       log_error host ("Failed to stop registry: " ++ str_exn host e)
                 None ;;
       ret false).

(** [get_registry_status] *)
Definition get_registry_status (self : t) : io RegistryStatus :=
  let name := registry_name (config self) in
  let port := registry_port (config self) in
  running <- is_registry_running self (Some name) ;;
  healthy <- is_registry_healthy self (Some port) ;;
  docker_available <-
    (if negb (dry_run self) then check_docker_available self
     else ret true) ;;
  ret {| status_name := name;
         status_port := port;
         status_url := "http://localhost:" ++ Py.str_int port;
         status_running := running;
         status_healthy := healthy;
         status_docker_available := docker_available |}.

End Methods.

End DockerManager.


(* ===================================================================== *)
(** ** src/utils/ocm_utils.py *)
(* ===================================================================== *)

Module OCMClient.

(** The attributes set by [__init__]. *)
Record t := {
  runner : CommandRunner.t;
  config : Config;
  dry_run : bool
}.

(** [OCMClient(dry_run=...)] *)
Definition new (dry_run : bool) (cfg : Config) : t :=
  {| runner := CommandRunner.new dry_run; config := cfg; dry_run := dry_run |}.

Section Methods.

Variable host : Host.
Local Abbreviation io := (IO (World host)).
Local Abbreviation run := (CommandRunner.run host).

(** [check_ocm_available] *)
Definition check_ocm_available (self : t) : io bool :=
  found <- command_exists host "ocm" ;;
  if negb found then
    log_error host "OCM CLI not found"
              (Some "Please run the setup script to install it") ;;
    ret false
  else
    try_except
      (result <- run (runner self) (CmdList ["ocm"; "version"])
                     None None true true None ;;
       version <- strip_of host (stdout result) ;;
       log_success host ("OCM CLI is available: " ++ version) ;;
       ret true)
      (fun e =>
         log_error host ("Failed to check OCM CLI: " ++ str_exn host e) None ;;
         ret false).

(** [get_version] *)
Definition get_version (self : t) : io (option string) :=
  try_except
    (result <- run (runner self) (CmdList ["ocm"; "version"])
                   None None true true None ;;
     version <- strip_of host (stdout result) ;;
     ret (Some version))
    (fun _ => ret None).

(** [transfer_component] *)
Definition transfer_component (self : t) (source target : string)
           (component_ref : option string) : io bool :=
  let cmd := ["ocm"; "transfer"; "component"] in
  let cmd :=
    if Py.truthy_opt component_ref
    then (cmd ++ [Py.or_str component_ref ""])%list else cmd in
  let cmd := (cmd ++ [source; target])%list in
  try_except
    (log_info host ("Transferring component from " ++ source
                    ++ " to " ++ target) ;;
     result <- run (runner self) (CmdList cmd) None None true true None ;;
     if returncode result =? 0 then
       log_success host "Component transferred successfully" ;;
       ret true
     else
       log_error host "Failed to transfer component" None ;;
       ret false)
    (fun e =>
       log_error host ("Failed to transfer component: " ++ str_exn host e)
                 None ;;
       ret false).

(** [add_repository]; the default of [repo_type] is ["oci"]. *)
Definition add_repository (self : t) (name url repo_type : string)
  : io bool :=
  try_except
    (log_info host ("Adding repository '" ++ name ++ "' -> " ++ url) ;;
     result <- run (runner self)
                   (CmdList ["ocm"; "add"; "repository"; name; url;
                             "--type"; repo_type])
                   None None true true None ;;
     if returncode result =? 0 then
       log_success host ("Repository '" ++ name ++ "' added successfully") ;;
       ret true
     else
       log_error host ("Failed to add repository '" ++ name ++ "'") None ;;
       ret false)
    (fun e =>
       log_error host ("Failed to add repository '" ++ name ++ "': "
                       ++ str_exn host e) None ;;
       ret false).

(** [sign_component] *)
Definition sign_component (self : t) (component_ref private_key_file : string)
           (signature_name : option string) : io bool :=
  let cmd := ["ocm"; "sign"; "component"; component_ref;
              "--private-key"; private_key_file] in
  let cmd :=
    if Py.truthy_opt signature_name
    then (cmd ++ ["--signature"; Py.or_str signature_name ""])%list
    else cmd in
  try_except
    (log_info host ("Signing component " ++ component_ref) ;;
     result <- run (runner self) (CmdList cmd) None None true true None ;;
     if returncode result =? 0 then
       log_success host "Component signed successfully" ;;
       ret true
     else
       log_error host "Failed to sign component" None ;;
       ret false)
    (fun e =>
       log_error host ("Failed to sign component: " ++ str_exn host e) None ;;
       ret false).

(** [verify_component] *)
Definition verify_component (self : t) (component_ref : string)
           (public_key_file : option string) : io bool :=
  let cmd := ["ocm"; "verify"; "component"; component_ref] in
  let cmd :=
    if Py.truthy_opt public_key_file
    then (cmd ++ ["--public-key"; Py.or_str public_key_file ""])%list
    else cmd in
  try_except
    (log_info host ("Verifying component " ++ component_ref) ;;
     result <- run (runner self) (CmdList cmd) None None true true None ;;
     if returncode result =? 0 then
       log_success host "Component verification successful" ;;
       ret true
     else
       log_error host "Component verification failed" None ;;
       ret false)
    (fun e =>
       log_error host ("Failed to verify component: " ++ str_exn host e)
                 None ;;
       ret false).

End Methods.

End OCMClient.

(* ===================================================================== *)
(** ** src/core/environment.py *)
(* ===================================================================== *)

(** The dictionary returned by [get_environment_status]. *)
Record EnvironmentStatus := {
  prerequisites : Py.dict bool;
  registry : RegistryStatus;
  ocm_version : option string;
  ready : bool
}.

Module EnvironmentManager.

(** The attributes set by [__init__]. *)
Record t := {
  runner : CommandRunner.t;
  config : Config;
  docker : DockerManager.t;
  ocm : OCMClient.t;
  dry_run : bool
}.

(** [EnvironmentManager(dry_run=...)] *)
Definition new (dry_run : bool) (cfg : Config) : t :=
  {| runner := CommandRunner.new dry_run;
     config := cfg;
     docker := DockerManager.new dry_run cfg;
     ocm := OCMClient.new dry_run cfg;
     dry_run := dry_run |}.

Section Methods.

Variable host : Host.
Local Abbreviation io := (IO (World host)).

(** [check_prerequisites] *)
Definition check_prerequisites (self : t) : io (Py.dict bool) :=
  log_info host "Checking prerequisites..." ;;
  docker_ok <- DockerManager.check_docker_available host (docker self) ;;
  ocm_ok <- OCMClient.check_ocm_available host (ocm self) ;;
  curl_ok <- command_exists host "curl" ;;
  kubectl_ok <- command_exists host "kubectl" ;;
  kind_ok <- command_exists host "kind" ;;
  git_ok <- command_exists host "git" ;;
  let prerequisites :=
    [("docker", docker_ok); ("ocm", ocm_ok); ("curl", curl_ok);
     ("kubectl", kubectl_ok); ("kind", kind_ok); ("git", git_ok)] in
  for_each prerequisites (fun item =>
    let '(tool, available) := item in
    if available : bool then log_success host (tool ++ " is available")
    else log_warning host (tool ++ " is not available")) ;;
  ret prerequisites.

(** The loop over [preferred_dirs] of [_get_install_directory]: the first
    directory that is on the search path and whose parent is writable. *)
Fixpoint first_preferred (path_dirs preferred_dirs : list string)
  : io (option string) :=
  match preferred_dirs with
  | [] => ret None
  | dir_path :: rest =>
      if Py.mem dir_path path_dirs then
        writable <- perform host (os_access_w (os_path_dirname host dir_path)) ;;
        if writable then ret (Some dir_path)
        else first_preferred path_dirs rest
      else first_preferred path_dirs rest
  end.

(** [_get_install_directory] *)
Definition _get_install_directory (self : t) : io string :=
  system <- perform host platform_system ;;
  if String.eqb (Py.lower system) "windows" then
    home <- perform host expanduser_home ;;
    ret (os_path_join host home ["bin"])
  else
    path <- perform host (environ_get "PATH") ;;
    let path_dirs :=
      Py.split (os_pathsep host)
               (match path with Some p => p | None => "" end) in
    home <- perform host expanduser_home ;;
    let preferred_dirs :=
      [os_path_join host home [".local"; "bin"];
       os_path_join host home ["bin"];
       "/usr/local/bin"] in
    found <- first_preferred path_dirs preferred_dirs ;;
    match found with
    | Some dir_path => ret dir_path
    | None => ret (os_path_join host home [".local"; "bin"])
    end.

(** [_get_install_hint] *)
Definition _get_install_hint (self : t) (tool : string) : string :=
  let hints :=
    [("docker", "https://docs.docker.com/get-docker/");
     ("kubectl", "https://kubernetes.io/docs/tasks/tools/install-kubectl/");
     ("kind", "https://kind.sigs.k8s.io/docs/user/quick-start/#installation");
     ("curl", "Install curl using your system package manager");
     ("git", "https://git-scm.com/downloads")] in
  Py.get hints tool ("Please install " ++ tool ++ " manually").

Definition api_url : string :=
  "https://api.github.com/repos/open-component-model/ocm/releases/latest".

(** The loop over [release_data['assets']]: the download URL of the
    first asset whose name contains [binary_name]. *)
Fixpoint find_download_url (binary_name : string) (assets : list Asset)
  : option string :=
  match assets with
  | [] => None
  | asset :: rest =>
      if Py.contains (asset_name asset) binary_name
      then Some (browser_download_url asset)
      else find_download_url binary_name rest
  end.

(** [_download_and_install_ocm].  The request [urlopen_json] stands for
    opening the URL, reading, decoding and [json.loads]; a body that
    lacks a key the code reads raises inside the same [try]. *)
Definition _download_and_install_ocm (self : t) (os_name arch : string)
  : io bool :=
  try_except
    (release_data <- perform_or_raise host (urlopen_json api_url) ;;
     let binary_name :=
       "ocm-" ++ tag_name release_data ++ "-" ++ os_name ++ "-" ++ arch in
     let binary_name :=
       if String.eqb os_name "windows" then binary_name ++ ".exe"
       else binary_name in
     let download_url :=
       find_download_url binary_name (assets release_data) in
     if negb (Py.truthy_opt download_url) then
       log_error host ("No suitable OCM CLI binary found for "
                       ++ os_name ++ "-" ++ arch) None ;;
       ret false
     else
       let download_url := Py.or_str download_url "" in
       log_info host ("Downloading OCM CLI from " ++ download_url) ;;
       tmp_path <- perform_or_raise host tempfile_create ;;
       body <- perform_or_raise host (urlopen_read download_url) ;;
       perform_or_raise host (file_write tmp_path body) ;;
       install_dir <- _get_install_directory self ;;
       perform_or_raise host (os_makedirs install_dir) ;;
       let binary_name := "ocm" in
       let binary_name :=
         if String.eqb os_name "windows" then binary_name ++ ".exe"
         else binary_name in
       let install_path := os_path_join host install_dir [binary_name] in
       (if dry_run self then
          log_info host ("[DRY RUN] Would install OCM CLI to " ++ install_path)
        else
          perform_or_raise host (os_rename tmp_path install_path) ;;
          perform_or_raise host (os_chmod install_path 493)) ;;
       found <- command_exists host "ocm" ;;
       if found || dry_run self then
         log_success host ("OCM CLI installed successfully to "
                           ++ install_path) ;;
         ret true
       else
         log_error host "OCM CLI installation failed - binary not found in PATH"
                   None ;;
         log_info host ("You may need to add " ++ install_dir
                        ++ " to your PATH") ;;
         ret false)
    (fun e =>
       log_error host ("Failed to download OCM CLI: " ++ str_exn host e) None ;;
       ret false).

(** [install_ocm_cli] *)
Definition install_ocm_cli (self : t) : io bool :=
  found <- command_exists host "ocm" ;;
  if found then
    log_success host "OCM CLI is already installed" ;;
    ret true
  else
    log_info host "Installing OCM CLI..." ;;
    try_except
      (system <- perform host platform_system ;;
       let os_name := Py.lower system in
       machine <- perform host platform_machine ;;
       let arch := Py.lower machine in
       let with_os (arch : string) : io bool :=
         if String.eqb os_name "darwin" then
           _download_and_install_ocm self "darwin" arch
         else if String.eqb os_name "linux" then
           _download_and_install_ocm self "linux" arch
         else if String.eqb os_name "windows" then
           _download_and_install_ocm self "windows" arch
         else
           log_error host ("Unsupported operating system: " ++ os_name) None ;;
           ret false in
       if Py.mem arch ["x86_64"; "amd64"] then with_os "amd64"
       else if Py.mem arch ["arm64"; "aarch64"] then with_os "arm64"
       else
         log_error host ("Unsupported architecture: " ++ arch) None ;;
         ret false)
      (fun e =>
         log_error host ("Failed to install OCM CLI: " ++ str_exn host e) None ;;
         ret false).

(** [missing_tools = [tool for tool, available in prerequisites.items()
                      if not available and tool != 'ocm']] *)
Definition missing_tools (prerequisites : Py.dict bool) : list string :=
  map fst (filter (fun item => negb (snd item)
                               && negb (String.eqb (fst item) "ocm"))
                  prerequisites).

(** [setup_environment]; the variable [success] of the source is the
    value passed from one step to the next. *)
Definition setup_environment (self : t) (install_missing : bool) : io bool :=
  log_info host "Setting up OCM Demo environment..." ;;
  let success := true in
  prerequisites <- check_prerequisites self ;;
  success <-
    (if install_missing then
       success <-
         (if negb (Py.get prerequisites "ocm" false) then
            installed <- install_ocm_cli self ;;
            ret (if negb installed then false else success)
          else ret success) ;;
       let missing_tools := missing_tools prerequisites in
       when (match missing_tools with [] => false | _ => true end)
         (log_warning host ("Missing tools: " ++ Py.join ", " missing_tools) ;;
          log_info host "Please install the missing tools manually:" ;;
          for_each missing_tools (fun tool =>
            log_info host ("  - " ++ tool ++ ": "
                           ++ _get_install_hint self tool))) ;;
       ret success
     else ret success) ;;
  success <-
    (if Py.get prerequisites "docker" false then
       started <- DockerManager.start_registry host (docker self) None None ;;
       if negb started then
         log_warning host "Failed to start local registry" ;;
         ret false
       else ret success
     else ret success) ;;
  (if success then
     log_success host "Environment setup completed successfully!"
   else
     log_error host "Environment setup completed with some issues" None) ;;
  ret success.

(** [cleanup_environment] *)
Definition cleanup_environment (self : t) : io bool :=
  log_info host "Cleaning up demo environment..." ;;
  let success := true in
  stopped <- DockerManager.stop_registry host (docker self) None ;;
  let success := if negb stopped then false else success in
  (if success then
     log_success host "Environment cleanup completed successfully!"
   else
     log_warning host "Environment cleanup completed with some issues") ;;
  ret success.

(** [get_environment_status] *)
Definition get_environment_status (self : t) : io EnvironmentStatus :=
  prerequisites <- check_prerequisites self ;;
  registry_status <- DockerManager.get_registry_status host (docker self) ;;
  version <- OCMClient.get_version host (ocm self) ;;
  ret {| prerequisites := prerequisites;
         registry := registry_status;
         ocm_version := version;
         ready := Py.all (Py.values prerequisites)
                  && status_running registry_status |}.

End Methods.

End EnvironmentManager.

(* ===================================================================== *)
(** ** src/core/demo.py *)
(* ===================================================================== *)

Module DemoRunner.

(** The attributes set by [__init__]. *)
Record t := {
  config : Config;
  environment : EnvironmentManager.t;
  dry_run : bool;
  examples_dir : string
}.

Section Methods.

Variable host : Host.
Local Abbreviation io := (IO (World host)).

(** The loop [for item in self.examples_dir.iterdir()] of
    [list_available_examples]; [examples] is the list built so far. *)
Fixpoint collect_examples (dir : string) (items examples : list string)
  : io (list string) :=
  match items with
  | [] => ret examples
  | name :: rest =>
      is_dir <- perform host (path_is_dir (os_path_join host dir [name])) ;;
      if is_dir && negb (Py.startswith name ".")
      then collect_examples dir rest (examples ++ [name])
      else collect_examples dir rest examples
  end.

(** [list_available_examples] *)
Definition list_available_examples (self : t) : io (list string) :=
  let examples := [] in
  present <- perform host (path_exists (examples_dir self)) ;;
  examples <-
    (if present then
       items <- perform_or_raise host (path_iterdir (examples_dir self)) ;;
       collect_examples (examples_dir self) items examples
     else ret examples) ;;
  ret (Py.sorted examples).

(** [_check_environment] *)
Definition _check_environment (self : t) : io bool :=
  status <- EnvironmentManager.get_environment_status host (environment self) ;;
  if negb (ready status) then
    log_error host "Environment not ready for demo" None ;;
    let missing :=
      map fst (filter (fun item => negb (snd item)) (prerequisites status)) in
    when (match missing with [] => false | _ => true end)
         (log_error host ("Missing prerequisites: " ++ Py.join ", " missing)
                    None) ;;
    when (negb (status_running (registry status)))
         (log_error host "Local registry not running" None) ;;
    log_info host "Please run the setup script first: python -m src.cli setup" ;;
    ret false
  else ret true.

(** [_run_bash_script]; [get_command_runner()] is a runner without the
    dry-run flag. *)
Definition _run_bash_script (self : t) (script_path : string) : io bool :=
  if dry_run self then
    log_info host ("[DRY RUN] Would execute: " ++ script_path) ;;
    ret true
  else
    try_except
      (let runner := CommandRunner.new false in
       CommandRunner.run host runner (CmdList ["chmod"; "+x"; script_path])
                         None None true false None ;;
       result <- CommandRunner.run host runner
                                   (CmdList ["bash"; script_path])
                                   None None true false None ;;
       ret (returncode result =? 0))
      (fun e =>
         log_error host ("Failed to run script " ++ script_path ++ ": "
                         ++ str_exn host e) None ;;
         ret false).

End Methods.

Section Scripts.

Variable host : Host.
Local Abbreviation io := (IO (World host)).

(** [str(base / part / ...)] for paths of [pathlib]: the text of the
    path that [base] makes with the parts, in the flavour of the host. *)
Variable path_str : string -> list string -> string.

(** [_run_example_script].  [script_path.exists()] is the request
    [path_exists], which answers [True] or [False], and
    [_run_bash_script] is given [str(script_path)]. *)
Definition _run_example_script (self : t) (relative_path script_name : string)
  : io bool :=
  let script_path :=
    path_str (examples_dir self) [relative_path; script_name] in
  present <- perform host (path_exists script_path) ;;
  if negb present then
    log_error host ("Script not found: " ++ script_path) None ;;
    ret false
  else _run_bash_script host self script_path.

End Scripts.

End DemoRunner.


(* ===================================================================== *)
(** ** src/utils/config.py: loading the configuration *)
(* ===================================================================== *)

Section ConfigLoading.

Variable host : Host.
Local Abbreviation io := (IO (World host)).

(** [os.getenv(name, default)] *)
Definition getenv (name default : string) : io string :=
  value <- perform host (environ_get name) ;;
  ret (match value with Some v => v | None => default end).

(** The text the interpreter gives the [ValueError] of [int(s)] for a
    string it cannot read.  It depends on [repr] and on the limits of
    the interpreter, and is left open. *)
Variable value_error_text : string -> string.

(** [int(s)] *)
Definition int_of (s : string) : io Z :=
  match Py.int_of_str s with
  | Some n => ret n
  | None => raise (OtherException (value_error_text s))
  end.

(** [Config.from_environment] *)
Definition from_environment : io Config :=
  port_text <- getenv "OCM_DEMO_REGISTRY_PORT" "5001" ;;
  port <- int_of port_text ;;
  name <- getenv "OCM_DEMO_REGISTRY_NAME" "local-registry" ;;
  registry_host <- getenv "OCM_DEMO_REGISTRY_HOST" "localhost" ;;
  cluster <- getenv "OCM_DEMO_CLUSTER_NAME" "ocm-demo" ;;
  namespace <- getenv "OCM_DEMO_NAMESPACE" "ocm-demos" ;;
  duration_text <- getenv "OCM_DEMO_DURATION" "300" ;;
  duration <- int_of duration_text ;;
  root <- perform host (environ_get "OCM_DEMO_PROJECT_ROOT") ;;
  ret {| registry_port := port;
         registry_name := name;
         registry_host := registry_host;
         cluster_name := cluster;
         namespace := namespace;
         demo_duration := duration;
         project_root := root |}.

(** [get_config]; the module variable [_config] is passed in and handed
    back with the result. *)
Definition get_config (_config : option Config)
  : io (Config * option Config) :=
  match _config with
  | None =>
      loaded <- from_environment ;;
      ret (loaded, Some loaded)
  | Some config => ret (config, Some config)
  end.

(** [set_config]: the new value of [_config]. *)
Definition set_config (config : Config) (_config : option Config)
  : option Config :=
  Some config.

End ConfigLoading.

(* ===================================================================== *)
(** ** Sample hosts *)
(* ===================================================================== *)

Module Sample.

(** [posixpath.join] *)
Fixpoint ends_with_slash (s : string) : bool :=
  match s with
  | EmptyString => false
  | String c EmptyString => Ascii.eqb c "/"
  | String _ t => ends_with_slash t
  end.

Definition posix_join (a : string) (parts : list string) : string :=
  fold_left (fun path b =>
               if Py.startswith b "/" then b
               else if negb (Py.truthy path) || ends_with_slash path
                    then path ++ b
                    else path ++ "/" ++ b)
            parts a.

(** [posixpath.dirname] *)
Fixpoint upto_last_slash (s : string) : option string :=
  match s with
  | EmptyString => None
  | String c t =>
      match upto_last_slash t with
      | Some h => Some (String c h)
      | None => if Ascii.eqb c "/" then Some "/" else None
      end
  end.

Fixpoint rstrip_slashes (s : string) : string :=
  match s with
  | EmptyString => EmptyString
  | String c t =>
      match rstrip_slashes t with
      | EmptyString => if Ascii.eqb c "/" then EmptyString
                       else String c EmptyString
      | r => String c r
      end
  end.

Definition posix_dirname (p : string) : string :=
  match upto_last_slash p with
  | None => ""
  | Some head =>
      match rstrip_slashes head with
      | EmptyString => head
      | stripped => stripped
      end
  end.

(** The text of a [CalledProcessError] for an argument vector without
    quotes, up to the rendering of the vector. *)
Definition cpe_message (rc : Z) (c : command) : string :=
  "Command '" ++ CommandRunner.cmd_str c
  ++ "' returned non-zero exit status " ++ Py.str_int rc ++ ".".

(** A host described by its answers. *)
Record Answers (W : Type) := {
  on_which : string -> W -> option string * W;
  on_spawn : command -> W -> spawned * W;
  on_release : W -> result Release * W;
  on_download : string -> W -> result string * W;
  on_listing : string -> W -> result (list string) * W;
  on_is_dir : string -> W -> bool * W;
  on_exists : string -> W -> bool * W;
  system_name : string;
  machine_name : string;
  search_path : option string;
  home_dir : string
}.

Definition answer {W} (a : Answers W) : forall R, call R -> W -> R * W :=
  fun R c =>
    match c in call R return W -> R * W with
    | shutil_which cmd => on_which a cmd
    | subprocess_spawn cmd _ _ _ => on_spawn a cmd
    | time_sleep _ => fun w => (tt, w)
    | platform_system => fun w => (system_name a, w)
    | platform_machine => fun w => (machine_name a, w)
    | urlopen_json _ => on_release a
    | urlopen_read url => on_download a url
    | tempfile_create => fun w => (Ok "/tmp/tmpocm", w)
    | file_write _ _ => fun w => (Ok tt, w)
    | environ_get var =>
        fun w => (if String.eqb var "PATH" then search_path a else None, w)
    | expanduser_home => fun w => (home_dir a, w)
    | os_access_w _ => fun w => (true, w)
    | os_makedirs _ => fun w => (Ok tt, w)
    | os_rename _ _ => fun w => (Ok tt, w)
    | os_chmod _ _ => fun w => (Ok tt, w)
    | path_exists p => on_exists a p
    | path_iterdir p => on_listing a p
    | path_is_dir p => on_is_dir a p
    end.

Definition posix_host {W} (a : Answers W) : Host :=
  {| World := W;
     sys := answer a;
     os_pathsep := ":";
     os_path_join := posix_join;
     os_path_dirname := posix_dirname;
     cpe_text := cpe_message |}.

Definition start {W} (w : W) : State W := {| world := w; trace := [] |}.

(** A Linux machine where nothing is installed and the network is down;
    the other sample hosts override some of its answers. *)
Definition bare : Answers unit :=
  {| on_which := fun _ w => (None, w);
     on_spawn := fun _ w => (NotFound "[Errno 2] No such file or directory", w);
     on_release := fun w => (Raise (OtherException "<urlopen error>"), w);
     on_download := fun _ w => (Raise (OtherException "<urlopen error>"), w);
     on_listing := fun _ w => (Raise (FileNotFoundError "No such directory"), w);
     on_is_dir := fun _ w => (false, w);
     on_exists := fun _ w => (false, w);
     system_name := "Linux";
     machine_name := "x86_64";
     search_path := Some "/usr/local/bin:/usr/bin:/bin";
     home_dir := "/home/demo" |}.

Definition offline : Host := posix_host bare.

(** The same machine with the network up and a release that carries a
    binary for it. *)
Definition release_v1 : Release :=
  {| tag_name := "v0.4.0";
     assets :=
       [ {| asset_name := "ocm-v0.4.0-darwin-arm64.tar.gz";
            browser_download_url := "https://example.org/darwin-arm64" |};
         {| asset_name := "ocm-v0.4.0-linux-amd64.tar.gz";
            browser_download_url := "https://example.org/linux-amd64" |} ] |}.

Definition online : Host :=
  posix_host
    {| on_which := on_which bare;
       on_spawn := on_spawn bare;
       on_release := fun w => (Ok release_v1, w);
       on_download := fun _ w => (Ok "binary", w);
       on_listing := on_listing bare;
       on_is_dir := on_is_dir bare;
       on_exists := on_exists bare;
       system_name := "Linux";
       machine_name := "x86_64";
       search_path := search_path bare;
       home_dir := home_dir bare |}.

(** A machine whose shell reports an unknown program with status 127. *)
Definition with_shell : Host :=
  posix_host
    {| on_which := on_which bare;
       on_spawn := fun c w =>
         match c with
         | CmdStr line => (Exited 127 "" ("/bin/sh: 1: " ++ line ++ ": not found"), w)
         | CmdList _ => (NotFound "[Errno 2] No such file or directory", w)
         end;
       on_release := on_release bare;
       on_download := on_download bare;
       on_listing := on_listing bare;
       on_is_dir := on_is_dir bare;
       on_exists := on_exists bare;
       system_name := "Linux";
       machine_name := "x86_64";
       search_path := search_path bare;
       home_dir := home_dir bare |}.

(** A machine with a container engine.  The state tells whether the
    registry container exists; [healthy] tells whether a launched
    registry answers its health probe. *)
Definition docker_spawn (healthy : bool) (c : command) (running : bool)
  : spawned * bool :=
  match c with
  | CmdList ("docker" :: "ps" :: "--format" :: _) =>
      (Exited 0 (if running then "local-registry" ++ String Py.newline ""
                 else "") "", running)
  | CmdList ("docker" :: "ps" :: _) => (Exited 0 "" "", running)
  | CmdList ("docker" :: "run" :: _) =>
      if running then (Exited 125 "" "name already in use", running)
      else (Exited 0 "3f2a" "", true)
  | CmdList ("docker" :: "rm" :: _) => (Exited 0 "" "", false)
  | CmdList ("docker" :: "stop" :: _) => (Exited 0 "" "", running)
  | CmdList ("docker" :: _) => (Exited 0 "" "", running)
  | CmdList ("curl" :: _) =>
      (if running && healthy then Exited 0 "{}" "" else Exited 7 "" "", running)
  | _ => (NotFound "[Errno 2] No such file or directory", running)
  end.

Definition with_docker (healthy : bool) : Host :=
  posix_host
    {| on_which := fun cmd w =>
         (if Py.mem cmd ["docker"; "curl"; "git"]
          then Some ("/usr/bin/" ++ cmd) else None, w);
       on_spawn := docker_spawn healthy;
       on_release := fun w => (Raise (OtherException "<urlopen error>"), w);
       on_download := fun _ w => (Raise (OtherException "<urlopen error>"), w);
       on_listing := fun _ w => (Raise (FileNotFoundError "No such directory"), w);
       on_is_dir := fun _ w => (false, w);
       on_exists := fun _ w => (false, w);
       system_name := "Linux";
       machine_name := "x86_64";
       search_path := Some "/usr/local/bin:/usr/bin:/bin";
       home_dir := "/home/demo" |}.

(** A machine with an examples directory holding [01-basic],
    [02-transport], [.hidden] and a file [README.md]. *)
Definition with_examples : Host :=
  posix_host
    {| on_which := on_which bare;
       on_spawn := on_spawn bare;
       on_release := on_release bare;
       on_download := on_download bare;
       on_listing := fun p w =>
         (if String.eqb p "/repo/examples"
          then Ok ["02-transport"; ".hidden"; "README.md"; "01-basic"]
          else Raise (FileNotFoundError "No such directory"), w);
       on_is_dir := fun p w =>
         (Py.mem p ["/repo/examples/01-basic"; "/repo/examples/02-transport";
                    "/repo/examples/.hidden"; "/repo/examples"], w);
       on_exists := fun p w => (String.eqb p "/repo/examples", w);
       system_name := "Linux";
       machine_name := "x86_64";
       search_path := search_path bare;
       home_dir := home_dir bare |}.

(** Objects as the command-line front end creates them, with the default
    configuration. *)
Definition manager : DockerManager.t :=
  DockerManager.new false Config_default.

Definition dry_manager : DockerManager.t :=
  DockerManager.new true Config_default.

Definition dry_environment : EnvironmentManager.t :=
  EnvironmentManager.new true Config_default.

Definition demo_runner : DemoRunner.t :=
  {| DemoRunner.config := Config_default;
     DemoRunner.environment := dry_environment;
     DemoRunner.dry_run := true;
     DemoRunner.examples_dir := "/repo/examples" |}.

(** The state a first, successful start leaves on a machine with a
    container engine and a registry that becomes healthy. *)
Definition after_first_start : State bool :=
  snd (DockerManager.start_registry (with_docker true) manager None None
                                    (start false)).

(** The bare machine with the OCM command-line tool installed. *)
Definition with_ocm : Host :=
  posix_host
    {| on_which := fun cmd w =>
         (if String.eqb cmd "ocm" then Some "/usr/local/bin/ocm" else None, w);
       on_spawn := on_spawn bare;
       on_release := on_release bare;
       on_download := on_download bare;
       on_listing := on_listing bare;
       on_is_dir := on_is_dir bare;
       on_exists := on_exists bare;
       system_name := "Linux";
       machine_name := "x86_64";
       search_path := search_path bare;
       home_dir := home_dir bare |}.

(** A machine of an architecture the installer has no binary for. *)
Definition riscv : Host :=
  posix_host
    {| on_which := on_which bare;
       on_spawn := on_spawn bare;
       on_release := fun w => (Ok release_v1, w);
       on_download := fun _ w => (Ok "binary", w);
       on_listing := on_listing bare;
       on_is_dir := on_is_dir bare;
       on_exists := on_exists bare;
       system_name := "Linux";
       machine_name := "riscv64";
       search_path := search_path bare;
       home_dir := home_dir bare |}.

(** A machine with a container engine where two stopped containers still
    publish the registry port and a new registry cannot be launched. *)
Definition port_taken_spawn (c : command) (w : unit) : spawned * unit :=
  match c with
  | CmdList ("docker" :: "ps" :: "-a" :: _) =>
      (Exited 0 ("3f2a" ++ String Py.newline ("77c1" ++ String Py.newline ""))
              "", w)
  | CmdList ("docker" :: "ps" :: _) => (Exited 0 "" "", w)
  | CmdList ("docker" :: "rm" :: _) => (Exited 0 "" "", w)
  | CmdList ("docker" :: "run" :: _) =>
      (Exited 125 "" "port is already allocated", w)
  | _ => (NotFound "[Errno 2] No such file or directory", w)
  end.

Definition port_taken : Host :=
  posix_host
    {| on_which := fun cmd w =>
         (if String.eqb cmd "docker" then Some "/usr/bin/docker" else None, w);
       on_spawn := port_taken_spawn;
       on_release := on_release bare;
       on_download := on_download bare;
       on_listing := on_listing bare;
       on_is_dir := on_is_dir bare;
       on_exists := on_exists bare;
       system_name := "Linux";
       machine_name := "x86_64";
       search_path := search_path bare;
       home_dir := home_dir bare |}.

(** The bare machine with the process environment [env]. *)
Definition with_environment (env : string -> option string) : Host :=
  {| World := unit;
     sys := fun R c =>
       match c in call R return (unit -> R * unit) -> unit -> R * unit with
       | environ_get var => fun _ w => (env var, w)
       | _ => fun other => other
       end (answer bare c);
     os_pathsep := ":";
     os_path_join := posix_join;
     os_path_dirname := posix_dirname;
     cpe_text := cpe_message |}.

(** An environment that sets the registry port to [text] and nothing
    else. *)
Definition port_only (text : string) (name : string) : option string :=
  if String.eqb name "OCM_DEMO_REGISTRY_PORT" then Some text else None.

(** The text of the [ValueError] of [int(s)] for a string of at most 4300
    digits whose [repr] is the string between single quotes (printable
    ASCII characters other than the quote and the backslash). *)
Definition int_error_text (s : string) : string :=
  "invalid literal for int() with base 10: '" ++ s ++ "'".

(** [PurePosixPath]: the root of a part (["//"] for exactly two leading
    slashes, ["/"] for any other number of them) and what follows it. *)
Fixpoint lstrip_slashes (s : string) : string :=
  match s with
  | String c t => if Ascii.eqb c "/" then lstrip_slashes t else s
  | EmptyString => EmptyString
  end.

Definition posix_splitroot (part : string) : string * string :=
  if Py.startswith part "/" then
    let stripped := lstrip_slashes part in
    if (String.length part - String.length stripped =? 2)%nat
    then ("//", stripped)
    else ("/", stripped)
  else ("", part).

(** The components of a part: the pieces between slashes other than the
    empty one and ["."]. *)
Definition posix_components (rel : string) : list string :=
  filter (fun x => Py.truthy x && negb (String.eqb x "."))
         (Py.split "/" rel).

(** [str(PurePosixPath(base, *parts))]: empty parts are skipped, a
    rooted part discards what stands before it, and the path without
    root and components is ["."]. *)
Definition posix_path_str (base : string) (parts : list string) : string :=
  let parsed :=
    fold_left
      (fun (acc : string * list string) part =>
         if negb (Py.truthy part) then acc
         else
           let '(root, rel) := posix_splitroot part in
           if Py.truthy root then (root, posix_components rel)
           else (fst acc, (snd acc ++ posix_components rel)%list))
      (base :: parts) ("", []) in
  match parsed with
  | (EmptyString, []) => "."
  | (root, components) => root ++ Py.join "/" components
  end.

(** A machine that holds the script [run.sh] of the example [01-basic]
    and runs it with success. *)
Definition with_script : Host :=
  posix_host
    {| on_which := on_which bare;
       on_spawn := fun c w =>
         match c with
         | CmdList ["chmod"; "+x"; "/repo/examples/01-basic/run.sh"] =>
             (Exited 0 "" "", w)
         | CmdList ["bash"; "/repo/examples/01-basic/run.sh"] =>
             (Exited 0 "done" "", w)
         | _ => (NotFound "[Errno 2] No such file or directory", w)
         end;
       on_release := on_release bare;
       on_download := on_download bare;
       on_listing := on_listing bare;
       on_is_dir := on_is_dir bare;
       on_exists := fun p w =>
         (String.eqb p "/repo/examples/01-basic/run.sh", w);
       system_name := "Linux";
       machine_name := "x86_64";
       search_path := search_path bare;
       home_dir := home_dir bare |}.

(** A demo runner that executes. *)
Definition script_runner : DemoRunner.t :=
  {| DemoRunner.config := Config_default;
     DemoRunner.environment := EnvironmentManager.new false Config_default;
     DemoRunner.dry_run := false;
     DemoRunner.examples_dir := "/repo/examples" |}.

End Sample.


(* ===================================================================== *)
(** ** Properties *)
(* ===================================================================== *)

(** Unfolds the monad and the primitives, leaving the host's answers. *)
Ltac io_unfold :=
  cbv [bind try_except ret raise emit perform perform_or_raise when
       logger_debug logger_info logger_warning logger_error
       log_info log_success log_warning log_error
       subprocess_run command_exists strip_of];
  cbn [world trace fst snd].

(** Uses a known answer of the host, or names an unknown one. *)
Ltac io_answer :=
  match goal with
  | H : sys ?h ?c ?w = _ |- context [sys ?h ?c ?w] => rewrite H
  | |- context [sys ?h ?c ?w] =>
      let r := fresh "r" in
      let w' := fresh "w" in
      destruct (sys h c w) as [r w'] eqn:?
  end;
  cbv beta iota zeta; cbn [world trace fst snd].

Section Properties.

Variable host : Host.
Local Abbreviation io := (IO (World host)).

(** *** Vocabulary of the statements *)

(** A computation that returns a value, and raises nothing, from every
    state. *)
Definition returns {A} (m : io A) : Prop :=
  forall st, exists a st', m st = (Ok a, st').

Definition from (w : World host) : State (World host) :=
  {| world := w; trace := [] |}.

(** What a computation does from a world: its result, the world it
    leaves and the events it adds. *)
Definition result_from {A} (m : io A) (w : World host) : result A :=
  fst (m (from w)).
Definition world_from {A} (m : io A) (w : World host) : World host :=
  world (snd (m (from w))).
Definition events_from {A} (m : io A) (w : World host) : list event :=
  trace (snd (m (from w))).

(** A computation is uniform when it reads the world only: the events
    already in the trace have no influence, and the new ones are added
    at the end. *)
Definition uniform {A} (m : io A) : Prop :=
  forall st,
    m st = (result_from m (world st),
            {| world := world_from m (world st);
               trace := trace st ++ events_from m (world st) |}).

(** What [subprocess.run] makes of the host's answer. *)
Definition completed (command : command) (capture_output check : bool)
           (r : spawned) : result CompletedProcess :=
  match r with
  | Exited code out err =>
      let o := if capture_output then Some out else None in
      let e := if capture_output then Some err else None in
      if check && negb (code =? 0)
      then Raise (CalledProcessError code command o e)
      else Ok {| args := command; returncode := code;
                 stdout := o; stderr := e |}
  | NotFound msg => Raise (CalledProcessError 127 command None (Some msg))
  | SpawnFailed msg => Raise (OtherException msg)
  end.

(** The request behind [is_registry_running]. *)
Definition list_running : call spawned :=
  subprocess_spawn (CmdList ["docker"; "ps"; "--format"; "{{.Names}}"])
                   None None false.

(** The request behind [is_registry_healthy]. *)
Definition health_probe (port : Z) : call spawned :=
  subprocess_spawn
    (CmdList ["curl"; "-f"; "-s";
              "http://localhost:" ++ Py.str_int port ++ "/v2/"])
    None None false.

(** One round of the poll: a probe, then a sleep of one second. *)
Definition poll_round (port : Z) : list event :=
  [EvCall (health_probe port); EvCall (time_sleep 1)].

(** Every event the computation adds satisfies [P]. *)
Definition emits_only (P : event -> bool) {A} (m : io A) : Prop :=
  forall st,
  exists evs,
    trace (snd (m st)) = (trace st ++ evs)%list /\ forallb P evs = true.

(** An event that is a health probe: a [curl] process. *)
Definition is_health_probe (e : event) : bool :=
  match e with
  | EvCall (subprocess_spawn (CmdList (program :: _)) _ _ _) =>
      String.eqb program "curl"
  | _ => false
  end.

Definition not_probe (e : event) : bool := negb (is_health_probe e).

(** Moving the downloaded binary into the install directory. *)
Definition is_install_move (e : event) : bool :=
  match e with
  | EvCall (os_rename _ _) | EvCall (os_chmod _ _) => true
  | _ => false
  end.

(** What the installer never does in dry-run: create a process, move the
    binary into place. *)
Definition allowed_in_dry_install (e : event) : bool :=
  negb (is_subprocess e) && negb (is_install_move e).

(** The outcome of a step that reports every failure: it returned
    [True], or it returned [False] and the last event is an error line. *)
Definition true_or_reported (r : result bool) (t : list event) : Prop :=
  r = Ok true
  \/ (r = Ok false
      /\ exists earlier msg, t = (earlier ++ [EvLog ERROR msg])%list).

(** A body whose every normal exit is as above; it may also raise. *)
Definition reports_failure (m : io bool) : Prop :=
  forall st,
    match m st with
    | (Raise _, _) => True
    | (Ok b, st') => true_or_reported (Ok b) (trace st')
    end.

(** A block that only writes log lines. *)
Definition silent (m : io unit) : Prop :=
  forall st,
  exists logs,
    m st = (Ok tt, {| world := world st; trace := trace st ++ logs |}).

(** The steps of [setup_environment] that can make the verdict false:
    each is taken only under its condition and counts as a success
    otherwise. *)
Definition install_attempted (install_missing : bool)
           (prerequisites : Py.dict bool) : bool :=
  install_missing && negb (Py.get prerequisites "ocm" false).

Definition registry_attempted (prerequisites : Py.dict bool) : bool :=
  Py.get prerequisites "docker" false.

Definition install_step self install_missing prerequisites : io bool :=
  if install_attempted install_missing prerequisites
  then EnvironmentManager.install_ocm_cli host self
  else ret true.

Definition registry_step self prerequisites : io bool :=
  if registry_attempted prerequisites
  then DockerManager.start_registry host (EnvironmentManager.docker self)
                                    None None
  else ret true.

(** An entry is listed when it is a directory whose name does not begin
    with a dot. *)
Definition listed (is_dir : string -> bool) (name : string) : bool :=
  is_dir name && negb (Py.startswith name ".").

(** The host ran the process to its end. *)
Definition is_exited (r : spawned) : bool :=
  match r with Exited _ _ _ => true | _ => false end.

(** The host ran the process, and it exited with code 0. *)
Definition exited_ok (r : spawned) : bool :=
  match r with Exited code _ _ => code =? 0 | _ => false end.

(** The request behind [run] for an argument vector with the defaults
    [cwd=None, env=None, shell=None]. *)
Definition spawn_argv (argv : list string) : call spawned :=
  subprocess_spawn (CmdList argv) None None false.

(** What [run] returns when the dry-run flag is set. *)
Definition dry_result (command : command) : CompletedProcess :=
  {| args := command; returncode := 0; stdout := Some ""; stderr := Some "" |}.

(** The requests of [cleanup_registry_port] and the container ids its
    listing yields: the non-empty lines of the output of a listing that
    exited with code 0. *)
Definition list_on_port (port : Z) : call spawned :=
  spawn_argv ["docker"; "ps"; "-a"; "--filter";
              "publish=" ++ Py.str_int port; "--format"; "{{.ID}}"].

Definition remove_by_id (container_id : string) : call spawned :=
  spawn_argv ["docker"; "rm"; "-f"; container_id].

Definition listed_ids (r : spawned) : list string :=
  match r with
  | Exited code out _ =>
      if code =? 0
      then filter Py.truthy (Py.split Py.newline (Py.strip out))
      else []
  | _ => []
  end.

(** The platform matrix of [install_ocm_cli]: the architecture tag for a
    lower-cased machine name, and the lower-cased system names it
    accepts. *)
Definition canonical_arch (arch : string) : option string :=
  if Py.mem arch ["x86_64"; "amd64"] then Some "amd64"
  else if Py.mem arch ["arm64"; "aarch64"] then Some "arm64"
  else None.

Definition supported_os (os_name : string) : bool :=
  Py.mem os_name ["darwin"; "linux"; "windows"].

(** The directories [_get_install_directory] prefers, for a home. *)
Definition preferred_dirs (home : string) : list string :=
  [os_path_join host home [".local"; "bin"];
   os_path_join host home ["bin"];
   "/usr/local/bin"].


(** The variables [Config.from_environment] reads, in the order it reads
    them. *)
Definition config_variables : list string :=
  ["OCM_DEMO_REGISTRY_PORT"; "OCM_DEMO_REGISTRY_NAME";
   "OCM_DEMO_REGISTRY_HOST"; "OCM_DEMO_CLUSTER_NAME"; "OCM_DEMO_NAMESPACE";
   "OCM_DEMO_DURATION"; "OCM_DEMO_PROJECT_ROOT"].



(** What an operation of the client that runs one checked command comes
    to: it never raises, it is [True] exactly in dry-run or when the
    process exits with code 0, and the process creation is its only
    request to the host (none in dry-run). *)
Definition checked_verdict (self : CommandRunner.t) (argv : list string)
           (operation : io bool) : Prop :=
  forall st,
    fst (operation st)
    = Ok (CommandRunner.dry_run self
          || exited_ok (fst (sys host (spawn_argv argv) (world st))))
    /\ interactions (trace (snd (operation st)))
       = (interactions (trace st)
          ++ (if CommandRunner.dry_run self then []
              else [EvCall (spawn_argv argv)]))%list.

(** An optional argument of a command line: its flag and value when the
    value is given and not empty. *)
Definition optional (flag : list string) (value : option string)
  : list string :=
  match value with
  | Some v => if Py.truthy v then (flag ++ [v])%list else []
  | None => []
  end.

(** The asset name [_download_and_install_ocm] looks for. *)
Definition wanted_asset (tag os_name arch : string) : string :=
  let binary_name := "ocm-" ++ tag ++ "-" ++ os_name ++ "-" ++ arch in
  if String.eqb os_name "windows" then binary_name ++ ".exe"
  else binary_name.

(** *** Computations that always return *)

Lemma returns_ret {A} (a : A) : returns (ret a).
Proof. intros st. exists a, st. reflexivity. Qed.

Lemma returns_bind {A B} (m : io A) (k : A -> io B) :
  returns m -> (forall a, returns (k a)) -> returns (bind m k).
Proof.
  intros Hm Hk st. destruct (Hm st) as (a & st1 & E).
  destruct (Hk a st1) as (b & st2 & E2).
  exists b, st2. unfold bind. rewrite E. exact E2.
Qed.

(** A handler that returns makes the whole [try] return, whatever the
    body does. *)
Lemma returns_try {A} (m : io A) (h : exn -> io A) :
  (forall e, returns (h e)) -> returns (try_except m h).
Proof.
  intros Hh st. unfold try_except.
  destruct (m st) as [[a | e] st1].
  - exists a, st1. reflexivity.
  - apply Hh.
Qed.

Lemma returns_emit (e : event) : returns (emit (W := World host) e).
Proof. intros st. eexists _, _. reflexivity. Qed.

Lemma returns_perform {R} (c : call R) : returns (perform host c).
Proof.
  intros st. unfold perform. destruct (sys host c (world st)) as [r w].
  eexists _, _. reflexivity.
Qed.

Lemma returns_when (c : bool) (m : io unit) : returns m -> returns (when c m).
Proof. intros Hm. destruct c; [exact Hm | apply returns_ret]. Qed.

Lemma returns_for_each {A} (l : list A) (body : A -> io unit) :
  (forall x, returns (body x)) -> returns (for_each l body).
Proof.
  intros Hb. induction l as [| x r IH]; simpl.
  - apply returns_ret.
  - apply returns_bind; [apply Hb | intros _; exact IH].
Qed.

Lemma returns_log_error msg hint : returns (log_error host msg hint).
Proof.
  unfold log_error. apply returns_bind; [apply returns_emit |].
  intros _. destruct hint; [apply returns_when, returns_emit | apply returns_ret].
Qed.

Lemma returns_command_exists c : returns (command_exists host c).
Proof.
  unfold command_exists. apply returns_bind; [apply returns_perform |].
  intros a. apply returns_ret.
Qed.

Ltac returns_tac :=
  repeat first
    [ apply returns_try; intros ?
    | apply returns_bind; [| intros ?]
    | apply returns_ret
    | apply returns_emit
    | apply returns_perform
    | apply returns_when
    | apply returns_for_each; intros ?
    | apply returns_log_error
    | apply returns_command_exists
    | match goal with
      | |- returns (if ?c then _ else _) => destruct c
      | |- returns (match ?x with _ => _ end) => destruct x
      end ].

Lemma returns_check_docker_available self :
  returns (DockerManager.check_docker_available host self).
Proof.
  unfold DockerManager.check_docker_available, log_success. returns_tac.
Qed.

Lemma returns_is_registry_running self name :
  returns (DockerManager.is_registry_running host self name).
Proof. unfold DockerManager.is_registry_running. returns_tac. Qed.

Lemma returns_is_registry_healthy self port :
  returns (DockerManager.is_registry_healthy host self port).
Proof. unfold DockerManager.is_registry_healthy. returns_tac. Qed.

Lemma returns_cleanup_registry_port self port :
  returns (DockerManager.cleanup_registry_port host self port).
Proof.
  unfold DockerManager.cleanup_registry_port, logger_debug. returns_tac.
Qed.

Lemma returns_stop_registry self name :
  returns (DockerManager.stop_registry host self name).
Proof.
  unfold DockerManager.stop_registry, log_info. returns_tac.
Qed.

Lemma returns_get_registry_status self :
  returns (DockerManager.get_registry_status host self).
Proof.
  unfold DockerManager.get_registry_status.
  returns_tac;
    auto using returns_is_registry_running, returns_is_registry_healthy,
               returns_check_docker_available.
Qed.

Lemma returns_check_ocm_available self :
  returns (OCMClient.check_ocm_available host self).
Proof. unfold OCMClient.check_ocm_available. returns_tac. Qed.

Lemma returns_get_version self : returns (OCMClient.get_version host self).
Proof. unfold OCMClient.get_version. returns_tac. Qed.

Lemma returns_check_prerequisites self :
  returns (EnvironmentManager.check_prerequisites host self).
Proof.
  unfold EnvironmentManager.check_prerequisites,
    log_info, log_success, log_warning.
  returns_tac;
    auto using returns_check_docker_available, returns_check_ocm_available.
Qed.

Lemma returns_download_and_install_ocm self os_name arch :
  returns (EnvironmentManager._download_and_install_ocm host self os_name arch).
Proof. unfold EnvironmentManager._download_and_install_ocm. returns_tac. Qed.

Lemma returns_install_ocm_cli self :
  returns (EnvironmentManager.install_ocm_cli host self).
Proof.
  unfold EnvironmentManager.install_ocm_cli, log_success, log_info.
  returns_tac.
Qed.

(** *** The process runner *)

(** With the dry-run flag set, [run] logs one line and returns the
    synthetic success without a request to the host. *)
Lemma run_dry self command cwd env capture_output check shell st :
  CommandRunner.dry_run self = true ->
  CommandRunner.run host self command cwd env capture_output check shell st
  = (Ok {| args := command; returncode := 0;
           stdout := Some ""; stderr := Some "" |},
     {| world := world st;
        trace := trace st
                 ++ [EvLog INFO ("[DRY RUN] Would execute: "
                                 ++ CommandRunner.cmd_str command)] |}).
Proof.
  intros Hdry. unfold CommandRunner.run. rewrite Hdry. reflexivity.
Qed.

(** The runner turns the host's "not found" into a [CalledProcessError]
    with return code 127. *)
Lemma run_not_found self command cwd env capture_output check shell st msg w :
  CommandRunner.dry_run self = false ->
  sys host (subprocess_spawn command cwd env
                             (CommandRunner.shell_flag shell command))
      (world st) = (NotFound msg, w) ->
  CommandRunner.run host self command cwd env capture_output check shell st
  = (Raise (CalledProcessError 127 command None (Some msg)),
     {| world := w;
        trace := (trace st
                  ++ [EvLog DEBUG ("Executing: "
                                   ++ CommandRunner.cmd_str command)]
                  ++ (if Py.truthy_opt cwd
                      then [EvLog DEBUG ("Working directory: "
                                         ++ Py.or_str cwd "")]
                      else [])
                  ++ [EvCall (subprocess_spawn command cwd env
                                (CommandRunner.shell_flag shell command));
                      EvLog ERROR ("Command not found: "
                                   ++ CommandRunner.cmd_str command)]) |}).
Proof.
  intros Hdry Hsys. unfold CommandRunner.run. rewrite Hdry.
  destruct (Py.truthy_opt cwd); io_unfold; io_answer;
    rewrite <- ?app_assoc; reflexivity.
Qed.

(** C6, as amended.  When the runner really executes ([dry_run] unset)
    and the host cannot locate the program (the process creation fails
    with [FileNotFoundError]), [run] raises [CalledProcessError] with
    return code 127, whatever the value of [check], instead of letting
    the [FileNotFoundError] through. *)
Theorem run_program_not_found
        self command cwd env capture_output check shell st msg w :
  CommandRunner.dry_run self = false ->
  sys host (subprocess_spawn command cwd env
                             (CommandRunner.shell_flag shell command))
      (world st) = (NotFound msg, w) ->
  exists st',
    CommandRunner.run host self command cwd env capture_output check shell st
    = (Raise (CalledProcessError 127 command None (Some msg)), st')
    /\ world st' = w.
Proof.
  intros Hdry Hsys. eexists. split.
  - apply run_not_found; eassumption.
  - reflexivity.
Qed.

(** C10, as amended.  [run_with_output] returns a triple from every
    state; when [run] raises, the triple is [(1, '', str(e))], and when
    [run] returns, the triple carries the return code and the streams of
    the result unchanged. *)
Theorem run_with_output_total self command cwd env st :
  exists code out err st',
    CommandRunner.run_with_output host self command cwd env st
    = (Ok (code, out, err), st')
    /\ match CommandRunner.run host self command cwd env true false None st
       with
       | (Ok result, st1) =>
           (code, out, err)
           = (returncode result, stdout result, stderr result) /\ st' = st1
       | (Raise e, st1) =>
           (code, out, err) = (1, Some "", Some (str_exn host e)) /\ st' = st1
       end.
Proof.
  unfold CommandRunner.run_with_output, try_except, bind.
  destruct (CommandRunner.run host self command cwd env true false None st)
    as [[result | e] st1]; cbn.
  - exists (returncode result), (stdout result), (stderr result), st1. auto.
  - exists 1, (Some ""), (Some (str_exn host e)), st1. auto.
Qed.

(** The runner's own not-found condition reaches the caller of
    [run_with_output] with code 1. *)
Lemma run_with_output_not_found self command cwd env st msg w :
  CommandRunner.dry_run self = false ->
  sys host (subprocess_spawn command cwd env
                             (CommandRunner.shell_flag None command))
      (world st) = (NotFound msg, w) ->
  fst (CommandRunner.run_with_output host self command cwd env st)
  = Ok (1, Some "", Some (cpe_text host 127 command)).
Proof.
  intros Hdry Hsys.
  unfold CommandRunner.run_with_output, try_except, bind.
  rewrite (run_not_found self command cwd env true false None st Hdry Hsys).
  reflexivity.
Qed.

(** *** Registry URL and registry status *)

(** The status record has the URL [http://localhost:<port>], whatever
    the configured host. *)
Lemma get_registry_status_url self st :
  exists status st',
    DockerManager.get_registry_status host self st = (Ok status, st')
    /\ status_url status
       = "http://localhost:"
         ++ Py.str_int (registry_port (DockerManager.config self))
    /\ status_name status = registry_name (DockerManager.config self)
    /\ status_port status = registry_port (DockerManager.config self).
Proof.
  unfold DockerManager.get_registry_status, bind.
  destruct (returns_is_registry_running self
              (Some (registry_name (DockerManager.config self))) st)
    as (running & st1 & E1). rewrite E1.
  destruct (returns_is_registry_healthy self
              (Some (registry_port (DockerManager.config self))) st1)
    as (healthy & st2 & E2). rewrite E2.
  destruct (negb (DockerManager.dry_run self)).
  - destruct (returns_check_docker_available self st2) as (d & st3 & E3).
    rewrite E3. eexists _, _. split; [reflexivity | cbn; auto].
  - eexists _, _. split; [reflexivity | cbn; auto].
Qed.

(** C5, as amended.  [Config.registry_url] is [<host>:<port>], which is
    [example.com:8080] for host [example.com] and port 8080; the URL in
    the registry status record is [http://localhost:<port>] and does not
    depend on the configured host. *)
Theorem registry_url_composition cfg self st :
  registry_url cfg = registry_host cfg ++ ":" ++ Py.str_int (registry_port cfg)
  /\ registry_url example_config = "example.com:8080"
  /\ exists status st',
       DockerManager.get_registry_status host self st = (Ok status, st')
       /\ status_url status
          = "http://localhost:"
            ++ Py.str_int (registry_port (DockerManager.config self)).
Proof.
  split; [reflexivity | split; [reflexivity |]].
  destruct (get_registry_status_url self st) as (status & st' & E & U & _).
  exists status, st'. auto.
Qed.

(** *** Readiness *)

Lemma all_values_true (d : Py.dict bool) :
  Py.all (Py.values d) = true <-> forall tool v, In (tool, v) d -> v = true.
Proof.
  unfold Py.all, Py.values. rewrite forallb_forall. split.
  - intros H tool v Hin. apply H. apply in_map_iff. exists (tool, v). auto.
  - intros H v Hin. apply in_map_iff in Hin.
    destruct Hin as ([tool v'] & Hv & Hin). cbn in Hv. subst v'.
    eapply H; eassumption.
Qed.

(** C2.  [get_environment_status] always returns.  The record it
    returns holds the prerequisite mapping that [check_prerequisites]
    finds and the registry status that [get_registry_status] finds after
    it, and its [ready] field is true exactly when every value of that
    mapping is true and the [running] flag of that status is true; a
    single false value forces [ready] to false. *)
Theorem ready_iff_all_prerequisites_and_running self st :
  exists found st1 registry_status st2 version st3 status,
    EnvironmentManager.check_prerequisites host self st = (Ok found, st1)
    /\ DockerManager.get_registry_status
         host (EnvironmentManager.docker self) st1
       = (Ok registry_status, st2)
    /\ OCMClient.get_version host (EnvironmentManager.ocm self) st2
       = (Ok version, st3)
    /\ EnvironmentManager.get_environment_status host self st
       = (Ok status, st3)
    /\ prerequisites status = found
    /\ registry status = registry_status
    /\ ocm_version status = version
    /\ (ready status = true
        <-> (forall tool available,
                In (tool, available) found -> available = true)
            /\ status_running registry_status = true)
    /\ (forall tool, In (tool, false) found -> ready status = false)
    /\ (status_running registry_status = false -> ready status = false).
Proof.
  destruct (returns_check_prerequisites self st) as (p & st1 & E1).
  destruct (returns_get_registry_status (EnvironmentManager.docker self) st1)
    as (r & st2 & E2).
  destruct (returns_get_version (EnvironmentManager.ocm self) st2)
    as (v & st3 & E3).
  exists p, st1, r, st2, v, st3. eexists.
  split; [exact E1 |]. split; [exact E2 |]. split; [exact E3 |].
  split.
  { unfold EnvironmentManager.get_environment_status, bind.
    rewrite E1, E2, E3. reflexivity. }
  cbn [prerequisites registry ocm_version ready].
  do 3 (split; [reflexivity |]).
  rewrite andb_true_iff, all_values_true. split; [tauto | split].
  - intros tool Hin. apply andb_false_iff. left.
    apply not_true_is_false. intros Hall.
    apply all_values_true with (tool := tool) (v := false) in Hall;
      [discriminate | exact Hin].
  - intros Hr. rewrite Hr. apply andb_false_r.
Qed.

(** The prerequisite mapping has the six tool names as its keys. *)
Lemma check_prerequisites_keys self st :
  exists p st',
    EnvironmentManager.check_prerequisites host self st = (Ok p, st')
    /\ map fst p = ["docker"; "ocm"; "curl"; "kubectl"; "kind"; "git"].
Proof.
  unfold EnvironmentManager.check_prerequisites.
  unfold bind at 1. unfold log_info at 1, emit at 1.
  unfold bind at 1.
  match goal with
  | |- context [DockerManager.check_docker_available host ?d ?s] =>
      destruct (returns_check_docker_available d s) as (b1 & s1 & E1);
      rewrite E1
  end.
  unfold bind at 1.
  match goal with
  | |- context [OCMClient.check_ocm_available host ?d ?s] =>
      destruct (returns_check_ocm_available d s) as (b2 & s2 & E2);
      rewrite E2
  end.
  do 4 (unfold bind at 1;
        match goal with
        | |- context [command_exists host ?c ?s] =>
            let b := fresh "b" in
            let s' := fresh "s" in
            let E := fresh "E" in
            destruct (returns_command_exists c s) as (b & s' & E);
            rewrite E
        end).
  unfold bind at 1.
  match goal with
  | |- context [for_each ?l ?f ?s] =>
      assert (Hloop : returns (for_each l f))
  end.
  { apply returns_for_each. intros [tool available].
    destruct available; apply returns_emit. }
  match goal with
  | |- context [for_each ?l ?f ?s] =>
      destruct (Hloop s) as (u & s' & Eloop); rewrite Eloop
  end.
  eexists _, _. split; reflexivity.
Qed.

(** *** Dry-run of the registry status *)

(** C9.  A [DockerManager] created with the dry-run flag reports
    [docker_available = True] on every host: [get_registry_status] sends
    no request at all to the host, so neither [shutil.which] nor
    [docker info] is run, and the host is left as it was. *)
Theorem dry_run_status_reports_docker_available cfg st :
  exists status st',
    DockerManager.get_registry_status host (DockerManager.new true cfg) st
    = (Ok status, st')
    /\ status_docker_available status = true
    /\ world st' = world st
    /\ interactions (trace st') = interactions (trace st)
    /\ filter is_probe (trace st') = filter is_probe (trace st).
Proof.
  unfold DockerManager.get_registry_status,
    DockerManager.is_registry_running, DockerManager.is_registry_healthy.
  cbn [DockerManager.new DockerManager.runner DockerManager.dry_run
       DockerManager.config negb].
  unfold bind, try_except.
  rewrite !run_dry by reflexivity. cbn.
  eexists _, _. split; [reflexivity |]. cbn.
  unfold interactions. rewrite !filter_app. cbn. rewrite !app_nil_r. auto.
Qed.


(** *** The trace is write-only *)

Lemma uniform_ret {A} (a : A) : uniform (ret a).
Proof.
  intros [w t]. unfold ret, result_from, world_from, events_from. cbn.
  rewrite app_nil_r. reflexivity.
Qed.

Lemma uniform_raise {A} (e : exn) : uniform (raise (A := A) e).
Proof.
  intros [w t]. unfold raise, result_from, world_from, events_from. cbn.
  rewrite app_nil_r. reflexivity.
Qed.

Lemma uniform_emit (e : event) : uniform (emit (W := World host) e).
Proof. intros [w t]. reflexivity. Qed.

Lemma uniform_perform {R} (c : call R) : uniform (perform host c).
Proof.
  intros [w t]. unfold perform, result_from, world_from, events_from. cbn.
  destruct (sys host c w) as [r w']. reflexivity.
Qed.

Lemma uniform_bind {A B} (m : io A) (k : A -> io B) :
  uniform m -> (forall a, uniform (k a)) -> uniform (bind m k).
Proof.
  intros Hm Hk [w t].
  unfold result_from, world_from, events_from, bind. cbn [world trace].
  rewrite (Hm {| world := w; trace := t |}). cbn [world trace].
  unfold result_from, world_from, events_from.
  destruct (m (from w)) as [[a | e] [w1 t1]]; cbn [fst snd world trace].
  - rewrite (Hk a {| world := w1; trace := t ++ t1 |}).
    rewrite (Hk a {| world := w1; trace := t1 |}).
    unfold result_from, world_from, events_from. cbn [fst snd world trace].
    rewrite app_assoc. reflexivity.
  - reflexivity.
Qed.

Lemma uniform_try {A} (m : io A) (h : exn -> io A) :
  uniform m -> (forall e, uniform (h e)) -> uniform (try_except m h).
Proof.
  intros Hm Hh [w t].
  unfold result_from, world_from, events_from, try_except. cbn [world trace].
  rewrite (Hm {| world := w; trace := t |}). cbn [world trace].
  unfold result_from, world_from, events_from.
  destruct (m (from w)) as [[a | e] [w1 t1]]; cbn [fst snd world trace].
  - reflexivity.
  - rewrite (Hh e {| world := w1; trace := t ++ t1 |}).
    rewrite (Hh e {| world := w1; trace := t1 |}).
    unfold result_from, world_from, events_from. cbn [fst snd world trace].
    rewrite app_assoc. reflexivity.
Qed.

Lemma uniform_when (c : bool) (m : io unit) : uniform m -> uniform (when c m).
Proof. intros Hm. destruct c; [exact Hm | apply uniform_ret]. Qed.

Lemma uniform_for_each {A} (l : list A) (body : A -> io unit) :
  (forall x, uniform (body x)) -> uniform (for_each l body).
Proof.
  intros Hb. induction l as [| x r IH]; simpl.
  - apply uniform_ret.
  - apply uniform_bind; [apply Hb | intros _; exact IH].
Qed.

Create HintDb uniform.

Ltac uniform_tac :=
  repeat first
    [ assumption
    | solve [auto 1 with uniform nocore]
    | progress cbv zeta
    | match goal with
      | |- uniform (try_except _ _) => apply uniform_try; [| intros ?]
      | |- uniform (bind _ _) => apply uniform_bind; [| intros ?]
      | |- uniform (ret _) => apply uniform_ret
      | |- uniform (raise _) => apply uniform_raise
      | |- uniform (emit _) => apply uniform_emit
      | |- uniform (perform _ _) => apply uniform_perform
      | |- uniform (when _ _) => apply uniform_when
      | |- uniform (for_each _ _) => apply uniform_for_each; intros ?
      | |- uniform (if ?c then _ else _) => destruct c
      | |- uniform (match ?x with _ => _ end) => destruct x
      end ].

Ltac io_prims :=
  unfold log_info, log_success, log_warning, log_error,
    logger_debug, logger_info, logger_warning, logger_error,
    command_exists, perform_or_raise, strip_of, subprocess_run.

Lemma uniform_run self command cwd env capture_output check shell :
  uniform (CommandRunner.run host self command cwd env
                             capture_output check shell).
Proof. unfold CommandRunner.run. io_prims. uniform_tac. Qed.

#[local] Hint Resolve uniform_run : uniform.

Lemma uniform_is_registry_running self name :
  uniform (DockerManager.is_registry_running host self name).
Proof.
  unfold DockerManager.is_registry_running. io_prims.
  uniform_tac.
Qed.
#[local] Hint Resolve uniform_is_registry_running : uniform.

Lemma uniform_is_registry_healthy self port :
  uniform (DockerManager.is_registry_healthy host self port).
Proof.
  unfold DockerManager.is_registry_healthy. io_prims.
  uniform_tac.
Qed.
#[local] Hint Resolve uniform_is_registry_healthy : uniform.

Lemma uniform_cleanup_registry_port self port :
  uniform (DockerManager.cleanup_registry_port host self port).
Proof.
  unfold DockerManager.cleanup_registry_port. io_prims.
  uniform_tac.
Qed.
#[local] Hint Resolve uniform_cleanup_registry_port : uniform.

Lemma uniform_wait_until_healthy self port attempts :
  uniform (DockerManager.wait_until_healthy host self port attempts).
Proof.
  induction attempts as [| n IH]; cbn [DockerManager.wait_until_healthy];
    io_prims; uniform_tac.
Qed.
#[local] Hint Resolve uniform_wait_until_healthy : uniform.

Lemma uniform_start_registry self port name :
  uniform (DockerManager.start_registry host self port name).
Proof.
  unfold DockerManager.start_registry. io_prims.
  uniform_tac.
Qed.
#[local] Hint Resolve uniform_start_registry : uniform.

Lemma uniform_check_docker_available self :
  uniform (DockerManager.check_docker_available host self).
Proof.
  unfold DockerManager.check_docker_available. io_prims.
  uniform_tac.
Qed.
#[local] Hint Resolve uniform_check_docker_available : uniform.

Lemma uniform_check_ocm_available self :
  uniform (OCMClient.check_ocm_available host self).
Proof.
  unfold OCMClient.check_ocm_available. io_prims.
  uniform_tac.
Qed.
#[local] Hint Resolve uniform_check_ocm_available : uniform.

Lemma uniform_check_prerequisites self :
  uniform (EnvironmentManager.check_prerequisites host self).
Proof.
  unfold EnvironmentManager.check_prerequisites. io_prims.
  uniform_tac.
Qed.
#[local] Hint Resolve uniform_check_prerequisites : uniform.

Lemma uniform_first_preferred path_dirs preferred_dirs :
  uniform (EnvironmentManager.first_preferred host path_dirs preferred_dirs).
Proof.
  induction preferred_dirs as [| d r IH];
    cbn [EnvironmentManager.first_preferred]; uniform_tac.
Qed.
#[local] Hint Resolve uniform_first_preferred : uniform.

Lemma uniform_get_install_directory self :
  uniform (EnvironmentManager._get_install_directory host self).
Proof.
  unfold EnvironmentManager._get_install_directory.
  uniform_tac.
Qed.
#[local] Hint Resolve uniform_get_install_directory : uniform.

Lemma uniform_download_and_install_ocm self os_name arch :
  uniform (EnvironmentManager._download_and_install_ocm host self os_name arch).
Proof.
  unfold EnvironmentManager._download_and_install_ocm. io_prims.
  uniform_tac.
Qed.
#[local] Hint Resolve uniform_download_and_install_ocm : uniform.

Lemma uniform_install_ocm_cli self :
  uniform (EnvironmentManager.install_ocm_cli host self).
Proof.
  unfold EnvironmentManager.install_ocm_cli. io_prims.
  uniform_tac.
Qed.
#[local] Hint Resolve uniform_install_ocm_cli : uniform.

(** Consequences of uniformity: result and final world depend on the
    world alone, and the trace grows at its end. *)
Lemma uniform_result {A} (m : io A) st :
  uniform m -> fst (m st) = result_from m (world st).
Proof. intros H. rewrite (H st). reflexivity. Qed.

Lemma uniform_world {A} (m : io A) st :
  uniform m -> world (snd (m st)) = world_from m (world st).
Proof. intros H. rewrite (H st). reflexivity. Qed.

Lemma uniform_trace {A} (m : io A) st :
  uniform m -> trace (snd (m st)) = (trace st ++ events_from m (world st))%list.
Proof. intros H. rewrite (H st). reflexivity. Qed.

(** *** Events of the trace *)

Lemma interactions_app t1 t2 :
  interactions (t1 ++ t2) = (interactions t1 ++ interactions t2)%list.
Proof. apply filter_app. Qed.

Lemma interactions_log t kind msg :
  interactions (t ++ [EvLog kind msg]) = interactions t.
Proof. rewrite interactions_app. cbn. apply app_nil_r. Qed.

Lemma interactions_call t {R} (c : call R) :
  interactions (t ++ [EvCall c]) = (interactions t ++ [EvCall c])%list.
Proof. rewrite interactions_app. reflexivity. Qed.

Ltac trace_simpl :=
  cbn [world trace fst snd];
  repeat first [ rewrite interactions_log | rewrite interactions_call ];
  rewrite ?app_nil_r.

(** *** The process runner, request by request *)

(** Without the dry-run flag, [run] sends exactly one request, the
    process creation, and its result is what [subprocess.run] makes of
    the answer, with "not found" turned into return code 127. *)
Lemma run_executes self command cwd env capture_output check shell st :
  CommandRunner.dry_run self = false ->
  let request :=
    subprocess_spawn command cwd env (CommandRunner.shell_flag shell command) in
  let st' :=
    snd (CommandRunner.run host self command cwd env
                           capture_output check shell st) in
  fst (CommandRunner.run host self command cwd env
                         capture_output check shell st)
  = completed command capture_output check (fst (sys host request (world st)))
  /\ world st' = snd (sys host request (world st))
  /\ interactions (trace st')
     = (interactions (trace st) ++ [EvCall request])%list.
Proof.
  intros Hdry request st'. subst request st'.
  unfold CommandRunner.run. rewrite Hdry.
  destruct (Py.truthy_opt cwd); io_unfold; io_answer;
    (destruct r as [code out err | msg | msg]; cbn [completed];
     [ destruct (check && negb (code =? 0)); cbv beta iota zeta;
       [ cbn [fst snd world trace];
         destruct (Py.truthy_opt (if capture_output then Some out else None)),
                  (Py.truthy_opt (if capture_output then Some err else None))
       | cbn [returncode]; destruct (code =? 0) ]
     | | ]);
    cbn [fst snd world trace]; repeat split; trace_simpl; reflexivity.
Qed.

(** With [check=True] a returned result has return code 0. *)
Lemma run_checked_returncode self command cwd env capture_output shell
      st result st' :
  CommandRunner.run host self command cwd env capture_output true shell st
  = (Ok result, st') ->
  returncode result = 0.
Proof.
  intros E. destruct (CommandRunner.dry_run self) eqn:Hdry.
  - rewrite run_dry in E by exact Hdry. inversion E. reflexivity.
  - destruct (run_executes self command cwd env capture_output true shell st
                Hdry) as (Hr & _). rewrite E in Hr. cbn [fst] in Hr.
    destruct (fst (sys host _ (world st))) as [code out err | msg | msg];
      cbn [completed] in Hr; try discriminate.
    cbn [andb] in Hr. destruct (code =? 0) eqn:Hc; cbn [negb] in Hr.
    + inversion Hr. cbn. apply Z.eqb_eq. exact Hc.
    + discriminate.
Qed.

(** *** Registry queries *)

(** [is_registry_running] sends the listing request when the runner
    executes, and nothing in dry-run. *)
Lemma is_registry_running_interactions self name st :
  interactions (trace (snd (DockerManager.is_registry_running host self name st)))
  = (interactions (trace st)
     ++ (if CommandRunner.dry_run (DockerManager.runner self)
         then [] else [EvCall list_running]))%list.
Proof.
  unfold DockerManager.is_registry_running, try_except, bind.
  destruct (CommandRunner.dry_run (DockerManager.runner self)) eqn:Hdry.
  - rewrite run_dry by exact Hdry. cbn. trace_simpl. reflexivity.
  - match goal with
    | |- context [CommandRunner.run host ?r ?c ?d ?e ?o ?k ?s st] =>
        destruct (run_executes r c d e o k s st Hdry) as (_ & _ & Ht);
        destruct (CommandRunner.run host r c d e o k s st)
          as [[result | ex] st1]
    end; cbn [fst snd] in *.
    + destruct (returncode result =? 0); [| exact Ht].
      destruct (stdout result); cbn; exact Ht.
    + exact Ht.
Qed.

(** [is_registry_healthy]: in dry-run the answer is always "healthy" and
    nothing is sent; otherwise one probe is sent. *)
Lemma is_registry_healthy_dry self port st :
  CommandRunner.dry_run (DockerManager.runner self) = true ->
  fst (DockerManager.is_registry_healthy host self port st) = Ok true.
Proof.
  intros Hdry. unfold DockerManager.is_registry_healthy, try_except, bind.
  rewrite run_dry by exact Hdry. reflexivity.
Qed.

Lemma is_registry_healthy_interactions self port st :
  CommandRunner.dry_run (DockerManager.runner self) = false ->
  interactions (trace (snd (DockerManager.is_registry_healthy host self port st)))
  = (interactions (trace st)
     ++ [EvCall (health_probe
                   (Py.or_int port
                      (registry_port (DockerManager.config self))))])%list.
Proof.
  intros Hdry. unfold DockerManager.is_registry_healthy, try_except, bind.
  match goal with
  | |- context [CommandRunner.run host ?r ?c ?d ?e ?o ?k ?s st] =>
      destruct (run_executes r c d e o k s st Hdry) as (_ & _ & Ht);
      destruct (CommandRunner.run host r c d e o k s st)
        as [[result | ex] st1]
  end; cbn [fst snd] in *; exact Ht.
Qed.

Lemma unhealthy_not_dry self port st :
  fst (DockerManager.is_registry_healthy host self port st) = Ok false ->
  CommandRunner.dry_run (DockerManager.runner self) = false.
Proof.
  intros H.
  destruct (CommandRunner.dry_run (DockerManager.runner self)) eqn:Hdry;
    [| reflexivity].
  rewrite (is_registry_healthy_dry self port st Hdry) in H. discriminate.
Qed.

(** *** Idempotent start *)

(** C4.  When [is_registry_running] reports the named container running
    in the current world (as it does after a successful first start),
    [start_registry] returns [True], and what it does to the host is what
    that query does: one container listing when the runner executes,
    nothing in dry-run.  No cleanup by port, no forced removal and no
    launch is requested. *)
Theorem start_registry_idempotent self port name st :
  let name' := Py.or_str name (registry_name (DockerManager.config self)) in
  fst (DockerManager.is_registry_running host self (Some name') st) = Ok true ->
  exists st',
    DockerManager.start_registry host self port name st = (Ok true, st')
    /\ world st'
       = world (snd (DockerManager.is_registry_running host self
                                                       (Some name') st))
    /\ interactions (trace st')
       = (interactions (trace st)
          ++ (if CommandRunner.dry_run (DockerManager.runner self)
              then [] else [EvCall list_running]))%list
    /\ exists earlier,
         trace st'
         = (earlier ++ [EvLog SUCCESS "Registry already running"])%list.
Proof.
  intros name' Hrunning.
  pose proof (uniform_is_registry_running self (Some name')) as Hu.
  rewrite (uniform_result st Hu) in Hrunning.
  rewrite (uniform_world st Hu).
  unfold DockerManager.start_registry. fold name'.
  unfold bind at 1. unfold log_info at 1, emit at 1. unfold bind at 1.
  match goal with
  | |- context [DockerManager.is_registry_running host self (Some name') ?s] =>
      pose proof (uniform_result s Hu) as Hr;
      pose proof (uniform_world s Hu) as Hw;
      pose proof (is_registry_running_interactions self (Some name') s) as Ht;
      destruct (DockerManager.is_registry_running host self (Some name') s)
        as [r st1]
  end.
  cbn [fst snd world trace] in Hr, Hw, Ht.
  rewrite Hrunning in Hr. subst r.
  unfold bind, log_success, emit, ret. cbn [fst snd world trace].
  eexists. split; [reflexivity |]. cbn [world trace]. split; [exact Hw |].
  split.
  - trace_simpl. rewrite Ht. trace_simpl. reflexivity.
  - eexists. reflexivity.
Qed.

(** *** The health poll *)

(** If the probe never succeeds, [attempts] rounds are made and the
    wait ends in failure. *)
Lemma wait_until_healthy_never self port attempts :
  (forall s,
      fst (DockerManager.is_registry_healthy host self (Some port) s)
      = Ok false) ->
  forall st,
  exists st',
    DockerManager.wait_until_healthy host self port attempts st
    = (Ok false, st')
    /\ interactions (trace st')
       = (interactions (trace st)
          ++ concat (repeat
                       (poll_round
                          (Py.or_int (Some port)
                             (registry_port (DockerManager.config self))))
                       attempts))%list.
Proof.
  intros Hnever.
  induction attempts as [| n IH]; intros st;
    cbn [DockerManager.wait_until_healthy].
  - io_unfold. eexists. split; [reflexivity |]. trace_simpl.
    cbn [repeat concat]. rewrite ?app_nil_r. reflexivity.
  - unfold bind at 1.
    pose proof (Hnever st) as Hres.
    pose proof (is_registry_healthy_interactions self (Some port) st
                  (unhealthy_not_dry self (Some port) st Hres)) as Ht.
    destruct (DockerManager.is_registry_healthy host self (Some port) st)
      as [r st1].
    cbn [fst snd] in Hres, Ht. subst r.
    unfold bind at 1, perform at 1.
    destruct (sys host (time_sleep 1) (world st1)) as [[] w2].
    match goal with
    | |- context [DockerManager.wait_until_healthy host self port n ?s] =>
        destruct (IH s) as (st' & E & Ht')
    end.
    exists st'. split; [exact E |].
    rewrite Ht'. trace_simpl. rewrite Ht. cbn [repeat concat poll_round].
    rewrite <- !app_assoc. reflexivity.
Qed.

(** *** Computations confined to a class of events *)

Section EmitsOnly.

Variable P : event -> bool.

Lemma emits_only_ret {A} (a : A) : emits_only P (ret a).
Proof. intros st. exists []. cbn. rewrite app_nil_r. auto. Qed.

Lemma emits_only_raise {A} (e : exn) : emits_only P (raise (A := A) e).
Proof. intros st. exists []. cbn. rewrite app_nil_r. auto. Qed.

Lemma emits_only_emit (e : event) :
  P e = true -> emits_only P (emit (W := World host) e).
Proof. intros HP st. exists [e]. cbn. rewrite HP. auto. Qed.

Lemma emits_only_perform {R} (c : call R) :
  P (EvCall c) = true -> emits_only P (perform host c).
Proof.
  intros HP st. exists [EvCall c]. unfold perform.
  destruct (sys host c (world st)) as [r w]. cbn. rewrite HP. auto.
Qed.

Lemma emits_only_bind {A B} (m : io A) (k : A -> io B) :
  emits_only P m -> (forall a, emits_only P (k a)) -> emits_only P (bind m k).
Proof.
  intros Hm Hk st. unfold bind. destruct (Hm st) as (evs1 & E1 & H1).
  destruct (m st) as [[a | e] st1]; cbn [snd] in *.
  - destruct (Hk a st1) as (evs2 & E2 & H2). exists (evs1 ++ evs2)%list.
    rewrite E2, E1, app_assoc, forallb_app, H1, H2. auto.
  - exists evs1. auto.
Qed.

Lemma emits_only_try {A} (m : io A) (h : exn -> io A) :
  emits_only P m -> (forall e, emits_only P (h e)) ->
  emits_only P (try_except m h).
Proof.
  intros Hm Hh st. unfold try_except. destruct (Hm st) as (evs1 & E1 & H1).
  destruct (m st) as [[a | e] st1]; cbn [snd] in *.
  - exists evs1. auto.
  - destruct (Hh e st1) as (evs2 & E2 & H2). exists (evs1 ++ evs2)%list.
    rewrite E2, E1, app_assoc, forallb_app, H1, H2. auto.
Qed.

Lemma emits_only_when (c : bool) (m : io unit) :
  emits_only P m -> emits_only P (when c m).
Proof. intros Hm. destruct c; [exact Hm | apply emits_only_ret]. Qed.

Lemma emits_only_for_each {A} (l : list A) (body : A -> io unit) :
  (forall x, emits_only P (body x)) -> emits_only P (for_each l body).
Proof.
  intros Hb. induction l as [| x r IH]; cbn [for_each].
  - apply emits_only_ret.
  - apply emits_only_bind; [apply Hb | intros _; exact IH].
Qed.

End EmitsOnly.

Create HintDb emits.

Ltac emits_tac :=
  repeat first
    [ assumption
    | solve [auto 1 with emits nocore]
    | progress cbv zeta
    | match goal with
      | |- emits_only _ (try_except _ _) => apply emits_only_try; [| intros ?]
      | |- emits_only _ (bind _ _) => apply emits_only_bind; [| intros ?]
      | |- emits_only _ (ret _) => apply emits_only_ret
      | |- emits_only _ (raise _) => apply emits_only_raise
      | |- emits_only _ (emit _) => apply emits_only_emit; reflexivity
      | |- emits_only _ (perform _ _) =>
          apply emits_only_perform; reflexivity
      | |- emits_only _ (when _ _) => apply emits_only_when
      | |- emits_only _ (for_each _ _) => apply emits_only_for_each; intros ?
      | |- emits_only _ (if ?c then _ else _) => destruct c
      | |- emits_only _ (match ?x with _ => _ end) => destruct x
      end ].

(** [run] adds log lines and, when it executes, its one request. *)
Lemma emits_only_run (P : event -> bool)
      self command cwd env capture_output check shell :
  (forall kind msg, P (EvLog kind msg) = true) ->
  P (EvCall (subprocess_spawn command cwd env
                              (CommandRunner.shell_flag shell command)))
  = true ->
  emits_only P (CommandRunner.run host self command cwd env
                                  capture_output check shell).
Proof.
  intros Hlog Hcall. unfold CommandRunner.run. io_prims.
  repeat first
    [ match goal with
      | |- emits_only _ (try_except _ _) => apply emits_only_try; [| intros ?]
      | |- emits_only _ (bind _ _) => apply emits_only_bind; [| intros ?]
      | |- emits_only _ (ret _) => apply emits_only_ret
      | |- emits_only _ (raise _) => apply emits_only_raise
      | |- emits_only _ (emit (EvLog _ _)) => apply emits_only_emit, Hlog
      | |- emits_only _ (perform _ _) => apply emits_only_perform, Hcall
      | |- emits_only _ (when _ _) => apply emits_only_when
      | |- emits_only _ (if ?c then _ else _) => destruct c
      | |- emits_only _ (match ?x with _ => _ end) => destruct x
      end
    | progress cbv zeta ].
Qed.

Lemma emits_only_run_docker self arguments capture_output check :
  emits_only not_probe
    (CommandRunner.run host self (CmdList ("docker" :: arguments))
                       None None capture_output check None).
Proof. apply emits_only_run; reflexivity. Qed.

#[local] Hint Resolve emits_only_run_docker : emits.

Lemma is_registry_running_not_probe self name :
  emits_only not_probe (DockerManager.is_registry_running host self name).
Proof.
  unfold DockerManager.is_registry_running. io_prims. emits_tac.
Qed.

Lemma cleanup_registry_port_not_probe self port :
  emits_only not_probe (DockerManager.cleanup_registry_port host self port).
Proof.
  unfold DockerManager.cleanup_registry_port. io_prims. emits_tac.
Qed.

(** C3, as amended.  Take a start that reaches the wait: the container
    was not reported running ([st1]), the forced removal returned
    ([st2]) and the launch returned ([st3]).  If the health probe never
    reports success, [start_registry] returns [False] after exactly 30
    rounds of one probe followed by a sleep of one second; no probe is
    made before the launch, so the call makes 30 probes in all. *)
Theorem start_registry_poll_bound
        self port name st st1 removed st2 launched st3 :
  let port' := Py.or_int port (registry_port (DockerManager.config self)) in
  let name' := Py.or_str name (registry_name (DockerManager.config self)) in
  (forall s,
      fst (DockerManager.is_registry_healthy host self (Some port') s)
      = Ok false) ->
  DockerManager.is_registry_running host self (Some name')
    (snd (log_info host ("Starting registry on port "
                         ++ Py.str_int port' ++ "...") st))
  = (Ok false, st1) ->
  CommandRunner.run host (DockerManager.runner self)
    (CmdList ["docker"; "rm"; "-f"; name']) None None true false None
    (snd (DockerManager.cleanup_registry_port host self port' st1))
  = (Ok removed, st2) ->
  CommandRunner.run host (DockerManager.runner self)
    (DockerManager.launch_command port' name') None None true true None st2
  = (Ok launched, st3) ->
  exists st4 before,
    DockerManager.start_registry host self port name st = (Ok false, st4)
    /\ trace st3 = (trace st ++ before)%list
    /\ filter is_health_probe before = []
    /\ interactions (trace st4)
       = (interactions (trace st3)
          ++ concat (repeat (poll_round port') 30))%list
    /\ length (filter is_health_probe
                      (concat (repeat (poll_round port') 30))) = 30%nat.
Proof.
  intros port' name' Hnever Hrunning Hremove Hlaunch.
  destruct (wait_until_healthy_never self port' 30 Hnever
              {| world := world st3;
                 trace := trace st3
                          ++ [EvLog INFO "Waiting for registry to be ready..."]
              |}) as (st4 & Hwait & Htrace).
  assert (Hport : Py.or_int (Some port')
                    (registry_port (DockerManager.config self)) = port').
  { unfold port', Py.or_int. destruct port as [p |].
    - destruct (p =? 0) eqn:Hp.
      + destruct (registry_port (DockerManager.config self) =? 0) eqn:Hc;
          reflexivity.
      + rewrite Hp. reflexivity.
    - destruct (registry_port (DockerManager.config self) =? 0); reflexivity. }
  rewrite Hport in Htrace.
  exists st4.
  (* the events before the wait *)
  destruct (is_registry_running_not_probe self (Some name')
              (snd (log_info host ("Starting registry on port "
                                   ++ Py.str_int port' ++ "...") st)))
    as (evs1 & E1 & P1).
  rewrite Hrunning in E1. cbn [snd] in E1.
  destruct (cleanup_registry_port_not_probe self port' st1)
    as (evs2 & E2 & P2).
  destruct (emits_only_run_docker (DockerManager.runner self)
              ["rm"; "-f"; name'] true false
              (snd (DockerManager.cleanup_registry_port host self port' st1)))
    as (evs3 & E3 & P3).
  rewrite Hremove in E3. cbn [snd] in E3.
  destruct (emits_only_run_docker (DockerManager.runner self)
              ["run"; "-d"; "-p"; (Py.str_int port' ++ ":5000")%string;
               "--name"; name'; "registry:2"] true true st2)
    as (evs4 & E4 & P4).
  change (CmdList ("docker" :: _)) with (DockerManager.launch_command port' name')
    in E4.
  rewrite Hlaunch in E4. cbn [snd] in E4.
  exists (([EvLog INFO ("Starting registry on port "
                        ++ Py.str_int port' ++ "...")]
           ++ evs1) ++ evs2 ++ evs3 ++ evs4)%list.
  split; [| split; [| split; [| split]]].
  - unfold DockerManager.start_registry. fold port' name'.
    unfold bind at 1.
    destruct (log_info host ("Starting registry on port "
                             ++ Py.str_int port' ++ "...") st)
      as [[[] | e0] st0] eqn:Hlog; [| discriminate Hlog].
    cbn [snd] in Hrunning.
    unfold bind at 1. rewrite Hrunning.
    unfold bind at 1.
    destruct (returns_cleanup_registry_port self port' st1)
      as ([] & stc & Hclean).
    rewrite Hclean in Hremove |- *. cbn [snd] in Hremove.
    unfold bind at 1. rewrite Hremove.
    unfold try_except, bind. rewrite Hlaunch.
    rewrite (run_checked_returncode _ _ _ _ _ _ _ Hlaunch).
    cbn [Z.eqb]. unfold log_info, emit. cbn [world trace].
    rewrite Hwait. reflexivity.
  - rewrite E4, E3, E2, E1. cbn [log_info emit snd trace].
    rewrite <- !app_assoc. reflexivity.
  - unfold not_probe in *.
    assert (Hfilter : forall evs,
               forallb (fun e => negb (is_health_probe e)) evs = true ->
               filter is_health_probe evs = []).
    { induction evs as [| e evs IH]; [reflexivity |].
      cbn. intros H. apply andb_true_iff in H. destruct H as (He & Hevs).
      apply negb_true_iff in He. rewrite He. auto. }
    rewrite !filter_app. cbn [filter is_health_probe].
    rewrite (Hfilter _ P1), (Hfilter _ P2), (Hfilter _ P3), (Hfilter _ P4).
    reflexivity.
  - rewrite Htrace. trace_simpl. reflexivity.
  - reflexivity.
Qed.

(** *** Dry-run *)

Lemma first_preferred_allowed path_dirs preferred_dirs :
  emits_only allowed_in_dry_install
    (EnvironmentManager.first_preferred host path_dirs preferred_dirs).
Proof.
  induction preferred_dirs as [| d r IH];
    cbn [EnvironmentManager.first_preferred]; emits_tac.
Qed.

#[local] Hint Resolve first_preferred_allowed : emits.

Lemma get_install_directory_allowed self :
  emits_only allowed_in_dry_install
    (EnvironmentManager._get_install_directory host self).
Proof. unfold EnvironmentManager._get_install_directory. emits_tac. Qed.

#[local] Hint Resolve get_install_directory_allowed : emits.

(** The first step of a [try] that begins with a request. *)
Lemma try_bind_perform {R A} (c : call (result R)) (k : R -> io A)
      (h : exn -> io A) st :
  try_except (bind (perform_or_raise host c) k) h st
  = match sys host c (world st) with
    | (Ok a, w) =>
        try_except (k a) h {| world := w; trace := trace st ++ [EvCall c] |}
    | (Raise e, w) => h e {| world := w; trace := trace st ++ [EvCall c] |}
    end.
Proof.
  cbv [try_except bind perform_or_raise perform ret raise].
  destruct (sys host c (world st)) as [[a | e] w]; reflexivity.
Qed.

(** In dry-run a start of the registry only writes log lines. *)
Lemma start_registry_dry cfg port name st :
  exists logs,
    DockerManager.start_registry host (DockerManager.new true cfg) port name st
    = (Ok true, {| world := world st; trace := trace st ++ logs |})
    /\ forallb is_log logs = true.
Proof.
  unfold DockerManager.start_registry, DockerManager.is_registry_running,
    DockerManager.cleanup_registry_port.
  cbn [DockerManager.new DockerManager.runner DockerManager.config].
  unfold bind at 1. unfold log_info at 1, emit at 1.
  unfold bind at 1. unfold try_except at 1. unfold bind at 1.
  rewrite run_dry by reflexivity. cbn [returncode Z.eqb stdout].
  unfold bind at 1, strip_of at 1, ret at 1.
  change (Py.split Py.newline (Py.strip "")) with [""].
  unfold ret at 1.
  destruct (Py.mem (Py.or_str (Some (Py.or_str name (registry_name cfg)))
                              (registry_name cfg)) [""]).
  - io_unfold. eexists. rewrite <- !app_assoc. split; reflexivity.
  - unfold bind at 1, try_except at 1, bind at 1.
    rewrite run_dry by reflexivity. cbn [returncode Z.eqb stdout].
    unfold bind at 1, strip_of at 1, ret at 1.
    change (Py.truthy (Py.strip "")) with false. cbv iota. unfold ret at 1.
    unfold bind at 1. rewrite run_dry by reflexivity.
    unfold try_except at 1, bind at 1. rewrite run_dry by reflexivity.
    cbn [returncode Z.eqb]. unfold bind at 1, log_info at 1, emit at 1.
    cbn [DockerManager.wait_until_healthy]. unfold bind at 1.
    unfold DockerManager.is_registry_healthy at 1.
    cbn [DockerManager.new DockerManager.runner DockerManager.config].
    unfold try_except at 1, bind at 1. rewrite run_dry by reflexivity.
    cbn [returncode Z.eqb]. io_unfold.
    eexists. rewrite <- !app_assoc. split; reflexivity.
Qed.

(** In dry-run a stop of the registry only writes log lines. *)
Lemma stop_registry_dry cfg name st :
  exists logs,
    DockerManager.stop_registry host (DockerManager.new true cfg) name st
    = (Ok true, {| world := world st; trace := trace st ++ logs |})
    /\ forallb is_log logs = true.
Proof.
  unfold DockerManager.stop_registry.
  cbn [DockerManager.new DockerManager.runner DockerManager.config].
  unfold bind at 1. unfold log_info at 1, emit at 1.
  unfold try_except at 1, bind at 1. rewrite run_dry by reflexivity.
  unfold bind at 1. rewrite run_dry by reflexivity.
  io_unfold. eexists. rewrite <- !app_assoc. split; reflexivity.
Qed.

Lemma reports_failure_bind {A} (m : io A) (k : A -> io bool) :
  (forall a, reports_failure (k a)) -> reports_failure (bind m k).
Proof.
  intros Hk st. unfold bind. destruct (m st) as [[a | e] st1].
  - apply Hk.
  - exact I.
Qed.

Lemma reports_failure_true (m : io unit) :
  reports_failure (bind m (fun _ => ret true)).
Proof.
  intros st. unfold bind. destruct (m st) as [[a | e] st1]; [| exact I].
  left. reflexivity.
Qed.

Lemma reports_failure_error msg :
  reports_failure (bind (log_error host msg None) (fun _ => ret false)).
Proof.
  intros st. io_unfold. right. split; [reflexivity |].
  eexists _, _. reflexivity.
Qed.

(** In dry-run the download step returns [True] unless it reports an
    error: the final verification cannot fail. *)
Lemma download_and_install_ocm_dry_verdict cfg os_name arch st :
  let install :=
    EnvironmentManager._download_and_install_ocm
      host (EnvironmentManager.new true cfg) os_name arch in
  true_or_reported (fst (install st)) (trace (snd (install st))).
Proof.
  intros install. unfold install.
  unfold EnvironmentManager._download_and_install_ocm.
  cbn [EnvironmentManager.new EnvironmentManager.dry_run].
  match goal with
  | |- context [try_except ?body ?h st] =>
      assert (Hbody : reports_failure body)
  end.
  { apply reports_failure_bind. intros release_data. cbv zeta.
    match goal with
    | |- reports_failure (if ?c then _ else _) => destruct c
    end.
    - apply reports_failure_error.
    - repeat (apply reports_failure_bind; intros ?).
      rewrite orb_true_r. apply reports_failure_true. }
  unfold try_except. specialize (Hbody st).
  match goal with
  | |- context [let (_, _) := ?body st in _] =>
      destruct (body st) as [[b | e] st1]
  end.
  - exact Hbody.
  - io_unfold. right. split; [reflexivity |]. eexists _, _. reflexivity.
Qed.

(** In dry-run the installer's download step begins with the request for
    the release metadata; whatever follows creates no process and does
    not move the binary into place; the step returns, and it returns
    [False] when the metadata request fails. *)
Lemma download_and_install_ocm_dry cfg os_name arch st :
  let install :=
    EnvironmentManager._download_and_install_ocm
      host (EnvironmentManager.new true cfg) os_name arch in
  exists evs,
    trace (snd (install st))
    = (trace st ++ EvCall (urlopen_json EnvironmentManager.api_url) :: evs)%list
    /\ forallb allowed_in_dry_install evs = true
    /\ (exists installed, fst (install st) = Ok installed)
    /\ match fst (sys host (urlopen_json EnvironmentManager.api_url) (world st))
       with
       | Raise _ => fst (install st) = Ok false
       | Ok _ => True
       end.
Proof.
  intros install.
  destruct (returns_download_and_install_ocm
              (EnvironmentManager.new true cfg) os_name arch st)
    as (installed & st' & Hret).
  fold install in Hret.
  assert (Hres : exists installed, fst (install st) = Ok installed).
  { exists installed. rewrite Hret. reflexivity. }
  clear Hret. revert Hres. unfold install.
  unfold EnvironmentManager._download_and_install_ocm.
  cbn [EnvironmentManager.new EnvironmentManager.dry_run].
  rewrite try_bind_perform.
  destruct (sys host (urlopen_json EnvironmentManager.api_url) (world st))
    as [[release_data | e] w] eqn:Hsys; cbn [fst]; intros Hres.
  - match goal with
    | |- context [try_except ?m ?h ?s] =>
        assert (Hrest : emits_only allowed_in_dry_install (try_except m h))
          by (io_prims; emits_tac);
        destruct (Hrest s) as (evs & Ht & Hp)
    end.
    exists evs. cbn [trace] in Ht. rewrite Ht, <- app_assoc.
    repeat split; auto.
  - exists [EvLog ERROR ("Failed to download OCM CLI: " ++ str_exn host e)].
    io_unfold. rewrite <- app_assoc. repeat split; auto.
Qed.

(** C1, as amended.  With the dry-run flag set, a start and a stop of
    the registry send no request to the host (no process, no network, no
    file): they only write log lines and return [True].  The installer's
    download step is different: it still requests the release metadata,
    and may download the asset to a temporary file and create the
    install directory; what it leaves out is the creation of processes
    and the move of the binary into place.  It returns [True] unless it
    reports an error, and it returns [False] when the metadata request
    fails. *)
Theorem dry_run_effects cfg st :
  (forall port name,
      exists logs,
        DockerManager.start_registry host (DockerManager.new true cfg)
                                     port name st
        = (Ok true, {| world := world st; trace := trace st ++ logs |})
        /\ forallb is_log logs = true)
  /\ (forall name,
         exists logs,
           DockerManager.stop_registry host (DockerManager.new true cfg)
                                       name st
           = (Ok true, {| world := world st; trace := trace st ++ logs |})
           /\ forallb is_log logs = true)
  /\ (forall os_name arch,
         let install :=
           EnvironmentManager._download_and_install_ocm
             host (EnvironmentManager.new true cfg) os_name arch in
         exists evs,
           trace (snd (install st))
           = (trace st
              ++ EvCall (urlopen_json EnvironmentManager.api_url) :: evs)%list
           /\ forallb allowed_in_dry_install evs = true
           /\ true_or_reported (fst (install st)) (trace (snd (install st)))
           /\ match fst (sys host (urlopen_json EnvironmentManager.api_url)
                             (world st))
              with
              | Raise _ => fst (install st) = Ok false
              | Ok _ => True
              end).
Proof.
  split; [| split].
  - intros port name. apply start_registry_dry.
  - intros name. apply stop_registry_dry.
  - intros os_name arch install.
    destruct (download_and_install_ocm_dry cfg os_name arch st)
      as (evs & Ht & Hp & _ & Hfail).
    exists evs. split; [exact Ht | split; [exact Hp | split; [| exact Hfail]]].
    apply download_and_install_ocm_dry_verdict.
Qed.

(** *** Overall verdict of the setup *)

Lemma silent_ret : silent (ret tt).
Proof. intros [w t]. exists []. cbn. rewrite app_nil_r. reflexivity. Qed.

Lemma silent_emit e : silent (emit e).
Proof. intros st. exists [e]. reflexivity. Qed.

Lemma silent_bind (m : io unit) (k : unit -> io unit) :
  silent m -> (forall u, silent (k u)) -> silent (bind m k).
Proof.
  intros Hm Hk st. destruct (Hm st) as (l1 & E1).
  destruct (Hk tt {| world := world st; trace := trace st ++ l1 |})
    as (l2 & E2).
  exists (l1 ++ l2)%list. unfold bind. rewrite E1, E2. cbn [world trace].
  rewrite app_assoc. reflexivity.
Qed.

Lemma silent_when c m : silent m -> silent (when c m).
Proof. intros Hm. destruct c; [exact Hm | exact silent_ret]. Qed.

Lemma silent_for_each {A} (l : list A) (body : A -> io unit) :
  (forall x, silent (body x)) -> silent (for_each l body).
Proof.
  intros Hb. induction l as [| x r IH]; cbn [for_each].
  - exact silent_ret.
  - apply silent_bind; [apply Hb | intros _; exact IH].
Qed.

Lemma uniform_install_step self install_missing prerequisites :
  uniform (install_step self install_missing prerequisites).
Proof. unfold install_step. uniform_tac. Qed.

Lemma uniform_registry_step self prerequisites :
  uniform (registry_step self prerequisites).
Proof. unfold registry_step. uniform_tac. Qed.

Lemma returns_install_step self install_missing prerequisites :
  returns (install_step self install_missing prerequisites).
Proof.
  unfold install_step.
  destruct (install_attempted install_missing prerequisites);
    [apply returns_install_ocm_cli | apply returns_ret].
Qed.

(** [setup_environment] state by state. *)
Lemma setup_environment_steps self install_missing st :
  exists prerequisites s1 installed s2 s3,
    EnvironmentManager.check_prerequisites host self
      (snd (log_info host "Setting up OCM Demo environment..." st))
    = (Ok prerequisites, s1)
    /\ install_step self install_missing prerequisites s1 = (Ok installed, s2)
    /\ world s3 = world s2
    /\ match registry_step self prerequisites s3 with
       | (Ok started, s4) =>
           exists s5,
             EnvironmentManager.setup_environment host self install_missing st
             = (Ok (installed && started), s5)
             /\ world s5 = world s4
       | (Raise e, s4) =>
           EnvironmentManager.setup_environment host self install_missing st
           = (Raise e, s4)
       end.
Proof.
  destruct (log_info host "Setting up OCM Demo environment..." st)
    as [[[] | e0] s0] eqn:Hlog; [| discriminate Hlog].
  cbn [snd].
  destruct (returns_check_prerequisites self s0) as (p & s1 & Ecp).
  exists p, s1.
  destruct (returns_install_step self install_missing p s1)
    as (installed & s2 & Einst).
  exists installed, s2.
  assert (Hblock : silent
            (when (match EnvironmentManager.missing_tools p with
                   | [] => false
                   | _ => true
                   end)
               (log_warning host
                  ("Missing tools: "
                   ++ Py.join ", " (EnvironmentManager.missing_tools p)) ;;
                log_info host "Please install the missing tools manually:" ;;
                for_each (EnvironmentManager.missing_tools p)
                  (fun tool =>
                     log_info host
                       ("  - " ++ tool ++ ": "
                        ++ EnvironmentManager._get_install_hint self tool))))).
  { apply silent_when. apply silent_bind; [apply silent_emit | intros _].
    apply silent_bind; [apply silent_emit | intros _].
    apply silent_for_each. intros tool. apply silent_emit. }
  (* the state in which the registry step starts *)
  assert (Hmid : exists s3,
             world s3 = world s2
             /\ forall (k : bool -> io bool),
                 bind (if install_missing
                       then
                         success <-
                           (if negb (Py.get p "ocm" false)
                            then
                              installed <-
                                EnvironmentManager.install_ocm_cli host self ;;
                              ret (if negb installed then false else true)
                            else ret true) ;;
                         when (match EnvironmentManager.missing_tools p with
                               | [] => false
                               | _ => true
                               end)
                           (log_warning host
                              ("Missing tools: "
                               ++ Py.join ", "
                                    (EnvironmentManager.missing_tools p)) ;;
                            log_info host
                              "Please install the missing tools manually:" ;;
                            for_each (EnvironmentManager.missing_tools p)
                              (fun tool =>
                                 log_info host
                                   ("  - " ++ tool ++ ": "
                                    ++ EnvironmentManager._get_install_hint
                                         self tool))) ;;
                         ret success
                       else ret true) k s1
                 = k installed s3).
  { unfold install_step, install_attempted in Einst.
    destruct install_missing; cbn [andb] in Einst.
    - destruct (negb (Py.get p "ocm" false)).
      + destruct (Hblock s2) as (logs & Elogs).
        eexists. split; [| intros k].
        2:{ unfold bind at 1. unfold bind at 1. unfold bind at 1.
            rewrite Einst. unfold ret at 1. unfold bind at 1.
            rewrite Elogs. unfold ret at 1.
            destruct installed; reflexivity. }
        reflexivity.
      + inversion Einst; subst installed s2.
        destruct (Hblock s1) as (logs & Elogs).
        eexists. split; [| intros k].
        2:{ unfold bind at 1. unfold bind at 1. unfold ret at 1.
            unfold bind at 1. rewrite Elogs. unfold ret at 1.
            reflexivity. }
        reflexivity.
    - inversion Einst; subst installed s2.
      exists s1. split; [reflexivity | intros k]. reflexivity. }
  destruct Hmid as (s3 & Hw3 & Hk).
  exists s3. split; [exact Ecp | split; [exact Einst | split; [exact Hw3 |]]].
  unfold registry_step, registry_attempted.
  destruct (Py.get p "docker" false) eqn:Hdocker.
  - destruct (DockerManager.start_registry host
                (EnvironmentManager.docker self) None None s3)
      as [[started | e] s4] eqn:Estart;
      unfold EnvironmentManager.setup_environment; cbv zeta;
      unfold bind at 1; rewrite Hlog; unfold bind at 1; rewrite Ecp;
      rewrite Hk, Hdocker; unfold bind at 1; unfold bind at 1;
      rewrite Estart; [| reflexivity].
    destruct started; cbn [negb].
    + unfold ret at 1. rewrite andb_true_r.
      destruct installed; io_unfold; eexists; split; reflexivity.
    + rewrite andb_false_r. io_unfold. eexists; split; reflexivity.
  - unfold ret at 1.
    unfold EnvironmentManager.setup_environment; cbv zeta.
    unfold bind at 1; rewrite Hlog; unfold bind at 1; rewrite Ecp.
    rewrite Hk, Hdocker. unfold bind at 1. unfold ret at 1.
    rewrite andb_true_r.
    destruct installed; io_unfold; eexists; split; reflexivity.
Qed.

(** C7.  [setup_environment] checks the prerequisites, takes the install
    step when asked to install and the managed CLI is missing, and takes
    the registry step when the container engine is available, each from
    the world the previous one left.  When it returns, its verdict is the
    conjunction of the outcomes of the two steps, so it is [False]
    exactly when the install was attempted and failed or the registry
    start was attempted and failed; the availability of the other tools
    does not enter the verdict.  (It raises only when the registry start
    raises.) *)
Theorem setup_environment_verdict self install_missing st :
  exists prerequisites installed,
    result_from (EnvironmentManager.check_prerequisites host self) (world st)
    = Ok prerequisites
    /\ let w1 :=
         world_from (EnvironmentManager.check_prerequisites host self)
                    (world st) in
       let install := install_step self install_missing prerequisites in
       let start := registry_step self prerequisites in
       result_from install w1 = Ok installed
       /\ match result_from start (world_from install w1) with
          | Ok started =>
              fst (EnvironmentManager.setup_environment
                     host self install_missing st)
              = Ok (installed && started)
              /\ (installed && started = false
                  <-> (install_attempted install_missing prerequisites = true
                       /\ installed = false)
                      \/ (registry_attempted prerequisites = true
                          /\ started = false))
          | Raise e =>
              fst (EnvironmentManager.setup_environment
                     host self install_missing st)
              = Raise e
          end.
Proof.
  destruct (setup_environment_steps self install_missing st)
    as (p & s1 & installed & s2 & s3 & Ecp & Einst & Hw3 & Hreg).
  exists p, installed.
  pose proof (uniform_result
                (snd (log_info host "Setting up OCM Demo environment..." st))
                (uniform_check_prerequisites self)) as Hcp_r.
  pose proof (uniform_world
                (snd (log_info host "Setting up OCM Demo environment..." st))
                (uniform_check_prerequisites self)) as Hcp_w.
  rewrite Ecp in Hcp_r, Hcp_w. cbn [fst snd log_info emit world] in Hcp_r, Hcp_w.
  split; [symmetry; exact Hcp_r |]. cbv zeta. rewrite <- Hcp_w.
  pose proof (uniform_result s1
                (uniform_install_step self install_missing p)) as Hi_r.
  pose proof (uniform_world s1
                (uniform_install_step self install_missing p)) as Hi_w.
  rewrite Einst in Hi_r, Hi_w. cbn [fst snd] in Hi_r, Hi_w.
  split; [symmetry; exact Hi_r |]. rewrite <- Hi_w, <- Hw3.
  pose proof (uniform_result s3 (uniform_registry_step self p)) as Hr_r.
  rewrite <- Hr_r.
  assert (Hinst : install_attempted install_missing p = false ->
                  installed = true).
  { intros Hno. unfold install_step in Einst. rewrite Hno in Einst.
    inversion Einst. reflexivity. }
  destruct (registry_step self p s3) as [[started | e] s4] eqn:Estart;
    cbn [fst].
  - destruct Hreg as (s5 & Hsetup & _). rewrite Hsetup. cbn [fst].
    split; [reflexivity |].
    assert (Hstart : registry_attempted p = false -> started = true).
    { intros Hno. unfold registry_step in Estart. rewrite Hno in Estart.
      inversion Estart. reflexivity. }
    rewrite andb_false_iff. split.
    + intros [Hi | Hs].
      * left. split; [| exact Hi].
        destruct (install_attempted install_missing p); [reflexivity |].
        rewrite Hinst in Hi by reflexivity. discriminate.
      * right. split; [| exact Hs].
        destruct (registry_attempted p); [reflexivity |].
        rewrite Hstart in Hs by reflexivity. discriminate.
    + intros [(_ & Hi) | (_ & Hs)]; auto.
  - rewrite Hreg. reflexivity.
Qed.

(** When neither step is attempted the verdict is [True], whichever
    other tools are missing. *)
Lemma setup_environment_nothing_attempted self install_missing st
      prerequisites :
  result_from (EnvironmentManager.check_prerequisites host self) (world st)
  = Ok prerequisites ->
  install_attempted install_missing prerequisites = false ->
  registry_attempted prerequisites = false ->
  fst (EnvironmentManager.setup_environment host self install_missing st)
  = Ok true.
Proof.
  intros Hcp Hno_install Hno_registry.
  destruct (setup_environment_steps self install_missing st)
    as (p & s1 & installed & s2 & s3 & Ecp & Einst & Hw3 & Hreg).
  pose proof (uniform_result
                (snd (log_info host "Setting up OCM Demo environment..." st))
                (uniform_check_prerequisites self)) as Hcp_r.
  rewrite Ecp in Hcp_r. cbn [fst snd log_info emit world] in Hcp_r.
  rewrite Hcp in Hcp_r. inversion Hcp_r. subst p.
  unfold install_step in Einst. rewrite Hno_install in Einst.
  inversion Einst. subst installed s2.
  unfold registry_step in Hreg. rewrite Hno_registry in Hreg.
  cbv beta iota delta [ret] in Hreg.
  destruct Hreg as (s5 & Hsetup & _). rewrite Hsetup. reflexivity.
Qed.

(** *** Listing the examples *)

Lemma collect_examples_spec dir (is_dir : string -> bool) :
  (forall w name,
      fst (sys host (path_is_dir (os_path_join host dir [name])) w)
      = is_dir name) ->
  forall items examples st,
  exists st',
    DemoRunner.collect_examples host dir items examples st
    = (Ok (examples ++ filter (listed is_dir) items)%list, st').
Proof.
  intros Hdir. induction items as [| name rest IH]; intros examples st;
    cbn [DemoRunner.collect_examples filter].
  - exists st. rewrite app_nil_r. reflexivity.
  - unfold bind at 1, perform at 1.
    pose proof (Hdir (world st) name) as Hname.
    destruct (sys host (path_is_dir (os_path_join host dir [name]))
                  (world st)) as [d w1].
    cbn [fst] in Hname. subst d. unfold listed at 1.
    destruct (is_dir name && negb (Py.startswith name ".")).
    + match goal with
      | |- context [DemoRunner.collect_examples host dir rest ?acc ?s] =>
          destruct (IH acc s) as (st' & E)
      end.
      exists st'. rewrite E, <- app_assoc. reflexivity.
    + match goal with
      | |- context [DemoRunner.collect_examples host dir rest ?acc ?s] =>
          destruct (IH acc s) as (st' & E)
      end.
      exists st'. exact E.
Qed.

(** C8.  When the examples root exists, lists as [items], and the host
    answers [is_dir] for its entries, [list_available_examples] returns
    the entries that are directories and whose names do not begin with a
    dot, each as often as it is listed, in ascending order. *)
Theorem list_available_examples_sorted_visible_directories
        self st (is_dir : string -> bool) items w1 w2 :
  sys host (path_exists (DemoRunner.examples_dir self)) (world st)
  = (true, w1) ->
  sys host (path_iterdir (DemoRunner.examples_dir self)) w1
  = (Ok items, w2) ->
  (forall w name,
      fst (sys host (path_is_dir
                       (os_path_join host (DemoRunner.examples_dir self)
                                     [name])) w)
      = is_dir name) ->
  exists examples st',
    DemoRunner.list_available_examples host self st = (Ok examples, st')
    /\ examples = Py.sorted (filter (listed is_dir) items)
    /\ Sorted (fun a b => String.leb a b = true) examples
    /\ Permutation examples (filter (listed is_dir) items)
    /\ (forall name,
           In name examples
           <-> In name items /\ is_dir name = true
               /\ Py.startswith name "." = false).
Proof.
  intros Hexists Hiter Hdir.
  unfold DemoRunner.list_available_examples.
  cbv zeta. unfold bind at 1, perform at 1. rewrite Hexists.
  unfold bind at 1. unfold bind at 1.
  unfold perform_or_raise at 1, bind at 1, perform at 1.
  cbn [world trace]. rewrite Hiter. unfold ret at 1.
  match goal with
  | |- context [DemoRunner.collect_examples host ?d items [] ?s] =>
      destruct (collect_examples_spec d is_dir Hdir items [] s) as (st' & E)
  end.
  rewrite E. cbn [app]. unfold ret.
  exists (Py.sorted (filter (listed is_dir) items)), st'.
  split; [reflexivity | split; [reflexivity |]].
  assert (Hperm : Permutation (Py.sorted (filter (listed is_dir) items))
                              (filter (listed is_dir) items)).
  { apply Permutation_sym. apply Py.StrSort.Permuted_sort. }
  split; [apply Py.StrSort.Sorted_sort | split; [exact Hperm |]].
  intros name. split.
  - intros Hin. apply (Permutation_in _ Hperm) in Hin.
    apply filter_In in Hin. destruct Hin as (Hin & Hl).
    unfold listed in Hl. apply andb_true_iff in Hl.
    destruct Hl as (Hd & Hs). apply negb_true_iff in Hs. auto.
  - intros (Hin & Hd & Hs).
    apply (Permutation_in _ (Permutation_sym Hperm)).
    apply filter_In. split; [exact Hin |].
    unfold listed. rewrite Hd, Hs. reflexivity.
Qed.

(** Without an examples root the list is empty. *)
Lemma list_available_examples_absent self st w1 :
  sys host (path_exists (DemoRunner.examples_dir self)) (world st)
  = (false, w1) ->
  fst (DemoRunner.list_available_examples host self st) = Ok [].
Proof.
  intros Hexists. unfold DemoRunner.list_available_examples.
  cbv zeta. unfold bind at 1, perform at 1. rewrite Hexists.
  reflexivity.
Qed.

(** *** More on the process runner *)

(** [run] in one statement: its result, the world it leaves and the one
    request it may send. *)
Lemma run_outcome self command cwd env capture_output check shell st :
  let request :=
    subprocess_spawn command cwd env (CommandRunner.shell_flag shell command) in
  exists st',
    CommandRunner.run host self command cwd env capture_output check shell st
    = ((if CommandRunner.dry_run self then Ok (dry_result command)
        else completed command capture_output check
                       (fst (sys host request (world st)))),
       st')
    /\ world st' = (if CommandRunner.dry_run self then world st
                    else snd (sys host request (world st)))
    /\ interactions (trace st')
       = (interactions (trace st)
          ++ (if CommandRunner.dry_run self then [] else [EvCall request]))%list.
Proof.
  intros request.
  destruct (CommandRunner.dry_run self) eqn:Hdry.
  - rewrite run_dry by exact Hdry. eexists. split; [reflexivity |].
    cbn [world trace]. split; [reflexivity |]. trace_simpl. reflexivity.
  - destruct (run_executes self command cwd env capture_output check shell st
                Hdry) as (Hr & Hw & Ht).
    destruct (CommandRunner.run host self command cwd env capture_output
                                check shell st) as [r st'].
    cbn [fst snd] in *. exists st'. rewrite Hr. auto.
Qed.

(** X1.  Without [check], a process that exits is returned whatever its
    exit code; with [check], a non-zero exit is raised with that code. *)
Lemma run_exit_code_policy self command cwd env capture_output shell st
      code out err w :
  CommandRunner.dry_run self = false ->
  sys host (subprocess_spawn command cwd env
                             (CommandRunner.shell_flag shell command))
      (world st) = (Exited code out err, w) ->
  (exists result,
      fst (CommandRunner.run host self command cwd env capture_output
                             false shell st) = Ok result
      /\ returncode result = code)
  /\ (code <> 0 ->
      exists o e,
        fst (CommandRunner.run host self command cwd env capture_output
                               true shell st)
        = Raise (CalledProcessError code command o e)).
Proof.
  intros Hdry Hsys. split.
  - destruct (run_outcome self command cwd env capture_output false shell st)
      as (st' & E & _). rewrite E, Hdry, Hsys. cbn. eexists. split; reflexivity.
  - intros Hcode.
    destruct (run_outcome self command cwd env capture_output true shell st)
      as (st' & E & _). rewrite E, Hdry, Hsys. cbn.
    apply Z.eqb_neq in Hcode. rewrite Hcode. cbn. eexists _, _. reflexivity.
Qed.

(** *** Tool availability *)

(** X2.  [check_docker_available] never raises.  Without [docker] on the
    search path it returns [False] after the one probe, creating no
    process; with it, it returns whether [docker info] exits with code 0
    ([True] in dry-run, where nothing is run). *)
Theorem check_docker_available_verdict self st :
  let found := fst (sys host (shutil_which "docker") (world st)) in
  let w1 := snd (sys host (shutil_which "docker") (world st)) in
  let check := DockerManager.check_docker_available host self st in
  match found with
  | None =>
      fst check = Ok false
      /\ interactions (trace (snd check))
         = (interactions (trace st) ++ [EvCall (shutil_which "docker")])%list
  | Some _ =>
      fst check
      = Ok (CommandRunner.dry_run (DockerManager.runner self)
            || exited_ok (fst (sys host (spawn_argv ["docker"; "info"]) w1)))
  end.
Proof.
  cbv zeta. unfold DockerManager.check_docker_available. io_unfold.
  destruct (sys host (shutil_which "docker") (world st)) as [found w1].
  cbn [fst snd world trace]. destruct found as [path |]; cbn [negb].
  - match goal with
    | |- context [CommandRunner.run host ?r ?c ?d ?e ?o ?k ?s ?s0] =>
        destruct (run_outcome r c d e o k s s0) as (st' & E & _); rewrite E
    end.
    cbn [world]. unfold spawn_argv.
    destruct (CommandRunner.dry_run (DockerManager.runner self));
      cbn [orb]; [reflexivity |].
    cbn [CommandRunner.shell_flag].
    destruct (fst (sys host _ w1)) as [code out err | msg | msg];
      cbn [completed andb exited_ok]; [| reflexivity | reflexivity].
    cbn [returncode]. destruct (code =? 0); reflexivity.
  - cbn [Py.truthy fst snd world trace].
    split; [reflexivity |]. trace_simpl. reflexivity.
Qed.

(** X3.  [check_ocm_available] never raises; it returns [False] without
    creating a process when [ocm] is not on the search path, and
    otherwise whether [ocm version] exits with code 0. *)
Theorem check_ocm_available_verdict self st :
  let found := fst (sys host (shutil_which "ocm") (world st)) in
  let w1 := snd (sys host (shutil_which "ocm") (world st)) in
  let check := OCMClient.check_ocm_available host self st in
  match found with
  | None =>
      fst check = Ok false
      /\ interactions (trace (snd check))
         = (interactions (trace st) ++ [EvCall (shutil_which "ocm")])%list
  | Some _ =>
      fst check
      = Ok (CommandRunner.dry_run (OCMClient.runner self)
            || exited_ok (fst (sys host (spawn_argv ["ocm"; "version"]) w1)))
  end.
Proof.
  cbv zeta. unfold OCMClient.check_ocm_available. io_unfold.
  destruct (sys host (shutil_which "ocm") (world st)) as [found w1].
  cbn [fst snd world trace]. destruct found as [path |]; cbn [negb].
  - match goal with
    | |- context [CommandRunner.run host ?r ?c ?d ?e ?o ?k ?s ?s0] =>
        destruct (run_outcome r c d e o k s s0) as (st' & E & _); rewrite E
    end.
    cbn [world]. unfold spawn_argv.
    destruct (CommandRunner.dry_run (OCMClient.runner self));
      cbn [orb]; [reflexivity |].
    cbn [CommandRunner.shell_flag].
    destruct (fst (sys host _ w1)) as [code out err | msg | msg];
      cbn [completed andb exited_ok]; [| reflexivity | reflexivity].
    destruct (code =? 0); reflexivity.
  - cbn [Py.truthy fst snd world trace].
    split; [reflexivity |]. trace_simpl. reflexivity.
Qed.

(** X4.  [get_version] never raises: it returns the output of
    [ocm version] without the white space around it when the process
    exits with code 0, [None] when it exits with another code or cannot
    be started, and the empty string in dry-run. *)
Theorem get_version_outcome self st :
  fst (OCMClient.get_version host self st)
  = Ok (if CommandRunner.dry_run (OCMClient.runner self) then Some ""
        else match fst (sys host (spawn_argv ["ocm"; "version"]) (world st))
             with
             | Exited code out _ =>
                 if code =? 0 then Some (Py.strip out) else None
             | _ => None
             end).
Proof.
  unfold OCMClient.get_version. io_unfold.
  match goal with
  | |- context [CommandRunner.run host ?r ?c ?d ?e ?o ?k ?s ?s0] =>
      destruct (run_outcome r c d e o k s s0) as (st' & E & _); rewrite E
  end.
  unfold spawn_argv.
  destruct (CommandRunner.dry_run (OCMClient.runner self)); [reflexivity |].
  cbn [CommandRunner.shell_flag].
  destruct (fst (sys host _ (world st))) as [code out err | msg | msg];
    cbn [completed andb]; [| reflexivity | reflexivity].
  destruct (code =? 0); reflexivity.
Qed.

(** *** More on the registry controller *)

(** The result of [is_registry_running] in terms of the host's answer. *)
Lemma is_registry_running_result self name st :
  let name' := Py.or_str name (registry_name (DockerManager.config self)) in
  fst (DockerManager.is_registry_running host self name st)
  = Ok (if CommandRunner.dry_run (DockerManager.runner self)
        then Py.mem name' [""]
        else match fst (sys host list_running (world st)) with
             | Exited code out _ =>
                 (code =? 0)
                 && Py.mem name' (Py.split Py.newline (Py.strip out))
             | _ => false
             end).
Proof.
  cbv zeta. unfold DockerManager.is_registry_running. io_unfold.
  match goal with
  | |- context [CommandRunner.run host ?r ?c ?d ?e ?o ?k ?s ?s0] =>
      destruct (run_outcome r c d e o k s s0) as (st' & E & _); rewrite E
  end.
  unfold list_running.
  destruct (CommandRunner.dry_run (DockerManager.runner self));
    [reflexivity |].
  cbn [CommandRunner.shell_flag].
  destruct (fst (sys host _ (world st))) as [code out err | msg | msg];
    cbn [completed andb negb]; [| reflexivity | reflexivity].
  cbn [returncode stdout]. destruct (code =? 0); reflexivity.
Qed.


(** X5.  [is_registry_running] never raises.  When the runner executes it
    returns [True] exactly when the listing exits with code 0 and the
    name is one of the lines of its output (white space around the
    output dropped); a listing that fails or cannot be started gives
    [False].  In dry-run the output is empty, so only the empty name is
    "running". *)
Theorem is_registry_running_verdict self name st :
  let name' := Py.or_str name (registry_name (DockerManager.config self)) in
  fst (DockerManager.is_registry_running host self name st)
  = Ok (if CommandRunner.dry_run (DockerManager.runner self)
        then Py.mem name' [""]
        else match fst (sys host list_running (world st)) with
             | Exited code out _ =>
                 (code =? 0)
                 && Py.mem name' (Py.split Py.newline (Py.strip out))
             | _ => false
             end).
Proof. apply is_registry_running_result. Qed.

(** [stop_registry] in terms of the answers of the host. *)
Lemma stop_registry_outcome self name st :
  let name' := Py.or_str name (registry_name (DockerManager.config self)) in
  let stop := sys host (spawn_argv ["docker"; "stop"; name']) (world st) in
  let remove := sys host (spawn_argv ["docker"; "rm"; name']) (snd stop) in
  let dry := CommandRunner.dry_run (DockerManager.runner self) in
  fst (DockerManager.stop_registry host self name st)
  = Ok (dry || (is_exited (fst stop) && is_exited (fst remove)))
  /\ interactions (trace (snd (DockerManager.stop_registry host self name st)))
     = (interactions (trace st)
        ++ (if dry then []
            else EvCall (spawn_argv ["docker"; "stop"; name'])
                 :: (if is_exited (fst stop)
                     then [EvCall (spawn_argv ["docker"; "rm"; name'])]
                     else [])))%list.
Proof.
  cbv zeta. unfold DockerManager.stop_registry. io_unfold.
  match goal with
  | |- context [CommandRunner.run host ?r ?c ?d ?e ?o ?k ?s ?s0] =>
      destruct (run_outcome r c d e o k s s0) as (s1 & E1 & Hw1 & Ht1);
      rewrite E1
  end.
  unfold spawn_argv. cbn [world trace] in Hw1, Ht1.
  destruct (CommandRunner.dry_run (DockerManager.runner self)) eqn:Hdry.
  - match goal with
    | |- context [CommandRunner.run host ?r ?c ?d ?e ?o ?k ?s ?s0] =>
        destruct (run_outcome r c d e o k s s0) as (s2 & E2 & Hw2 & Ht2);
        rewrite E2
    end.
    rewrite Hdry in *. cbn [fst snd world trace orb].
    split; [reflexivity |]. trace_simpl. rewrite Ht2, Ht1. trace_simpl.
    reflexivity.
  - cbn [CommandRunner.shell_flag world trace] in *. cbn [orb].
    destruct (sys host (subprocess_spawn
                          (CmdList ["docker"; "stop";
                                    Py.or_str name
                                      (registry_name
                                         (DockerManager.config self))])
                          None None false) (world st)) as [a1 w1].
    cbn [fst snd] in *.
    destruct a1 as [code out err | msg | msg];
      cbn [completed andb is_exited fst snd world trace].
    + match goal with
      | |- context [CommandRunner.run host ?r ?c ?d ?e ?o ?k ?s ?s0] =>
          destruct (run_outcome r c d e o k s s0) as (s2 & E2 & Hw2 & Ht2);
          rewrite E2
      end.
      rewrite Hdry in *. cbn [CommandRunner.shell_flag] in *.
      rewrite Hw1.
      destruct (fst (sys host _ w1)) as [code2 out2 err2 | msg | msg];
        cbn [completed andb is_exited fst snd world trace];
        (split; [reflexivity |]); trace_simpl; rewrite Ht2, Ht1;
        trace_simpl; rewrite <- ?app_assoc; reflexivity.
    + split; [reflexivity |]. trace_simpl. rewrite Ht1. trace_simpl.
      reflexivity.
    + split; [reflexivity |]. trace_simpl. rewrite Ht1. trace_simpl.
      reflexivity.
Qed.

(** X6.  [stop_registry] is a best-effort teardown.  It never raises; the
    exit codes of [docker stop] and [docker rm] are ignored, so it
    returns [True] whenever both processes could be started; when
    [docker stop] cannot be started it returns [False] and [docker rm] is
    not attempted. *)
Theorem stop_registry_best_effort self name st :
  let name' := Py.or_str name (registry_name (DockerManager.config self)) in
  let stop := sys host (spawn_argv ["docker"; "stop"; name']) (world st) in
  let remove := sys host (spawn_argv ["docker"; "rm"; name']) (snd stop) in
  let dry := CommandRunner.dry_run (DockerManager.runner self) in
  fst (DockerManager.stop_registry host self name st)
  = Ok (dry || (is_exited (fst stop) && is_exited (fst remove)))
  /\ interactions (trace (snd (DockerManager.stop_registry host self name st)))
     = (interactions (trace st)
        ++ (if dry then []
            else EvCall (spawn_argv ["docker"; "stop"; name'])
                 :: (if is_exited (fst stop)
                     then [EvCall (spawn_argv ["docker"; "rm"; name'])]
                     else [])))%list.
Proof. apply stop_registry_outcome. Qed.

(** The removal loop of [cleanup_registry_port], when every removal can
    be started. *)
Lemma removal_loop self port ids :
  CommandRunner.dry_run (DockerManager.runner self) = false ->
  (forall id w, In id ids -> Py.truthy id = true ->
                is_exited (fst (sys host (remove_by_id id) w)) = true) ->
  forall st,
  exists st',
    for_each ids
      (fun container_id =>
         when (Py.truthy container_id)
           (log_info host ("Removing container " ++ container_id
                           ++ " using port " ++ Py.str_int port) ;;
            CommandRunner.run host (DockerManager.runner self)
              (CmdList ["docker"; "rm"; "-f"; container_id])
              None None true false None ;;
            ret tt)) st
    = (Ok tt, st')
    /\ interactions (trace st')
       = (interactions (trace st)
          ++ map (fun id => EvCall (remove_by_id id))
                 (filter Py.truthy ids))%list.
Proof.
  intros Hdry. induction ids as [| id rest IH]; intros Hrm st;
    cbn [for_each filter map].
  - exists st. rewrite app_nil_r. split; reflexivity.
  - assert (Hrest : forall id' w, In id' rest -> Py.truthy id' = true ->
                      is_exited (fst (sys host (remove_by_id id') w)) = true).
    { intros id' w Hin. apply Hrm. right. exact Hin. }
    destruct (Py.truthy id) eqn:Hid; cbn [when].
    + unfold bind at 1.
      match goal with
      | |- context [let (_, _) := ?body st in _] =>
          assert (Hbody : exists s1,
                     body st = (Ok tt, s1)
                     /\ interactions (trace s1)
                        = (interactions (trace st)
                           ++ [EvCall (remove_by_id id)])%list)
      end.
      { io_unfold.
        match goal with
        | |- context [CommandRunner.run host ?r ?c ?d ?e ?o ?k ?s ?s0] =>
            destruct (run_outcome r c d e o k s s0) as (s1 & E1 & _ & Ht1);
            rewrite E1
        end.
        rewrite Hdry in *. cbn [CommandRunner.shell_flag world trace] in *.
        pose proof (Hrm id (world st) (or_introl eq_refl) Hid) as Hex.
        unfold remove_by_id, spawn_argv in Hex |- *.
        destruct (fst (sys host _ (world st))) as [code out err | msg | msg];
          try discriminate Hex.
        cbn [completed andb]. exists s1. split; [reflexivity |].
        rewrite Ht1. trace_simpl. reflexivity. }
      destruct Hbody as (s1 & Ebody & Ht1). rewrite Ebody.
      destruct (IH Hrest s1) as (st' & E & Ht). rewrite E.
      exists st'. split; [reflexivity |].
      rewrite Ht, Ht1. cbn [map]. rewrite <- app_assoc. reflexivity.
    + unfold bind at 1. unfold ret at 1.
      destruct (IH Hrest st) as (st' & E & Ht).
      rewrite E. exists st'. auto.
Qed.

(** X7.  [cleanup_registry_port] never raises.  It lists the containers
    that publish the port and asks for the forced removal of each listed
    id, in order; a listing that fails or is blank leads to no removal,
    and in dry-run nothing is requested. *)
Theorem cleanup_registry_port_removals self port st :
  let dry := CommandRunner.dry_run (DockerManager.runner self) in
  let ids :=
    if dry then []
    else listed_ids (fst (sys host (list_on_port port) (world st))) in
  (forall id w, In id ids ->
                is_exited (fst (sys host (remove_by_id id) w)) = true) ->
  exists st',
    DockerManager.cleanup_registry_port host self port st = (Ok tt, st')
    /\ interactions (trace st')
       = (interactions (trace st)
          ++ (if dry then []
              else EvCall (list_on_port port)
                   :: map (fun id => EvCall (remove_by_id id)) ids))%list.
Proof.
  cbv zeta. intros Hrm.
  unfold DockerManager.cleanup_registry_port.
  unfold try_except, bind at 1.
  match goal with
  | |- context [CommandRunner.run host ?r ?c ?d ?e ?o ?k ?s ?s0] =>
      destruct (run_outcome r c d e o k s s0) as (s1 & E1 & Hw1 & Ht1);
      rewrite E1
  end.
  unfold list_on_port, spawn_argv in *.
  destruct (CommandRunner.dry_run (DockerManager.runner self)) eqn:Hdry.
  - cbn. eexists. split; [reflexivity |]. cbn [trace]. rewrite Ht1. reflexivity.
  - cbn [CommandRunner.shell_flag] in *.
    destruct (fst (sys host _ (world st))) as [code out err | msg | msg];
      cbn [completed andb negb listed_ids] in *.
    + cbn [returncode stdout]. destruct (code =? 0).
      * unfold strip_of, bind at 1, ret at 1.
        destruct (Py.truthy (Py.strip out)) eqn:Hout.
        -- destruct (removal_loop self port
                       (Py.split Py.newline (Py.strip out)) Hdry) with (st := s1)
             as (st' & E & Ht).
           { intros id w Hin Hid. apply Hrm. apply filter_In. auto. }
           rewrite E. exists st'. split; [reflexivity |].
           rewrite Ht, Ht1, <- app_assoc. reflexivity.
        -- unfold ret. exists s1. split; [reflexivity |].
           destruct (Py.strip out); [| discriminate Hout].
           rewrite Ht1. reflexivity.
      * unfold ret. exists s1. split; [reflexivity |]. rewrite Ht1. reflexivity.
    + io_unfold. eexists. split; [reflexivity |]. trace_simpl. rewrite Ht1.
      reflexivity.
    + io_unfold. eexists. split; [reflexivity |]. trace_simpl. rewrite Ht1.
      reflexivity.
Qed.

Lemma result_from_cleanup_registry_port self port w :
  result_from (DockerManager.cleanup_registry_port host self port) w = Ok tt.
Proof.
  unfold result_from.
  destruct (returns_cleanup_registry_port self port (from w)) as ([] & st' & E).
  rewrite E. reflexivity.
Qed.

(** X8.  The forced removal of the old container is outside the [try] of
    [start_registry]: when the container is not reported running and
    [docker rm -f] cannot be started, [start_registry] raises
    [CalledProcessError] with return code 127 instead of returning
    [False]. *)
Theorem start_registry_raises_when_removal_not_found
        self port name st msg :
  let port' := Py.or_int port (registry_port (DockerManager.config self)) in
  let name' := Py.or_str name (registry_name (DockerManager.config self)) in
  let w1 :=
    world_from (DockerManager.is_registry_running host self (Some name'))
               (world st) in
  let w2 :=
    world_from (DockerManager.cleanup_registry_port host self port') w1 in
  CommandRunner.dry_run (DockerManager.runner self) = false ->
  result_from (DockerManager.is_registry_running host self (Some name'))
              (world st) = Ok false ->
  fst (sys host (spawn_argv ["docker"; "rm"; "-f"; name']) w2)
  = NotFound msg ->
  fst (DockerManager.start_registry host self port name st)
  = Raise (CalledProcessError 127 (CmdList ["docker"; "rm"; "-f"; name'])
                              None (Some msg)).
Proof.
  intros port' name' w1 w2 Hdry Hrunning Hrm.
  unfold DockerManager.start_registry. fold port' name'.
  unfold bind at 1, log_info at 1, emit at 1. unfold bind at 1.
  rewrite (uniform_is_registry_running self (Some name')). cbn [world trace].
  rewrite Hrunning. fold w1. unfold bind at 1.
  rewrite (uniform_cleanup_registry_port self port'). cbn [world trace].
  rewrite result_from_cleanup_registry_port. fold w2. unfold bind at 1.
  match goal with
  | |- context [CommandRunner.run host ?r ?c ?d ?e ?o ?k ?s ?s0] =>
      destruct (run_outcome r c d e o k s s0) as (s1 & E1 & _); rewrite E1
  end.
  rewrite Hdry. cbn [world CommandRunner.shell_flag].
  unfold spawn_argv in Hrm. rewrite Hrm. reflexivity.
Qed.

(** X9.  When the launch of the container fails ([docker run] exits with a
    code other than 0 or cannot be started), [start_registry] returns
    [False] without a single health probe. *)
Theorem start_registry_launch_failure self port name st :
  let port' := Py.or_int port (registry_port (DockerManager.config self)) in
  let name' := Py.or_str name (registry_name (DockerManager.config self)) in
  let w1 :=
    world_from (DockerManager.is_registry_running host self (Some name'))
               (world st) in
  let w2 :=
    world_from (DockerManager.cleanup_registry_port host self port') w1 in
  let remove := sys host (spawn_argv ["docker"; "rm"; "-f"; name']) w2 in
  let launch :=
    sys host (subprocess_spawn (DockerManager.launch_command port' name')
                               None None false) (snd remove) in
  CommandRunner.dry_run (DockerManager.runner self) = false ->
  result_from (DockerManager.is_registry_running host self (Some name'))
              (world st) = Ok false ->
  is_exited (fst remove) = true ->
  exited_ok (fst launch) = false ->
  fst (DockerManager.start_registry host self port name st) = Ok false
  /\ filter is_health_probe
            (trace (snd (DockerManager.start_registry host self port name st)))
     = filter is_health_probe (trace st).
Proof.
  intros port' name' w1 w2 remove launch Hdry Hrunning Hremove Hlaunch.
  assert (Hfilter : forall evs,
             forallb not_probe evs = true -> filter is_health_probe evs = []).
  { induction evs as [| e evs IH]; [reflexivity |].
    cbn. intros H. apply andb_true_iff in H. destruct H as (He & Hevs).
    apply negb_true_iff in He. rewrite He. auto. }
  cut (exists st',
          DockerManager.start_registry host self port name st = (Ok false, st')
          /\ filter is_health_probe (trace st')
             = filter is_health_probe (trace st)).
  { intros (st' & E & Ht). rewrite E. split; [reflexivity | exact Ht]. }
  unfold launch in Hlaunch. clear launch.
  unfold DockerManager.start_registry. fold port' name'.
  unfold bind at 1, log_info at 1, emit at 1. unfold bind at 1.
  match goal with
  | |- context [DockerManager.is_registry_running host self (Some name') ?s] =>
      destruct (is_registry_running_not_probe self (Some name') s)
        as (evs1 & T1 & P1);
      pose proof (uniform_result s (uniform_is_registry_running
                                      self (Some name'))) as R1;
      pose proof (uniform_world s (uniform_is_registry_running
                                     self (Some name'))) as W1;
      destruct (DockerManager.is_registry_running host self (Some name') s)
        as [r1 s1]
  end.
  cbn [fst snd world trace] in T1, R1, W1. rewrite Hrunning in R1. subst r1.
  fold w1 in W1. unfold bind at 1.
  destruct (cleanup_registry_port_not_probe self port' s1) as (evs2 & T2 & P2).
  pose proof (uniform_world s1 (uniform_cleanup_registry_port self port'))
    as W2.
  destruct (returns_cleanup_registry_port self port' s1) as ([] & s2 & E2).
  rewrite E2 in T2, W2 |- *. cbn [snd] in T2, W2. rewrite W1 in W2.
  fold w2 in W2. unfold bind at 1.
  destruct (emits_only_run_docker (DockerManager.runner self)
              ["rm"; "-f"; name'] true false s2) as (evs3 & T3 & P3).
  destruct (run_outcome (DockerManager.runner self)
              (CmdList ["docker"; "rm"; "-f"; name']) None None true false None
              s2) as (s3 & E3 & W3 & _).
  rewrite E3 in T3 |- *. cbn [snd] in T3. rewrite Hdry in *.
  cbn [CommandRunner.shell_flag] in *. rewrite W2 in *.
  change (sys host (subprocess_spawn (CmdList ["docker"; "rm"; "-f"; name'])
                                     None None false) w2) with remove in *.
  destruct (fst remove) as [code out err | m | m] eqn:Hrem;
    try discriminate Hremove.
  cbn [completed andb]. unfold try_except, bind at 1.
  destruct (emits_only_run_docker (DockerManager.runner self)
              ["run"; "-d"; "-p"; (Py.str_int port' ++ ":5000")%string;
               "--name"; name'; "registry:2"] true true s3)
    as (evs4 & T4 & P4).
  change (CmdList ("docker" :: _))
    with (DockerManager.launch_command port' name') in T4.
  destruct (run_outcome (DockerManager.runner self)
              (DockerManager.launch_command port' name')
              None None true true None s3) as (s4 & E4 & _ & _).
  rewrite E4 in T4 |- *. cbn [snd] in T4. rewrite Hdry.
  cbn [CommandRunner.shell_flag DockerManager.launch_command]. rewrite W3.
  assert (Htrace : filter is_health_probe (trace s4)
                   = filter is_health_probe (trace st)).
  { rewrite T4, T3, T2, T1. rewrite !filter_app.
    rewrite (Hfilter _ P1), (Hfilter _ P2), (Hfilter _ P3), (Hfilter _ P4).
    cbn. rewrite !app_nil_r. reflexivity. }
  cbn [DockerManager.launch_command] in Hlaunch.
  destruct (fst (sys host _ (snd remove))) as [code4 out4 err4 | m | m];
    cbn [completed andb exited_ok] in *.
  - rewrite Hlaunch. cbn [negb]. io_unfold.
    eexists. split; [reflexivity |]. cbn [trace].
    rewrite filter_app, Htrace. cbn. apply app_nil_r.
  - io_unfold. eexists. split; [reflexivity |]. cbn [trace].
    rewrite filter_app, Htrace. cbn. apply app_nil_r.
  - io_unfold. eexists. split; [reflexivity |]. cbn [trace].
    rewrite filter_app, Htrace. cbn. apply app_nil_r.
Qed.

(** *** More on the installer *)

Ltac io_reduce := cbv beta iota zeta; cbn [fst snd world trace].

(** X10.  [install_ocm_cli] is idempotent: with [ocm] on the search path it
    returns [True] after that one probe; it asks neither the platform
    nor the network and touches no file. *)
Theorem install_ocm_cli_already_installed self st path w :
  sys host (shutil_which "ocm") (world st) = (Some path, w) ->
  fst (EnvironmentManager.install_ocm_cli host self st) = Ok true
  /\ world (snd (EnvironmentManager.install_ocm_cli host self st)) = w
  /\ interactions (trace (snd (EnvironmentManager.install_ocm_cli host self st)))
     = (interactions (trace st) ++ [EvCall (shutil_which "ocm")])%list.
Proof.
  intros Hwhich. unfold EnvironmentManager.install_ocm_cli. io_unfold.
  rewrite Hwhich. cbn [fst snd world trace].
  repeat split. trace_simpl. reflexivity.
Qed.

(** X11.  On a platform outside the matrix (an architecture other than
    x86_64/amd64/arm64/aarch64, or a system other than Darwin, Linux or
    Windows, letter case aside) [install_ocm_cli] returns [False] after
    the three probes, without any request to the network and without
    touching a file. *)
Theorem install_ocm_cli_unsupported_platform self st :
  let which := sys host (shutil_which "ocm") (world st) in
  let system := sys host platform_system (snd which) in
  let machine := sys host platform_machine (snd system) in
  fst which = None ->
  canonical_arch (Py.lower (fst machine)) = None
  \/ supported_os (Py.lower (fst system)) = false ->
  fst (EnvironmentManager.install_ocm_cli host self st) = Ok false
  /\ interactions (trace (snd (EnvironmentManager.install_ocm_cli host self st)))
     = (interactions (trace st)
        ++ [EvCall (shutil_which "ocm"); EvCall platform_system;
            EvCall platform_machine])%list.
Proof.
  cbv zeta. unfold EnvironmentManager.install_ocm_cli. io_unfold.
  destruct (sys host (shutil_which "ocm") (world st)) as [found w1].
  cbv beta iota zeta. cbn [fst snd world trace]. intros ->.
  cbv beta iota zeta. cbn [fst snd world trace negb].
  destruct (sys host platform_system w1) as [system w2].
  cbv beta iota zeta. cbn [fst snd world trace].
  destruct (sys host platform_machine w2) as [machine w3].
  cbv beta iota zeta. cbn [fst snd world trace].
  unfold canonical_arch, supported_os.
  destruct (Py.mem (Py.lower machine) ["x86_64"; "amd64"]) eqn:H64.
  - intros [Harch | Hos]; [discriminate Harch |].
    cbn [Py.mem existsb] in Hos. rewrite !orb_false_r in Hos.
    apply orb_false_iff in Hos. destruct Hos as (Hd & Hos).
    apply orb_false_iff in Hos. destruct Hos as (Hl & Hw).
    io_reduce. rewrite Hd, Hl, Hw. io_reduce.
    split; [reflexivity |]. trace_simpl. rewrite <- !app_assoc. reflexivity.
  - destruct (Py.mem (Py.lower machine) ["arm64"; "aarch64"]) eqn:Harm.
    + intros [Harch | Hos]; [discriminate Harch |].
      cbn [Py.mem existsb] in Hos. rewrite !orb_false_r in Hos.
      apply orb_false_iff in Hos. destruct Hos as (Hd & Hos).
      apply orb_false_iff in Hos. destruct Hos as (Hl & Hw).
      io_reduce. rewrite Hd, Hl, Hw. io_reduce.
      split; [reflexivity |]. trace_simpl. rewrite <- !app_assoc. reflexivity.
    + intros _. io_reduce.
      split; [reflexivity |]. trace_simpl. rewrite <- !app_assoc. reflexivity.
Qed.

Lemma result_from_download_total self os_name arch st :
  exists installed st',
    EnvironmentManager._download_and_install_ocm host self os_name arch st
    = (Ok installed, st').
Proof. apply returns_download_and_install_ocm. Qed.

(** X12.  On a platform of the matrix, with [ocm] missing,
    [install_ocm_cli] does what the download step does for the
    lower-cased system name and the canonical architecture tag
    ([amd64] for x86_64 and amd64, [arm64] for arm64 and aarch64), from
    the world the three probes leave. *)
Theorem install_ocm_cli_delegates self st arch :
  let which := sys host (shutil_which "ocm") (world st) in
  let system := sys host platform_system (snd which) in
  let machine := sys host platform_machine (snd system) in
  let download :=
    EnvironmentManager._download_and_install_ocm
      host self (Py.lower (fst system)) arch in
  fst which = None ->
  canonical_arch (Py.lower (fst machine)) = Some arch ->
  supported_os (Py.lower (fst system)) = true ->
  fst (EnvironmentManager.install_ocm_cli host self st)
  = result_from download (snd machine)
  /\ world (snd (EnvironmentManager.install_ocm_cli host self st))
     = world_from download (snd machine).
Proof.
  cbv zeta. unfold EnvironmentManager.install_ocm_cli. io_unfold.
  destruct (sys host (shutil_which "ocm") (world st)) as [found w1].
  cbv beta iota zeta. cbn [fst snd world trace]. intros ->.
  cbv beta iota zeta. cbn [fst snd world trace negb].
  destruct (sys host platform_system w1) as [system w2].
  cbv beta iota zeta. cbn [fst snd world trace].
  destruct (sys host platform_machine w2) as [machine w3].
  cbv beta iota zeta. cbn [fst snd world trace].
  unfold canonical_arch, supported_os.
  intros Harch Hos.
  assert (Hcall : forall os_name a s,
             world s = w3 ->
             let r := EnvironmentManager._download_and_install_ocm
                        host self os_name a s in
             fst (let (r0, st') := r in
                  match r0 with
                  | Ok a0 => (Ok a0, st')
                  | Raise e =>
                      (Ok false,
                       {| world := world st';
                          trace := trace st'
                                   ++ [EvLog ERROR
                                         ("Failed to install OCM CLI: "
                                          ++ str_exn host e)] |})
                  end)
             = result_from
                 (EnvironmentManager._download_and_install_ocm
                    host self os_name a) w3
             /\ world (snd (let (r0, st') := r in
                           match r0 with
                           | Ok a0 => (Ok a0, st')
                           | Raise e =>
                               (Ok false,
                                {| world := world st';
                                   trace := trace st'
                                            ++ [EvLog ERROR
                                                  ("Failed to install OCM CLI: "
                                                   ++ str_exn host e)] |})
                           end))
                = world_from
                    (EnvironmentManager._download_and_install_ocm
                       host self os_name a) w3).
  { intros os_name a s Hw. cbv zeta.
    pose proof (uniform_result s
                  (uniform_download_and_install_ocm self os_name a)) as Hr.
    pose proof (uniform_world s
                  (uniform_download_and_install_ocm self os_name a)) as Hwd.
    rewrite Hw in Hr, Hwd.
    destruct (result_from_download_total self os_name a s)
      as (installed & st' & E).
    rewrite E in Hr, Hwd |- *. cbn [fst snd] in *. auto. }
  assert (Hos' : Py.lower system = "darwin" \/ Py.lower system = "linux"
                 \/ Py.lower system = "windows").
  { cbn [Py.mem existsb] in Hos. rewrite orb_false_r in Hos.
    apply orb_true_iff in Hos. destruct Hos as [Hos | Hos].
    - left. apply String.eqb_eq. exact Hos.
    - apply orb_true_iff in Hos. destruct Hos as [Hos | Hos].
      + right. left. apply String.eqb_eq. exact Hos.
      + right. right. apply String.eqb_eq. exact Hos. }
  destruct (Py.mem (Py.lower machine) ["x86_64"; "amd64"]).
  - inversion Harch. subst arch.
    io_reduce.
    destruct Hos' as [Hs | [Hs | Hs]]; rewrite Hs;
      cbn [String.eqb Ascii.eqb Bool.eqb]; io_reduce;
      apply Hcall; reflexivity.
  - destruct (Py.mem (Py.lower machine) ["arm64"; "aarch64"]);
      [| discriminate Harch].
    inversion Harch. subst arch.
    io_reduce.
    destruct Hos' as [Hs | [Hs | Hs]]; rewrite Hs;
      cbn [String.eqb Ascii.eqb Bool.eqb]; io_reduce;
      apply Hcall; reflexivity.
Qed.

(** The loop over the preferred directories returns one of them that is
    on the search path, or nothing. *)
Lemma first_preferred_spec path_dirs dirs :
  forall st,
  exists found st',
    EnvironmentManager.first_preferred host path_dirs dirs st
    = (Ok found, st')
    /\ match found with
       | Some d => In d dirs /\ Py.mem d path_dirs = true
       | None => True
       end.
Proof.
  induction dirs as [| d rest IH]; intros st;
    cbn [EnvironmentManager.first_preferred].
  - exists None, st. split; [reflexivity | exact I].
  - destruct (Py.mem d path_dirs) eqn:Hmem.
    + io_unfold.
      destruct (sys host (os_access_w (os_path_dirname host d)) (world st))
        as [writable w1].
      destruct writable.
      * eexists (Some d), _. split; [reflexivity |]. split; [left |]; auto.
      * match goal with
        | |- context [EnvironmentManager.first_preferred host _ rest ?s] =>
            destruct (IH s) as (found & st' & E & Hfound)
        end.
        exists found, st'. split; [exact E |].
        destruct found; [| exact I]. destruct Hfound. split; [right |]; auto.
    + destruct (IH st) as (found & st' & E & Hfound).
      exists found, st'. split; [exact E |].
      destruct found; [| exact I]. destruct Hfound. split; [right |]; auto.
Qed.

(** X13.  [_get_install_directory] never raises.  On Windows it is [bin]
    under the home directory.  Elsewhere it is one of the three
    preferred directories, and it is on the search path unless it is the
    fallback [~/.local/bin]. *)
Theorem get_install_directory_choice self st :
  let system := sys host platform_system (world st) in
  exists directory st',
    EnvironmentManager._get_install_directory host self st
    = (Ok directory, st')
    /\ if String.eqb (Py.lower (fst system)) "windows"
       then directory
            = os_path_join host
                (fst (sys host expanduser_home (snd system))) ["bin"]
       else
         let path := sys host (environ_get "PATH") (snd system) in
         let home := fst (sys host expanduser_home (snd path)) in
         let path_dirs :=
           Py.split (os_pathsep host)
                    (match fst path with Some p => p | None => "" end) in
         In directory (preferred_dirs home)
         /\ (directory = os_path_join host home [".local"; "bin"]
             \/ Py.mem directory path_dirs = true).
Proof.
  cbv zeta. unfold EnvironmentManager._get_install_directory.
  unfold bind at 1, perform at 1.
  destruct (sys host platform_system (world st)) as [system w1].
  cbn [fst snd]. destruct (String.eqb (Py.lower system) "windows").
  - io_unfold. destruct (sys host expanduser_home w1) as [home w2].
    eexists _, _. split; reflexivity.
  - unfold bind at 1, perform at 1. cbn [world trace].
    destruct (sys host (environ_get "PATH") w1) as [path w2].
    unfold bind at 1, perform at 1. cbn [world trace fst snd].
    destruct (sys host expanduser_home w2) as [home w3].
    cbn [fst]. unfold bind at 1.
    match goal with
    | |- context [EnvironmentManager.first_preferred host ?p ?d ?s] =>
        destruct (first_preferred_spec p d s) as (found & st' & E & Hfound)
    end.
    rewrite E. unfold ret. destruct found as [d |].
    + exists d, st'. split; [reflexivity |]. destruct Hfound as (Hin & Hmem).
      split; [exact Hin | right; exact Hmem].
    + eexists _, st'. split; [reflexivity |]. split; left; reflexivity.
Qed.

(** X14.  Every tool that [setup_environment] lists as missing has its own
    install hint: the list of missing tools never contains [ocm], and
    the fallback hint "Please install ... manually" is never used for a
    tool of the prerequisite mapping. *)
Theorem missing_tools_have_hints self st :
  exists prerequisites st',
    EnvironmentManager.check_prerequisites host self st
    = (Ok prerequisites, st')
    /\ forall tool,
         In tool (EnvironmentManager.missing_tools prerequisites) ->
         tool <> "ocm"
         /\ Py.get prerequisites tool true = false
         /\ In (tool, EnvironmentManager._get_install_hint self tool)
               [("docker", "https://docs.docker.com/get-docker/");
                ("kubectl",
                 "https://kubernetes.io/docs/tasks/tools/install-kubectl/");
                ("kind",
                 "https://kind.sigs.k8s.io/docs/user/quick-start/#installation");
                ("curl", "Install curl using your system package manager");
                ("git", "https://git-scm.com/downloads")].
Proof.
  destruct (check_prerequisites_keys self st) as (p & st' & E & Hkeys).
  exists p, st'. split; [exact E |].
  destruct p as [| [k1 b1] [| [k2 b2] [| [k3 b3] [| [k4 b4] [| [k5 b5]
             [| [k6 b6] [| ? ?]]]]]]]; try discriminate Hkeys.
  cbn in Hkeys. inversion Hkeys. subst. clear Hkeys.
  intros tool Hin.
  destruct b1, b2, b3, b4, b5, b6; cbn in Hin;
    repeat match goal with
           | H : _ \/ _ |- _ => destruct H as [H | H]
           | H : False |- _ => destruct H
           | H : _ = tool |- _ => subst tool
           end;
    (split; [discriminate | split; [reflexivity | cbn; tauto]]).
Qed.

(** *** Dry-run and readiness *)

(** In dry-run the registry status reports the registry as running only
    for the empty name. *)
Lemma get_registry_status_dry_running cfg st :
  exists status st',
    DockerManager.get_registry_status host (DockerManager.new true cfg) st
    = (Ok status, st')
    /\ status_running status = Py.mem (registry_name cfg) [""].
Proof.
  unfold DockerManager.get_registry_status,
    DockerManager.is_registry_running, DockerManager.is_registry_healthy.
  cbn [DockerManager.new DockerManager.runner DockerManager.dry_run
       DockerManager.config negb].
  unfold bind, try_except.
  rewrite !run_dry by reflexivity. cbn.
  eexists _, _. split; [reflexivity |]. cbn.
  destruct (registry_name cfg); reflexivity.
Qed.

(** X15.  With the dry-run flag and a registry name that is not empty, the
    environment is never reported ready: the synthetic listing is empty,
    so the registry counts as not running, [ready] is [False], and
    [_check_environment] refuses on every host. *)
Theorem dry_run_never_ready cfg runner st :
  registry_name cfg <> "" ->
  DemoRunner.environment runner = EnvironmentManager.new true cfg ->
  (exists status st',
      EnvironmentManager.get_environment_status
        host (EnvironmentManager.new true cfg) st = (Ok status, st')
      /\ status_running (registry status) = false
      /\ ready status = false)
  /\ fst (DemoRunner._check_environment host runner st) = Ok false.
Proof.
  intros Hname Henv.
  assert (Hstatus : exists status st',
             EnvironmentManager.get_environment_status
               host (EnvironmentManager.new true cfg) st = (Ok status, st')
             /\ status_running (registry status) = false
             /\ ready status = false).
  { unfold EnvironmentManager.get_environment_status, bind.
    destruct (returns_check_prerequisites
                (EnvironmentManager.new true cfg) st) as (p & s1 & E1).
    rewrite E1. cbn [EnvironmentManager.new EnvironmentManager.docker
                     EnvironmentManager.ocm].
    destruct (get_registry_status_dry_running cfg s1)
      as (r & s2 & E2 & Hrun).
    rewrite E2.
    destruct (returns_get_version (OCMClient.new true cfg) s2)
      as (v & s3 & E3). rewrite E3.
    assert (Hfalse : status_running r = false).
    { rewrite Hrun. cbn. rewrite orb_false_r. apply String.eqb_neq.
      exact Hname. }
    eexists _, _. split; [reflexivity |]. cbn. rewrite Hfalse.
    split; [reflexivity | apply andb_false_r]. }
  split; [exact Hstatus |].
  destruct Hstatus as (status & st' & E & _ & Hready).
  unfold DemoRunner._check_environment. unfold bind at 1.
  rewrite Henv, E, Hready. cbn [negb].
  io_unfold.
  repeat match goal with
         | |- context [if ?c then _ else _] => destruct c
         end;
    reflexivity.
Qed.

(** *** Reading whole numbers *)










(** *** Loading the configuration *)


(** X16.  On a host where none of the seven variables is set,
    [from_environment] returns the defaults of the dataclass. *)
Theorem from_environment_defaults value_error_text st :
  (forall name w,
      In name config_variables ->
      fst (sys host (environ_get name) w) = None) ->
  fst (from_environment host value_error_text st) = Ok Config_default.
Proof.
  intros Henv. unfold from_environment, getenv, int_of. io_unfold.
  repeat match goal with
  | |- context [sys host (environ_get ?n) ?w] =>
      let E := fresh "E" in
      assert (E : fst (sys host (environ_get n) w) = None)
        by (apply Henv; cbv [config_variables In]; tauto);
      destruct (sys host (environ_get n) w) as [? ?];
      cbn [fst snd] in E; rewrite E; clear E;
      cbv beta iota zeta; cbn [fst snd world trace]
  | |- context [Py.int_of_str ?s] =>
      let v := eval vm_compute in (Py.int_of_str s) in
      change (Py.int_of_str s) with v;
      cbv beta iota zeta; cbn [fst snd world trace]
  end.
  reflexivity.
Qed.


(** X18.  A port that [int] cannot read makes [from_environment] raise
    the exception of [int], and no other variable is read; there is no
    fall-back to the default. *)
Theorem from_environment_invalid_port value_error_text text st :
  fst (sys host (environ_get "OCM_DEMO_REGISTRY_PORT") (world st))
  = Some text ->
  Py.int_of_str text = None ->
  let load := from_environment host value_error_text st in
  (exists message, fst load = Raise (OtherException message))
  /\ interactions (trace (snd load))
     = (interactions (trace st)
        ++ [EvCall (environ_get "OCM_DEMO_REGISTRY_PORT")])%list.
Proof.
  intros Hanswer Hint. cbv zeta.
  unfold from_environment, getenv, int_of. io_unfold.
  destruct (sys host (environ_get "OCM_DEMO_REGISTRY_PORT") (world st))
    as [v w].
  cbn [fst] in Hanswer. subst v. cbv beta iota zeta. rewrite Hint.
  cbn [fst snd world trace]. split; [eexists; reflexivity |].
  trace_simpl. reflexivity.
Qed.

(** X19.  The configuration is loaded once.  After a first [get_config]
    has returned, every later call returns the same configuration
    without reading the environment, whatever the state of the host; and
    after [set_config] the configuration handed in is the one returned. *)
Theorem get_config_loads_once value_error_text config cache st st' :
  get_config host value_error_text None st = (Ok (config, cache), st') ->
  (forall later,
      get_config host value_error_text cache later
      = (Ok (config, cache), later))
  /\ (forall other later,
         get_config host value_error_text (set_config other cache) later
         = (Ok (other, Some other), later)).
Proof.
  unfold get_config at 1. io_unfold.
  destruct (from_environment host value_error_text st)
    as [[loaded | e] st1];
    [| discriminate].
  intros [= <- <- _]. split; reflexivity.
Qed.

(** *** Operations of the OCM client *)

Ltac checked_operation :=
  intros st; io_unfold;
  match goal with
  | |- context [CommandRunner.run host ?r ?c ?d ?e ?o ?k ?s ?s0] =>
      let st' := fresh "st'" in
      let E := fresh "E" in
      let Ht := fresh "Ht" in
      let Hc := fresh "Hc" in
      destruct (run_outcome r c d e o k s s0) as (st' & E & _ & Ht);
      rewrite E; clear E; cbn [trace world] in *;
      rewrite interactions_log in Ht;
      unfold spawn_argv; cbn [CommandRunner.shell_flag] in *;
      destruct (CommandRunner.dry_run r); cbn [orb];
      [| destruct (fst (sys host _ (world st))) as [code out err | msg | msg];
         cbn [completed exited_ok andb negb];
         [ destruct (code =? 0) eqn:Hc; cbn [negb] | | ] ];
      cbn [dry_result returncode Z.eqb]; rewrite ?Hc;
      cbv beta iota zeta; cbn [fst snd world trace];
      (split; [reflexivity | trace_simpl; rewrite Ht, ?app_nil_r; reflexivity])
  end.

Lemma transfer_component_checked self source target component_ref :
  checked_verdict
    (OCMClient.runner self)
    (["ocm"; "transfer"; "component"] ++ optional [] component_ref
     ++ [source; target])
    (OCMClient.transfer_component host self source target component_ref).
Proof.
  unfold OCMClient.transfer_component, optional.
  destruct component_ref as [[| c r] |];
    cbn [Py.truthy_opt Py.truthy Py.or_str app]; checked_operation.
Qed.

Lemma add_repository_checked self name url repo_type :
  checked_verdict
    (OCMClient.runner self)
    ["ocm"; "add"; "repository"; name; url; "--type"; repo_type]
    (OCMClient.add_repository host self name url repo_type).
Proof. unfold OCMClient.add_repository. checked_operation. Qed.

Lemma sign_component_checked self component_ref private_key_file
      signature_name :
  checked_verdict
    (OCMClient.runner self)
    (["ocm"; "sign"; "component"; component_ref;
      "--private-key"; private_key_file]
     ++ optional ["--signature"] signature_name)
    (OCMClient.sign_component host self component_ref private_key_file
                              signature_name).
Proof.
  unfold OCMClient.sign_component, optional.
  destruct signature_name as [[| c r] |];
    cbn [Py.truthy_opt Py.truthy Py.or_str app]; checked_operation.
Qed.

Lemma verify_component_checked self component_ref public_key_file :
  checked_verdict
    (OCMClient.runner self)
    (["ocm"; "verify"; "component"; component_ref]
     ++ optional ["--public-key"] public_key_file)
    (OCMClient.verify_component host self component_ref public_key_file).
Proof.
  unfold OCMClient.verify_component, optional.
  destruct public_key_file as [[| c r] |];
    cbn [Py.truthy_opt Py.truthy Py.or_str app]; checked_operation.
Qed.

(** X20.  [transfer_component] and [add_repository] never raise and return
    [True] exactly when the one [ocm] process they create exits with code
    0 (always in dry-run, where none is created).  The component
    reference of a transfer stands before the two repositories and is
    left out when it is [None] or empty. *)
Theorem repository_operations_verdict self :
  (forall source target component_ref,
      checked_verdict
        (OCMClient.runner self)
        (["ocm"; "transfer"; "component"] ++ optional [] component_ref
         ++ [source; target])
        (OCMClient.transfer_component host self source target component_ref))
  /\ (forall name url repo_type,
         checked_verdict
           (OCMClient.runner self)
           ["ocm"; "add"; "repository"; name; url; "--type"; repo_type]
           (OCMClient.add_repository host self name url repo_type)).
Proof.
  split; intros;
    [apply transfer_component_checked | apply add_repository_checked].
Qed.

(** X21.  [sign_component] and [verify_component] never raise and return
    [True] exactly when the [ocm] process exits with code 0; a failed
    verification (non-zero exit) and an [ocm] that cannot be started
    both give [False].  [--signature] and [--public-key] are passed only
    for a value that is given and not empty. *)
Theorem signature_operations_verdict self component_ref :
  (forall private_key_file signature_name,
      checked_verdict
        (OCMClient.runner self)
        (["ocm"; "sign"; "component"; component_ref;
          "--private-key"; private_key_file]
         ++ optional ["--signature"] signature_name)
        (OCMClient.sign_component host self component_ref private_key_file
                                  signature_name))
  /\ (forall public_key_file,
         checked_verdict
           (OCMClient.runner self)
           (["ocm"; "verify"; "component"; component_ref]
            ++ optional ["--public-key"] public_key_file)
           (OCMClient.verify_component host self component_ref
                                       public_key_file)).
Proof.
  split; intros;
    [apply sign_component_checked | apply verify_component_checked].
Qed.

(** *** Running the scripts of an example *)

Lemma run_bash_script_outcome self script_path st :
  let chmod := sys host (spawn_argv ["chmod"; "+x"; script_path]) (world st) in
  let bash := sys host (spawn_argv ["bash"; script_path]) (snd chmod) in
  exists st',
    DemoRunner._run_bash_script host self script_path st
    = (Ok (DemoRunner.dry_run self
           || (is_exited (fst chmod) && exited_ok (fst bash))), st')
    /\ interactions (trace st')
       = (interactions (trace st)
          ++ (if DemoRunner.dry_run self then []
              else EvCall (spawn_argv ["chmod"; "+x"; script_path])
                   :: (if is_exited (fst chmod)
                       then [EvCall (spawn_argv ["bash"; script_path])]
                       else [])))%list.
Proof.
  cbv zeta. unfold DemoRunner._run_bash_script.
  destruct (DemoRunner.dry_run self); cbn [orb].
  - io_unfold. eexists. split; [reflexivity |]. trace_simpl. reflexivity.
  - io_unfold.
    match goal with
    | |- context [CommandRunner.run host ?r ?c ?d ?e ?o ?k ?s ?s0] =>
        destruct (run_outcome r c d e o k s s0) as (st1 & E & Hw & Ht);
        rewrite E; clear E
    end.
    cbn [CommandRunner.new CommandRunner.dry_run CommandRunner.shell_flag]
      in *.
    unfold spawn_argv.
    destruct (sys host _ (world st)) as [chmod w1]. cbn [fst snd] in *.
    destruct chmod as [code out err | msg | msg];
      cbn [completed andb is_exited].
    + match goal with
      | |- context [CommandRunner.run host ?r ?c ?d ?e ?o ?k ?s ?s0] =>
          destruct (run_outcome r c d e o k s s0) as (st2 & E & _ & Ht2);
          rewrite E; clear E
      end.
      cbn [CommandRunner.new CommandRunner.dry_run CommandRunner.shell_flag]
        in *.
      rewrite Hw.
      destruct (fst (sys host _ w1)) as [code2 out2 err2 | msg | msg];
        cbn [completed andb exited_ok returncode];
        (eexists; split; [reflexivity |]); trace_simpl;
        rewrite Ht2, Ht, <- app_assoc; reflexivity.
    + eexists; split; [reflexivity |]. trace_simpl. rewrite Ht. reflexivity.
    + eexists; split; [reflexivity |]. trace_simpl. rewrite Ht. reflexivity.
Qed.

(** X22.  [_run_bash_script] never raises.  In dry-run it returns [True]
    without a request to the host.  Otherwise the exit code of [chmod]
    is ignored: the script is run whenever [chmod] could be started, and
    the result is whether [bash] exits with code 0; when [chmod] cannot
    be started the result is [False] and [bash] is not tried. *)
Theorem run_bash_script_verdict self script_path st :
  let chmod := sys host (spawn_argv ["chmod"; "+x"; script_path]) (world st) in
  let bash := sys host (spawn_argv ["bash"; script_path]) (snd chmod) in
  let run := DemoRunner._run_bash_script host self script_path st in
  fst run
  = Ok (DemoRunner.dry_run self
        || (is_exited (fst chmod) && exited_ok (fst bash)))
  /\ interactions (trace (snd run))
     = (interactions (trace st)
        ++ (if DemoRunner.dry_run self then []
            else EvCall (spawn_argv ["chmod"; "+x"; script_path])
                 :: (if is_exited (fst chmod)
                     then [EvCall (spawn_argv ["bash"; script_path])]
                     else [])))%list.
Proof.
  cbv zeta.
  destruct (run_bash_script_outcome self script_path st) as (st' & E & Ht).
  rewrite E. split; [reflexivity | exact Ht].
Qed.

(** X23.  [_run_example_script] asks whether the script exists under
    the examples directory first, also in dry-run, at the path that
    [pathlib] makes of the directory and the two arguments.  When the
    answer is no, it returns [False] and no process is created; when it
    is yes, the result and the processes are those of [_run_bash_script]
    on that path. *)
Theorem run_example_script_verdict
        path_str self relative_path script_name st present w1 :
  let script_path :=
    path_str (DemoRunner.examples_dir self) [relative_path; script_name] in
  sys host (path_exists script_path) (world st) = (present, w1) ->
  let chmod := sys host (spawn_argv ["chmod"; "+x"; script_path]) w1 in
  let bash := sys host (spawn_argv ["bash"; script_path]) (snd chmod) in
  let run :=
    DemoRunner._run_example_script host path_str self relative_path
                                   script_name st in
  fst run
  = Ok (present
        && (DemoRunner.dry_run self
            || (is_exited (fst chmod) && exited_ok (fst bash))))
  /\ interactions (trace (snd run))
     = (interactions (trace st)
        ++ EvCall (path_exists script_path)
           :: (if present && negb (DemoRunner.dry_run self)
               then EvCall (spawn_argv ["chmod"; "+x"; script_path])
                    :: (if is_exited (fst chmod)
                        then [EvCall (spawn_argv ["bash"; script_path])]
                        else [])
               else []))%list.
Proof.
  intros script_path Hprobe. cbv zeta.
  unfold DemoRunner._run_example_script. fold script_path. io_unfold.
  rewrite Hprobe. cbv beta iota zeta. cbn [fst snd world trace].
  destruct present; cbn [negb andb].
  - match goal with
    | |- context [DemoRunner._run_bash_script host ?r ?p ?s] =>
        destruct (run_bash_script_outcome r p s) as (st' & E & Ht); rewrite E
    end.
    cbn [world trace fst snd] in *. split; [reflexivity |].
    rewrite Ht. trace_simpl. rewrite <- app_assoc.
    destruct (DemoRunner.dry_run self); reflexivity.
  - cbn [fst snd]. split; [reflexivity |]. trace_simpl. reflexivity.
Qed.

(** *** Health, teardown and the examples directory *)

(** X24.  [is_registry_healthy] never raises: it is [True] in dry-run and
    otherwise exactly when [curl] on the [/v2/] endpoint exits with code
    0; a [curl] that cannot be started gives [False].  A port of [None]
    or 0 stands for the configured port. *)
Theorem is_registry_healthy_verdict self port st :
  let port' := Py.or_int port (registry_port (DockerManager.config self)) in
  let dry := CommandRunner.dry_run (DockerManager.runner self) in
  let check := DockerManager.is_registry_healthy host self port st in
  fst check
  = Ok (dry || exited_ok (fst (sys host (health_probe port') (world st))))
  /\ interactions (trace (snd check))
     = (interactions (trace st)
        ++ (if dry then [] else [EvCall (health_probe port')]))%list.
Proof.
  cbv zeta. unfold DockerManager.is_registry_healthy. io_unfold.
  match goal with
  | |- context [CommandRunner.run host ?r ?c ?d ?e ?o ?k ?s ?s0] =>
      destruct (run_outcome r c d e o k s s0) as (st' & E & _ & Ht);
      rewrite E; clear E
  end.
  unfold health_probe. cbn [CommandRunner.shell_flag] in *.
  destruct (CommandRunner.dry_run (DockerManager.runner self)); cbn [orb].
  - split; [reflexivity | exact Ht].
  - destruct (fst (sys host _ (world st))) as [code out err | msg | msg];
      cbn [completed andb exited_ok returncode fst snd];
      (split; [reflexivity | exact Ht]).
Qed.

(** X25.  [cleanup_environment] never raises and its verdict is the one of
    [stop_registry] for the configured registry name: [True] in dry-run
    or when [docker stop] and [docker rm] could both be started,
    whatever their exit codes. *)
Theorem cleanup_environment_verdict self st :
  let manager := EnvironmentManager.docker self in
  let name := registry_name (DockerManager.config manager) in
  let stop := sys host (spawn_argv ["docker"; "stop"; name]) (world st) in
  let remove := sys host (spawn_argv ["docker"; "rm"; name]) (snd stop) in
  fst (EnvironmentManager.cleanup_environment host self st)
  = Ok (CommandRunner.dry_run (DockerManager.runner manager)
        || (is_exited (fst stop) && is_exited (fst remove))).
Proof.
  cbv zeta. unfold EnvironmentManager.cleanup_environment. io_unfold.
  match goal with
  | |- context [DockerManager.stop_registry host ?m ?n ?s] =>
      pose proof (stop_registry_outcome m n s) as H; cbv zeta in H;
      destruct H as (H & _);
      destruct (DockerManager.stop_registry host m n s) as [r s']
  end.
  cbn [fst world Py.or_str] in H. subst r.
  match goal with
  | |- context [Ok (?a || ?b)] => destruct (a || b)
  end; reflexivity.
Qed.

(** X26.  The edges of [list_available_examples]: without an examples
    directory the list is empty and the directory is not read; when the
    directory exists and reading it raises, the exception escapes (there
    is no handler). *)
Theorem list_available_examples_edges self st :
  let dir := DemoRunner.examples_dir self in
  let probe := sys host (path_exists dir) (world st) in
  let listing := sys host (path_iterdir dir) (snd probe) in
  let run := DemoRunner.list_available_examples host self st in
  if fst probe then
    match fst listing with
    | Raise e => fst run = Raise e
    | Ok [] => fst run = Ok []
    | Ok (_ :: _) => True
    end
  else
    fst run = Ok []
    /\ interactions (trace (snd run))
       = (interactions (trace st) ++ [EvCall (path_exists dir)])%list.
Proof.
  cbv zeta. unfold DemoRunner.list_available_examples. io_unfold.
  destruct (sys host (path_exists _) (world st)) as [present w1].
  cbn [fst snd world trace]. destruct present;
    cbv beta iota zeta; cbn [fst snd world trace].
  - destruct (sys host (path_iterdir _) w1) as [[items | e] w2];
      cbv beta iota zeta; cbn [fst snd world trace]; [| reflexivity].
    destruct items; [reflexivity | exact I].
  - cbn [fst snd world trace]. split; [reflexivity |].
    trace_simpl. reflexivity.
Qed.

(** *** The choice of the release asset *)

Lemma find_download_url_none name assets :
  (forall asset, In asset assets ->
                 Py.contains (asset_name asset) name = false) ->
  EnvironmentManager.find_download_url name assets = None.
Proof.
  induction assets as [| a rest IH]; [reflexivity |].
  intros H. cbn [EnvironmentManager.find_download_url].
  rewrite (H a (or_introl eq_refl)). apply IH.
  intros asset Hin. apply H. right. exact Hin.
Qed.

(** X27.  The loop over the assets takes the first asset whose name
    contains the wanted name: a URL it yields belongs to such an asset
    and no earlier asset matches; it yields nothing exactly when no asset
    matches. *)
Theorem find_download_url_first_match name assets :
  match EnvironmentManager.find_download_url name assets with
  | Some url =>
      exists before asset after,
        assets = (before ++ asset :: after)%list
        /\ url = browser_download_url asset
        /\ Py.contains (asset_name asset) name = true
        /\ forallb (fun a => negb (Py.contains (asset_name a) name)) before
           = true
  | None =>
      forallb (fun a => negb (Py.contains (asset_name a) name)) assets = true
  end.
Proof.
  induction assets as [| a rest IH]; [reflexivity |].
  cbn [EnvironmentManager.find_download_url forallb].
  destruct (Py.contains (asset_name a) name) eqn:Ha.
  - exists [], a, rest. repeat split; assumption.
  - destruct (EnvironmentManager.find_download_url name rest) as [url |].
    + destruct IH as (before & asset & after & -> & -> & Hc & Hb).
      exists (a :: before), asset, after. repeat split; try assumption.
      cbn [forallb]. rewrite Ha, Hb. reflexivity.
    + cbn [negb andb]. exact IH.
Qed.

(** X28.  When the latest release has no asset for the platform,
    [_download_and_install_ocm] returns [False] after the one request
    for the release metadata: nothing is downloaded and no file or
    directory is created, in dry-run or not. *)
Theorem download_without_matching_asset self os_name arch st release w :
  sys host (urlopen_json EnvironmentManager.api_url) (world st)
  = (Ok release, w) ->
  (forall asset,
      In asset (assets release) ->
      Py.contains (asset_name asset)
                  (wanted_asset (tag_name release) os_name arch) = false) ->
  let run :=
    EnvironmentManager._download_and_install_ocm host self os_name arch st in
  fst run = Ok false
  /\ world (snd run) = w
  /\ interactions (trace (snd run))
     = (interactions (trace st)
        ++ [EvCall (urlopen_json EnvironmentManager.api_url)])%list.
Proof.
  intros Hrelease Hnone. cbv zeta.
  apply find_download_url_none in Hnone. unfold wanted_asset in Hnone.
  unfold EnvironmentManager._download_and_install_ocm. io_unfold.
  rewrite Hrelease. cbv beta iota zeta. cbn [fst snd world trace].
  rewrite Hnone. cbn [Py.truthy_opt negb fst snd world trace].
  repeat split. trace_simpl. reflexivity.
Qed.

End Properties.

(* ===================================================================== *)
(** ** The properties on the sample hosts *)
(* ===================================================================== *)

(** C1, counterexample.  On a machine with the network up, the
    installer's download step in dry-run returns [True] after it has
    requested the release metadata, created a temporary file, downloaded
    the asset, written it and created the install directory; on the
    machine with the network down it returns [False]. *)
Lemma dry_run_installer_reaches_host :
  fst (EnvironmentManager._download_and_install_ocm
         Sample.online Sample.dry_environment "linux" "amd64"
         (Sample.start tt))
  = Ok true
  /\ filter is_external
    (trace (snd (EnvironmentManager._download_and_install_ocm
                   Sample.online Sample.dry_environment "linux" "amd64"
                   (Sample.start tt))))
  = [EvCall (urlopen_json EnvironmentManager.api_url);
     EvCall tempfile_create;
     EvCall (urlopen_read "https://example.org/linux-amd64");
     EvCall (file_write "/tmp/tmpocm" "binary");
     EvCall (os_makedirs "/usr/local/bin")]
  /\ fst (EnvironmentManager._download_and_install_ocm
            Sample.offline Sample.dry_environment "linux" "amd64"
            (Sample.start tt))
     = Ok false.
Proof. split; [| split]; reflexivity. Qed.

(** C3, counterexample.  On a machine where the port is taken the
    health probe never reports success ([curl] is not even installed),
    and [start_registry] returns [False] once [docker run] has failed:
    it has made no health-check attempt and has not slept (its requests
    are the two listings, the removals and the launch). *)
Lemma failed_launch_returns_without_polling :
  (forall s,
      fst (DockerManager.is_registry_healthy
             Sample.port_taken Sample.manager (Some 5001) s)
      = Ok false)
  /\ fst (DockerManager.start_registry Sample.port_taken Sample.manager
                                       None None (Sample.start tt))
     = Ok false
  /\ filter is_health_probe
            (trace (snd (DockerManager.start_registry
                           Sample.port_taken Sample.manager None None
                           (Sample.start tt))))
     = []
  /\ interactions
       (trace (snd (DockerManager.start_registry
                      Sample.port_taken Sample.manager None None
                      (Sample.start tt))))
     = [EvCall list_running;
        EvCall (list_on_port 5001);
        EvCall (remove_by_id "3f2a");
        EvCall (remove_by_id "77c1");
        EvCall (spawn_argv ["docker"; "rm"; "-f"; "local-registry"]);
        EvCall (subprocess_spawn
                  (DockerManager.launch_command 5001 "local-registry")
                  None None false)].
Proof.
  split; [intros [[] t]; reflexivity |].
  split; [reflexivity | split; reflexivity].
Qed.

(** C3, on a machine whose registry never becomes healthy. *)
Lemma start_registry_poll_bound_witness :
  (forall s,
      fst (DockerManager.is_registry_healthy
             (Sample.with_docker false) Sample.manager (Some 5001) s)
      = Ok false)
  /\ exists st4 before,
       DockerManager.start_registry (Sample.with_docker false) Sample.manager
                                    None None (Sample.start false)
       = (Ok false, st4)
       /\ length (filter is_health_probe (interactions (trace st4))) = 30%nat
       /\ filter is_health_probe before = [].
Proof.
  assert (Hnever : forall s,
             fst (DockerManager.is_registry_healthy
                    (Sample.with_docker false) Sample.manager (Some 5001) s)
             = Ok false).
  { intros [[|] t]; reflexivity. }
  split; [exact Hnever |].
  destruct (start_registry_poll_bound
              (Sample.with_docker false) Sample.manager None None
              (Sample.start false) Hnever eq_refl eq_refl eq_refl)
    as (st4 & before & Hstart & Hbefore & Hnone & Htrace & Hcount).
  exists st4, before. split; [exact Hstart |]. split; [| exact Hnone].
  rewrite Htrace, filter_app, length_app, Hcount. reflexivity.
Defined.

(** C4, on a machine with a container engine: the first start succeeds,
    and the second one lists the containers and does nothing else. *)
Lemma start_registry_idempotent_witness :
  fst (DockerManager.start_registry (Sample.with_docker true) Sample.manager
                                    None None (Sample.start false))
  = Ok true
  /\ fst (DockerManager.is_registry_running
            (Sample.with_docker true) Sample.manager (Some "local-registry")
            Sample.after_first_start)
     = Ok true
  /\ exists st',
       DockerManager.start_registry (Sample.with_docker true) Sample.manager
                                    None None Sample.after_first_start
       = (Ok true, st')
       /\ interactions (trace st')
          = (interactions (trace Sample.after_first_start)
             ++ [EvCall list_running])%list.
Proof.
  split; [reflexivity | split; [reflexivity |]].
  destruct (start_registry_idempotent
              (Sample.with_docker true) Sample.manager None None
              Sample.after_first_start eq_refl)
    as (st' & Hstart & _ & Htrace & _).
  exists st'. split; [exact Hstart | exact Htrace].
Defined.

(** C5, counterexample.  With host [example.com] and port 8080 the URL
    of the configuration is [example.com:8080], and the URL of the
    status record is [http://localhost:8080]: it does not reflect the
    configured host. *)
Lemma status_url_ignores_configured_host :
  registry_url example_config = "example.com:8080"
  /\ exists status st',
       DockerManager.get_registry_status
         Sample.offline (DockerManager.new true example_config)
         (Sample.start tt)
       = (Ok status, st')
       /\ status_url status = "http://localhost:8080"
       /\ status_url status <> registry_url example_config
       /\ Py.contains (status_url status) (registry_host example_config)
          = false.
Proof.
  split; [reflexivity |]. eexists _, _. split; [reflexivity |].
  cbn [status_url]. split; [reflexivity | split; [discriminate | reflexivity]].
Qed.

(** C6, counterexample.  On a machine without [docker] the host cannot
    locate the program, and a runner with the dry-run flag reports
    return code 0 for it: nothing is looked up. *)
Lemma dry_run_reports_success_for_missing_program :
  fst (sys Sample.offline
           (subprocess_spawn (CmdList ["docker"; "info"]) None None false) tt)
  = NotFound "[Errno 2] No such file or directory"
  /\ fst (CommandRunner.run Sample.offline (CommandRunner.new true)
                            (CmdList ["docker"; "info"]) None None
                            true false None (Sample.start tt))
     = Ok {| args := CmdList ["docker"; "info"]; returncode := 0;
             stdout := Some ""; stderr := Some "" |}
  /\ interactions
       (trace (snd (CommandRunner.run Sample.offline (CommandRunner.new true)
                                      (CmdList ["docker"; "info"]) None None
                                      true false None (Sample.start tt))))
     = [].
Proof. split; [| split]; reflexivity. Qed.

(** C6, on a machine without the program. *)
Lemma run_program_not_found_witness :
  CommandRunner.dry_run (CommandRunner.new false) = false
  /\ exists st',
       CommandRunner.run Sample.offline (CommandRunner.new false)
                         (CmdList ["docker"; "info"]) None None true false None
                         (Sample.start tt)
       = (Raise (CalledProcessError
                   127 (CmdList ["docker"; "info"]) None
                   (Some "[Errno 2] No such file or directory")), st')
       /\ world st' = tt.
Proof.
  split; [reflexivity |].
  apply (run_program_not_found
           Sample.offline (CommandRunner.new false)
           (CmdList ["docker"; "info"]) None None true false None
           (Sample.start tt) eq_refl eq_refl).
Defined.

(** C8, on the directory of the unit test: [01-basic], [02-transport]
    and [.hidden] (and a file) give exactly [01-basic] and
    [02-transport]. *)
Lemma list_available_examples_witness :
  exists st',
    DemoRunner.list_available_examples Sample.with_examples Sample.demo_runner
                                       (Sample.start tt)
    = (Ok ["01-basic"; "02-transport"], st').
Proof.
  destruct (list_available_examples_sorted_visible_directories
              Sample.with_examples Sample.demo_runner (Sample.start tt)
              (fun name =>
                 fst (sys Sample.with_examples
                          (path_is_dir
                             (os_path_join Sample.with_examples
                                           "/repo/examples" [name])) tt))
              (w1 := tt) (w2 := tt)
              (items := ["02-transport"; ".hidden"; "README.md"; "01-basic"])
              eq_refl eq_refl)
    as (examples & st' & Hlist & Hexamples & _).
  - intros [] name. reflexivity.
  - exists st'. rewrite Hlist, Hexamples. reflexivity.
Defined.

(** C10, counterexample.  The shell of the host reports an unknown
    program with status 127, and [run_with_output] hands that status to
    its caller. *)
Lemma run_with_output_passes_127 :
  fst (CommandRunner.run_with_output
         Sample.with_shell (CommandRunner.new false) (CmdStr "nosuch")
         None None (Sample.start tt))
  = Ok (127, Some "", Some "/bin/sh: 1: nosuch: not found").
Proof. reflexivity. Qed.

(** X1, on a sample host.
    The exit-code policy of [run], on a machine whose shell reports an
    unknown program with status 127. *)
Lemma run_exit_code_policy_witness :
  (exists result,
      fst (CommandRunner.run Sample.with_shell (CommandRunner.new false)
                             (CmdStr "nosuch") None None true false None
                             (Sample.start tt)) = Ok result
      /\ returncode result = 127)
  /\ exists o e,
       fst (CommandRunner.run Sample.with_shell (CommandRunner.new false)
                              (CmdStr "nosuch") None None true true None
                              (Sample.start tt))
       = Raise (CalledProcessError 127 (CmdStr "nosuch") o e).
Proof.
  destruct (@run_exit_code_policy
              Sample.with_shell (CommandRunner.new false) (CmdStr "nosuch")
              None None true None (Sample.start tt) 127 ""
              "/bin/sh: 1: nosuch: not found" tt eq_refl eq_refl)
    as (Hplain & Hchecked).
  split; [exact Hplain | apply Hchecked; discriminate].
Defined.

(** X7, on a sample host.
    [cleanup_registry_port] on a machine where two containers publish
    the port: both are removed, in the order of the listing. *)
Lemma cleanup_registry_port_removals_witness :
  exists st',
    DockerManager.cleanup_registry_port Sample.port_taken Sample.manager 5001
                                        (Sample.start tt)
    = (Ok tt, st')
    /\ interactions (trace st')
       = [EvCall (list_on_port 5001); EvCall (remove_by_id "3f2a");
          EvCall (remove_by_id "77c1")].
Proof.
  apply (cleanup_registry_port_removals
           Sample.port_taken Sample.manager 5001 (Sample.start tt)).
  intros id w _. reflexivity.
Defined.

(** X8, on a sample host.
    On a machine without a container engine [start_registry] raises. *)
Lemma start_registry_raises_when_removal_not_found_witness :
  fst (DockerManager.start_registry Sample.offline Sample.manager None None
                                    (Sample.start tt))
  = Raise (CalledProcessError
             127 (CmdList ["docker"; "rm"; "-f"; "local-registry"]) None
             (Some "[Errno 2] No such file or directory")).
Proof.
  apply (start_registry_raises_when_removal_not_found
           Sample.offline Sample.manager None None (Sample.start tt)
           eq_refl eq_refl eq_refl).
Defined.

(** X9, on a sample host.
    On a machine where the port is taken the launch fails and the
    registry is never probed. *)
Lemma start_registry_launch_failure_witness :
  fst (DockerManager.start_registry Sample.port_taken Sample.manager None None
                                    (Sample.start tt))
  = Ok false
  /\ filter is_health_probe
            (trace (snd (DockerManager.start_registry
                           Sample.port_taken Sample.manager None None
                           (Sample.start tt))))
     = [].
Proof.
  apply (start_registry_launch_failure
           Sample.port_taken Sample.manager None None (Sample.start tt)
           eq_refl eq_refl eq_refl eq_refl).
Defined.

(** X10, on a sample host.
    On a machine with the tool installed nothing is installed again. *)
Lemma install_ocm_cli_already_installed_witness :
  fst (EnvironmentManager.install_ocm_cli
         Sample.with_ocm (EnvironmentManager.new false Config_default)
         (Sample.start tt))
  = Ok true
  /\ interactions
       (trace (snd (EnvironmentManager.install_ocm_cli
                      Sample.with_ocm
                      (EnvironmentManager.new false Config_default)
                      (Sample.start tt))))
     = [EvCall (shutil_which "ocm")].
Proof.
  destruct (install_ocm_cli_already_installed
              Sample.with_ocm (EnvironmentManager.new false Config_default)
              (Sample.start tt) eq_refl)
    as (Hresult & _ & Htrace).
  split; [exact Hresult | exact Htrace].
Defined.

(** X11, on a sample host.
    On a riscv64 machine the installer gives up before it asks the
    network. *)
Lemma install_ocm_cli_unsupported_platform_witness :
  fst (EnvironmentManager.install_ocm_cli
         Sample.riscv (EnvironmentManager.new false Config_default)
         (Sample.start tt))
  = Ok false
  /\ interactions
       (trace (snd (EnvironmentManager.install_ocm_cli
                      Sample.riscv
                      (EnvironmentManager.new false Config_default)
                      (Sample.start tt))))
     = [EvCall (shutil_which "ocm"); EvCall platform_system;
        EvCall platform_machine].
Proof.
  apply (install_ocm_cli_unsupported_platform
           Sample.riscv (EnvironmentManager.new false Config_default)
           (Sample.start tt) eq_refl (or_introl eq_refl)).
Defined.

(** X12, on a sample host.
    On a Linux x86_64 machine the installer runs the download step for
    [linux] and [amd64]. *)
Lemma install_ocm_cli_delegates_witness :
  fst (EnvironmentManager.install_ocm_cli
         Sample.online Sample.dry_environment (Sample.start tt))
  = fst (EnvironmentManager._download_and_install_ocm
           Sample.online Sample.dry_environment "linux" "amd64"
           (Sample.start tt)).
Proof.
  destruct (install_ocm_cli_delegates
              Sample.online Sample.dry_environment (Sample.start tt)
              (arch := "amd64") eq_refl eq_refl eq_refl)
    as (Hresult & _).
  rewrite Hresult. reflexivity.
Defined.

(** X15, on a sample host.
    The dry-run demo runner with the default configuration is not
    ready. *)
Lemma dry_run_never_ready_witness :
  fst (DemoRunner._check_environment Sample.offline Sample.demo_runner
                                     (Sample.start tt))
  = Ok false.
Proof.
  apply (dry_run_never_ready
           Sample.offline (cfg := Config_default) Sample.demo_runner
           (Sample.start tt)).
  - discriminate.
  - reflexivity.
Defined.

(** X16, on a sample host.
    The bare machine sets none of the variables of the configuration. *)
Lemma from_environment_defaults_witness :
  fst (from_environment Sample.offline Sample.int_error_text
                        (Sample.start tt))
  = Ok Config_default.
Proof.
  apply from_environment_defaults.
  intros name w Hname. cbv [config_variables In] in Hname.
  repeat (destruct Hname as [<- | Hname]; [reflexivity |]).
  contradiction.
Defined.


(** X18, on a sample host.
    With [OCM_DEMO_REGISTRY_PORT] set to the empty string the
    configuration cannot be loaded. *)
Lemma from_environment_invalid_port_witness :
  (exists message,
      fst (from_environment (Sample.with_environment (Sample.port_only ""))
                            Sample.int_error_text (Sample.start tt))
      = Raise (OtherException message))
  /\ interactions
       (trace (snd (from_environment
                      (Sample.with_environment (Sample.port_only ""))
                      Sample.int_error_text (Sample.start tt))))
     = [EvCall (environ_get "OCM_DEMO_REGISTRY_PORT")].
Proof.
  apply (from_environment_invalid_port
           (Sample.with_environment (Sample.port_only ""))
           Sample.int_error_text (text := "")
           (Sample.start tt) eq_refl eq_refl).
Defined.

(** X19, on a sample host.
    After a first [get_config] on the bare machine, a second one on a
    machine in any state returns the defaults again. *)
Lemma get_config_loads_once_witness :
  (forall later,
      get_config Sample.offline Sample.int_error_text
                 (Some Config_default) later
      = (Ok (Config_default, Some Config_default), later))
  /\ (forall other later,
         get_config Sample.offline Sample.int_error_text
                    (set_config other (Some Config_default)) later
         = (Ok (other, Some other), later)).
Proof.
  apply (get_config_loads_once
           Sample.offline Sample.int_error_text (config := Config_default)
           (cache := Some Config_default) (Sample.start tt)
           (st' := snd (get_config Sample.offline Sample.int_error_text
                                   None (Sample.start tt)))).
  reflexivity.
Defined.

(** X23, on a sample host.
    For the relative path [./01-basic//] the script is looked up and run
    as [/repo/examples/01-basic/run.sh]. *)
Lemma run_example_script_verdict_witness :
  Sample.posix_path_str "/repo/examples" ["./01-basic//"; "run.sh"]
  = "/repo/examples/01-basic/run.sh"
  /\ fst (DemoRunner._run_example_script
            Sample.with_script Sample.posix_path_str Sample.script_runner
            "./01-basic//" "run.sh" (Sample.start tt))
     = Ok true
  /\ interactions
       (trace (snd (DemoRunner._run_example_script
                      Sample.with_script Sample.posix_path_str
                      Sample.script_runner "./01-basic//" "run.sh"
                      (Sample.start tt))))
     = [EvCall (path_exists "/repo/examples/01-basic/run.sh");
        EvCall (spawn_argv ["chmod"; "+x"; "/repo/examples/01-basic/run.sh"]);
        EvCall (spawn_argv ["bash"; "/repo/examples/01-basic/run.sh"])].
Proof.
  split; [reflexivity |].
  apply (run_example_script_verdict
           Sample.with_script Sample.posix_path_str Sample.script_runner
           "./01-basic//" "run.sh" (Sample.start tt)
           (present := true) (w1 := tt) eq_refl).
Defined.

(** X28, on a sample host.
    The sample release has no binary for Linux on arm64. *)
Lemma download_without_matching_asset_witness :
  fst (EnvironmentManager._download_and_install_ocm
         Sample.online (EnvironmentManager.new false Config_default)
         "linux" "arm64" (Sample.start tt))
  = Ok false
  /\ interactions
       (trace (snd (EnvironmentManager._download_and_install_ocm
                      Sample.online
                      (EnvironmentManager.new false Config_default)
                      "linux" "arm64" (Sample.start tt))))
     = [EvCall (urlopen_json EnvironmentManager.api_url)].
Proof.
  destruct (download_without_matching_asset
              Sample.online (EnvironmentManager.new false Config_default)
              "linux" "arm64" (Sample.start tt)
              (release := Sample.release_v1) (w := tt) eq_refl)
    as (Hresult & _ & Htrace).
  - intros asset [<- | [<- | []]]; reflexivity.
  - split; [exact Hresult | exact Htrace].
Defined.
